(** * kachery-client feeds: a shallow embedding of [_feeds.py]

    The development follows [src/kachery_client/_feeds.py].  Python values
    are modelled as follows.

    - A Python [str] is a Rocq [string] holding the UTF-8 encoding of the
      text.  Every operation the module applies to strings ([split],
      [join], [replace], [startswith], slicing off a leading ['~']) works
      on ASCII delimiters, so it acts on the encoding byte for byte.
    - JSON-like values (messages, snapshot payloads, daemon answers,
      structured subfeed names) are the inductive type [json].
    - Exceptions are the inductive type [exn]; a computation that may raise
      returns a [result].
    - The daemon is reached through [_http_post_json]; it is a parameter of
      the section that embeds the classes, and every call is recorded in a
      trace. *)

From Stdlib Require Import ZArith NArith List String Ascii Bool Lia.
From Stdlib Require Import Permutation DecimalString.
Import ListNotations.

Local Open Scope string_scope.
Local Open Scope Z_scope.

(* ================================================================== *)
(** ** Python string primitives *)

Module PyStr.

(** [s.split(sep)] for a one-character separator: always at least one
    piece. *)
Fixpoint split (sep : ascii) (s : string) : list string :=
  match s with
  | EmptyString => [EmptyString]
  | String c s' =>
      if Ascii.eqb c sep then EmptyString :: split sep s'
      else match split sep s' with
           | [] => [String c EmptyString]
           | p :: ps => String c p :: ps
           end
  end.

(** [sep.join(l)]. *)
Fixpoint join (sep : string) (l : list string) : string :=
  match l with
  | [] => EmptyString
  | x :: l' =>
      match l' with
      | [] => x
      | _ :: _ => x ++ sep ++ join sep l'
      end
  end.

(** [s.replace(c, '')] for a one-character [c]. *)
Fixpoint remove_char (c : ascii) (s : string) : string :=
  match s with
  | EmptyString => EmptyString
  | String a s' =>
      if Ascii.eqb a c then remove_char c s' else String a (remove_char c s')
  end.

(** [s.startswith(p)]. *)
Definition startswith (s p : string) : bool := String.prefix p s.

(** [c in s] for a one-character [c]. *)
Fixpoint contains (c : ascii) (s : string) : bool :=
  match s with
  | EmptyString => false
  | String a s' => Ascii.eqb a c || contains c s'
  end.

(** [s[1:]]; used only behind [s.startswith('~')]. *)
Definition drop1 (s : string) : string :=
  match s with
  | EmptyString => EmptyString
  | String _ s' => s'
  end.

(** Truth value of a string: non-empty. *)
Definition truthy (s : string) : bool :=
  match s with
  | EmptyString => false
  | String _ _ => true
  end.

End PyStr.

(* ================================================================== *)
(** ** UTF-8 *)

Module Utf8.

Local Open Scope N_scope.

(** Unicode scalar values: the code points a Python [str] can encode. *)
Definition scalar (c : N) : bool :=
  (c <? 0xD800) || ((0xDFFF <? c) && (c <? 0x110000)).

Definition byte (n : N) : ascii := ascii_of_N n.

(** [chr(c).encode('utf-8')]. *)
Definition encode_cp (c : N) : string :=
  if c <? 0x80 then String (byte c) ""
  else if c <? 0x800 then
    String (byte (0xC0 + c / 64)) (String (byte (0x80 + c mod 64)) "")
  else if c <? 0x10000 then
    String (byte (0xE0 + c / 4096))
      (String (byte (0x80 + (c / 64) mod 64))
         (String (byte (0x80 + c mod 64)) ""))
  else
    String (byte (0xF0 + c / 262144))
      (String (byte (0x80 + (c / 4096) mod 64))
         (String (byte (0x80 + (c / 64) mod 64))
            (String (byte (0x80 + c mod 64)) ""))).

Fixpoint encode (cps : list N) : string :=
  match cps with
  | [] => ""
  | c :: cps' => encode_cp c ++ encode cps'
  end.

Definition replacement : N := 0xFFFD.

Definition cont (b : N) : bool := (0x80 <=? b) && (b <=? 0xBF).

(** Admissible second byte after a three-byte lead. *)
Definition second3 (b1 b2 : N) : bool :=
  cont b2 &&
  (if b1 =? 0xE0 then 0xA0 <=? b2 else if b1 =? 0xED then b2 <=? 0x9F else true).

(** Admissible second byte after a four-byte lead. *)
Definition second4 (b1 b2 : N) : bool :=
  cont b2 &&
  (if b1 =? 0xF0 then 0x90 <=? b2 else if b1 =? 0xF4 then b2 <=? 0x8F else true).

(** [bs.decode('utf-8', 'replace')]: every maximal ill-formed subpart
    becomes one U+FFFD, as the CPython decoder does. *)
Fixpoint decode (s : string) : list N :=
  match s with
  | EmptyString => []
  | String a1 r1 =>
    let b1 := N_of_ascii a1 in
    if b1 <? 0x80 then b1 :: decode r1
    else if b1 <? 0xC2 then replacement :: decode r1
    else if b1 <? 0xE0 then
      match r1 with
      | EmptyString => [replacement]
      | String a2 r2 =>
        let b2 := N_of_ascii a2 in
        if cont b2 then ((b1 - 0xC0) * 64 + (b2 - 0x80)) :: decode r2
        else replacement :: decode r1
      end
    else if b1 <? 0xF0 then
      match r1 with
      | EmptyString => [replacement]
      | String a2 r2 =>
        let b2 := N_of_ascii a2 in
        if second3 b1 b2 then
          match r2 with
          | EmptyString => [replacement]
          | String a3 r3 =>
            let b3 := N_of_ascii a3 in
            if cont b3 then
              ((b1 - 0xE0) * 4096 + (b2 - 0x80) * 64 + (b3 - 0x80)) :: decode r3
            else replacement :: decode r2
          end
        else replacement :: decode r1
      end
    else if b1 <? 0xF5 then
      match r1 with
      | EmptyString => [replacement]
      | String a2 r2 =>
        let b2 := N_of_ascii a2 in
        if second4 b1 b2 then
          match r2 with
          | EmptyString => [replacement]
          | String a3 r3 =>
            let b3 := N_of_ascii a3 in
            if cont b3 then
              match r3 with
              | EmptyString => [replacement]
              | String a4 r4 =>
                let b4 := N_of_ascii a4 in
                if cont b4 then
                  ((b1 - 0xF0) * 262144 + (b2 - 0x80) * 4096
                   + (b3 - 0x80) * 64 + (b4 - 0x80)) :: decode r4
                else replacement :: decode r3
              end
            else replacement :: decode r2
          end
        else replacement :: decode r1
      end
    else replacement :: decode r1
  end.

(** The model's image of [bs.decode('utf-8', 'replace')]: the text that
    results, again as its UTF-8 encoding. *)
Definition decode_replace (s : string) : string := encode (decode s).

(** The strings that represent a Python [str]. *)
Definition valid (s : string) : Prop :=
  exists cps, forallb scalar cps = true /\ s = encode cps.

(** The characters of a text: each code point as its own encoding. *)
Definition chars (s : string) : list string := map encode_cp (decode s).

End Utf8.

(* ================================================================== *)
(** ** [urllib.parse.quote] and [urllib.parse.unquote] *)

Module Urllib.

Local Open Scope N_scope.

Definition in_range (lo hi : N) (c : ascii) : bool :=
  (lo <=? N_of_ascii c) && (N_of_ascii c <=? hi).

(** [_ALWAYS_SAFE]: letters, digits and [_.-~]. *)
Definition always_safe (c : ascii) : bool :=
  in_range 65 90 c || in_range 97 122 c || in_range 48 57 c
  || Ascii.eqb c "_" || Ascii.eqb c "." || Ascii.eqb c "-" || Ascii.eqb c "~".

Definition hexdigit (n : N) : ascii :=
  if n <? 10 then ascii_of_N (48 + n) else ascii_of_N (55 + n).

(** ['%{:02X}'.format(b)]. *)
Definition percent (c : ascii) : string :=
  let n := N_of_ascii c in
  String "%" (String (hexdigit (n / 16)) (String (hexdigit (n mod 16)) "")).

(** One byte of [quote(s)], with the default [safe='/']. *)
Definition quoter (c : ascii) : string :=
  if always_safe c || Ascii.eqb c "/" then String c "" else percent c.

(** [quote(s)]: the UTF-8 bytes of [s], each kept or percent-escaped. *)
Fixpoint quote (s : string) : string :=
  match s with
  | EmptyString => EmptyString
  | String c s' => quoter c ++ quote s'
  end.

(** A digit of [_hexdig = '0123456789ABCDEFabcdef']. *)
Definition hexval (c : ascii) : option N :=
  let n := N_of_ascii c in
  if in_range 48 57 c then Some (n - 48)
  else if in_range 65 70 c then Some (n - 55)
  else if in_range 97 102 c then Some (n - 87)
  else None.

(** [unquote_to_bytes]: a ['%'] followed by two hex digits is the byte
    they denote; any other ['%'] stays. *)
Fixpoint unquote_to_bytes (s : string) : string :=
  match s with
  | EmptyString => EmptyString
  | String c r =>
    if Ascii.eqb c "%" then
      match r with
      | String h (String l r') =>
        match hexval h, hexval l with
        | Some x, Some y => String (ascii_of_N (16 * x + y)) (unquote_to_bytes r')
        | _, _ => String c (unquote_to_bytes r)
        end
      | _ => String c (unquote_to_bytes r)
      end
    else String c (unquote_to_bytes r)
  end.

Definition is_ascii (c : ascii) : bool := N_of_ascii c <? 128.

(** An ASCII run of [unquote]: unescaped, then decoded with
    [errors='replace']. *)
Definition unquote_run (run : string) : string :=
  Utf8.decode_replace (unquote_to_bytes run).

(** The parts of [unquote]: the text is cut into maximal ASCII runs
    ([_asciire]); each run is unescaped and decoded, the text between the
    runs is kept.  [run] is the ASCII run read so far. *)
Fixpoint unquote_parts (run : string) (s : string) : string :=
  match s with
  | EmptyString => unquote_run run
  | String c s' =>
    if is_ascii c then unquote_parts (run ++ String c "") s'
    else unquote_run run ++ String c (unquote_parts "" s')
  end.

(** [unquote(s)]. *)
Definition unquote (s : string) : string :=
  if PyStr.contains "%" s then unquote_parts "" s else s.

End Urllib.

(* ================================================================== *)
(** ** SHA-1 ([hashlib.sha1(...).hexdigest()]) *)

Module Sha1.

Local Open Scope N_scope.

Definition mask32 (x : N) : N := N.land x 0xFFFFFFFF.
Definition add32 (x y : N) : N := mask32 (x + y).
Definition rotl (n x : N) : N :=
  mask32 (N.lor (N.shiftl x n) (N.shiftr x (32 - n))).
Definition not32 (x : N) : N := N.lxor x 0xFFFFFFFF.

(** Big-endian bytes of [x], [n] of them. *)
Fixpoint be_bytes (n : nat) (x : N) : list N :=
  match n with
  | O => []
  | S n' => be_bytes n' (x / 256) ++ [x mod 256]
  end.

(** The message followed by [0x80], zeros up to 56 modulo 64, and the bit
    length on eight bytes. *)
Definition pad (msg : list N) : list N :=
  let len := N.of_nat (List.length msg) in
  let zeros := N.to_nat ((119 - len mod 64) mod 64) in
  msg ++ [0x80] ++ repeat 0 zeros ++ be_bytes 8 (8 * len).

Fixpoint words (fuel : nat) (bs : list N) : list N :=
  match fuel with
  | O => []
  | S fuel' =>
    match bs with
    | b0 :: b1 :: b2 :: b3 :: bs' =>
      (((b0 * 256 + b1) * 256 + b2) * 256 + b3) :: words fuel' bs'
    | _ => []
    end
  end.

(** Message schedule, newest word first: [w t] from [w (t-3)], [w (t-8)],
    [w (t-14)] and [w (t-16)]. *)
Fixpoint schedule (n : nat) (ws : list N) : list N :=
  match n with
  | O => ws
  | S n' =>
    let w := rotl 1 (N.lxor (N.lxor (nth 2 ws 0) (nth 7 ws 0))
                            (N.lxor (nth 13 ws 0) (nth 15 ws 0))) in
    schedule n' (w :: ws)
  end.

Definition state : Type := N * N * N * N * N.

Definition round (st : state) (tw : nat * N) : state :=
  let '(a, b, c, d, e) := st in
  let '(t, w) := tw in
  let '(f, k) :=
    if (t <? 20)%nat then
      (N.lor (N.land b c) (N.land (not32 b) d), 0x5A827999)
    else if (t <? 40)%nat then
      (N.lxor (N.lxor b c) d, 0x6ED9EBA1)
    else if (t <? 60)%nat then
      (N.lor (N.lor (N.land b c) (N.land b d)) (N.land c d), 0x8F1BBCDC)
    else
      (N.lxor (N.lxor b c) d, 0xCA62C1D6) in
  let temp := add32 (add32 (add32 (add32 (rotl 5 a) f) e) k) w in
  (temp, a, rotl 30 b, c, d).

Definition block (h : state) (blk : list N) : state :=
  let ws := rev (schedule 64 (rev (words 16 blk))) in
  let '(a, b, c, d, e) := fold_left round (combine (seq 0 80) ws) h in
  let '(h0, h1, h2, h3, h4) := h in
  (add32 h0 a, add32 h1 b, add32 h2 c, add32 h3 d, add32 h4 e).

Fixpoint blocks (fuel : nat) (h : state) (bs : list N) : state :=
  match fuel with
  | O => h
  | S fuel' =>
    match bs with
    | [] => h
    | _ :: _ => blocks fuel' (block h (firstn 64 bs)) (skipn 64 bs)
    end
  end.

Definition init : state :=
  (0x67452301, 0xEFCDAB89, 0x98BADCFE, 0x10325476, 0xC3D2E1F0).

Definition hexdigit (n : N) : ascii :=
  if n <? 10 then ascii_of_N (48 + n) else ascii_of_N (87 + n).

(** Lower-case hexadecimal of [x] on [n] digits. *)
Fixpoint hex (n : nat) (x : N) : string :=
  match n with
  | O => ""
  | S n' => hex n' (x / 16) ++ String (hexdigit (x mod 16)) ""
  end.

Definition bytes_of (s : string) : list N :=
  map N_of_ascii (list_ascii_of_string s).

(** [hashlib.sha1(bs).hexdigest()] for the bytes held in [s]. *)
Definition hexdigest (s : string) : string :=
  let p := pad (bytes_of s) in
  let '(h0, h1, h2, h3, h4) := blocks (List.length p) init p in
  hex 8 h0 ++ hex 8 h1 ++ hex 8 h2 ++ hex 8 h3 ++ hex 8 h4.

End Sha1.

(* ================================================================== *)
(** ** Exceptions and results *)

Inductive exn : Type :=
| AssertionError
| KeyError
| TypeError
| AttributeError
| IndexError
| StopIteration
| Exception (msg : string)
| TransportError (msg : string).

Inductive result (A : Type) : Type :=
| Ok (a : A)
| Raise (e : exn).

Arguments Ok {A} a.
Arguments Raise {A} e.

(* ================================================================== *)
(** ** JSON-like Python values *)

(** [JNull] is [None]; a [JDict] lists its items in insertion order and
    holds each key once.  Floating-point numbers are left out. *)
#[warnings="-register-all"]
Inductive json : Type :=
| JNull
| JBool (b : bool)
| JInt (z : Z)
| JStr (s : string)
| JList (l : list json)
| JDict (d : list (string * json)).

Module Py.

(** [d[k]] on the items of a dict. *)
Fixpoint assoc (k : string) (d : list (string * json)) : option json :=
  match d with
  | [] => None
  | (k', v) :: d' => if String.eqb k' k then Some v else assoc k d'
  end.

(** Truth value of [x], as [if x] and [not x] read it. *)
Definition truthy (x : json) : bool :=
  match x with
  | JNull => false
  | JBool b => b
  | JInt z => negb (z =? 0)
  | JStr s => PyStr.truthy s
  | JList l => match l with [] => false | _ :: _ => true end
  | JDict d => match d with [] => false | _ :: _ => true end
  end.

(** [x[k]] for a string key. *)
Definition getitem (x : json) (k : string) : result json :=
  match x with
  | JDict d =>
    match assoc k d with
    | Some v => Ok v
    | None => Raise KeyError
    end
  | _ => Raise TypeError
  end.

(** [x.get(k, default)]. *)
Definition get (x : json) (k : string) (default : json) : result json :=
  match x with
  | JDict d =>
    match assoc k d with
    | Some v => Ok v
    | None => Ok default
    end
  | _ => Raise AttributeError
  end.

(** [p in s] for strings. *)
Fixpoint substring_in (p s : string) : bool :=
  String.prefix p s ||
  match s with
  | EmptyString => false
  | String _ s' => substring_in p s'
  end.

(** [k in x] for a string key. *)
Definition contains (k : string) (x : json) : result bool :=
  match x with
  | JDict d => Ok (match assoc k d with Some _ => true | None => false end)
  | JList l =>
    Ok (existsb (fun e => match e with JStr s => String.eqb s k | _ => false end) l)
  | JStr s => Ok (substring_in k s)
  | _ => Raise TypeError
  end.

(** [len(x)]. *)
Definition len (x : json) : result Z :=
  match x with
  | JList l => Ok (Z.of_nat (List.length l))
  | JDict d => Ok (Z.of_nat (List.length d))
  | JStr s => Ok (Z.of_nat (List.length (Utf8.chars s)))
  | _ => Raise TypeError
  end.

(** A slice bound brought into [0 .. len]. *)
Definition clamp (len i : Z) : Z :=
  if i <? 0 then Z.max 0 (i + len) else Z.min i len.

(** [l[start:stop]]; [stop = None] is [l[start:]]. *)
Definition slice {A : Type} (l : list A) (start : Z) (stop : option Z) : list A :=
  let len := Z.of_nat (List.length l) in
  let lo := clamp len start in
  let hi := match stop with None => len | Some e => clamp len e end in
  firstn (Z.to_nat (hi - lo)) (skipn (Z.to_nat lo) l).

(** [x[start:stop]].  A dict refuses a slice as a key (by [TypeError], or by
    [KeyError] from Python 3.12 on); the model raises [TypeError]. *)
Definition getslice (x : json) (start : Z) (stop : option Z) : result json :=
  match x with
  | JList l => Ok (JList (slice l start stop))
  | JStr s => Ok (JStr (String.concat "" (slice (Utf8.chars s) start stop)))
  | _ => Raise TypeError
  end.

(** [l[i]] on a list. *)
Definition index {A : Type} (l : list A) (i : Z) : result A :=
  let len := Z.of_nat (List.length l) in
  let j := if i <? 0 then i + len else i in
  if (j <? 0) || (len <=? j) then Raise IndexError
  else match nth_error l (Z.to_nat j) with
       | Some a => Ok a
       | None => Raise IndexError
       end.

(** The elements [for e in x] runs over. *)
Definition iter (x : json) : result (list json) :=
  match x with
  | JList l => Ok l
  | JDict d => Ok (map (fun kv => JStr (fst kv)) d)
  | JStr s => Ok (map JStr (Utf8.chars s))
  | _ => Raise TypeError
  end.

End Py.

(* ================================================================== *)
(** ** [json.dumps(obj, sort_keys=True, separators=(',', ':'))] *)

Module Json.

Definition dquote : string := String (ascii_of_N 34) "".

Definition hex4 (n : N) : string := Sha1.hex 4 n.

(** One character of [py_encode_basestring_ascii]. *)
Definition escape_cp (c : N) : string :=
  (if c =? 34 then "\" ++ dquote
   else if c =? 92 then "\\"
   else if c =? 8 then "\b"
   else if c =? 12 then "\f"
   else if c =? 10 then "\n"
   else if c =? 13 then "\r"
   else if c =? 9 then "\t"
   else if (32 <=? c) && (c <=? 126) then String (ascii_of_N c) ""
   else if c <? 0x10000 then "\u" ++ hex4 c
   else
     let n := c - 0x10000 in
     "\u" ++ hex4 (N.lor 0xD800 (N.land (N.shiftr n 10) 0x3FF))
     ++ "\u" ++ hex4 (N.lor 0xDC00 (N.land n 0x3FF)))%N.

(** A string literal, with [ensure_ascii]. *)
Definition encode_basestring_ascii (s : string) : string :=
  dquote ++ String.concat "" (map escape_cp (Utf8.decode s)) ++ dquote.

(** [repr] of an [int]. *)
Definition int_repr (z : Z) : string :=
  DecimalString.NilZero.string_of_int (Z.to_int z).

Definition item : Type := string * string.

(** Insertion of an item before the first item whose key is not smaller. *)
Fixpoint insert (x : item) (l : list item) : list item :=
  match l with
  | [] => [x]
  | y :: l' => if String.leb (fst x) (fst y) then x :: l else y :: insert x l'
  end.

(** [sorted(items)], by key. *)
Fixpoint sort_items (l : list item) : list item :=
  match l with
  | [] => []
  | x :: l' => insert x (sort_items l')
  end.

Definition emit_item (kv : item) : string :=
  encode_basestring_ascii (fst kv) ++ ":" ++ snd kv.

(** The encoder.  The items of a dict are written in key order; the values
    are encoded before the items are sorted, the order is by key alone. *)
Fixpoint dumps (j : json) : string :=
  match j with
  | JNull => "null"
  | JBool true => "true"
  | JBool false => "false"
  | JInt z => int_repr z
  | JStr s => encode_basestring_ascii s
  | JList l => "[" ++ PyStr.join "," (map dumps l) ++ "]"
  | JDict d =>
    "{" ++ PyStr.join ","
             (map emit_item (sort_items (map (fun kv => (fst kv, dumps (snd kv))) d)))
        ++ "}"
  end.



End Json.

(* ================================================================== *)
(** ** The module [_feeds] *)

(** What the client does to the outside world, in order: a POST to the
    daemon, a snapshot load, a sleep of the stream's back-off. *)
Inductive event : Type :=
| Post (url : string) (body headers : json)
| Load (uri : string)
| Sleep.

(** What an outside call comes back with. *)
Inductive reply (A : Type) : Type :=
| Reply (a : A)
| Failure (msg : string).

Arguments Reply {A} a.
Arguments Failure {A} msg.

Definition of_reply {A : Type} (r : reply A) : result A :=
  match r with
  | Reply a => Ok a
  | Failure msg => Raise (TransportError msg)
  end.

Definition is_post (e : event) : bool :=
  match e with
  | Post _ _ _ => true
  | _ => false
  end.

(** The requests of a trace. *)
Definition posts (t : list event) : list event := filter is_post t.

(** A computation with a [self] of type [S]: it reads and writes the
    object and the trace, and returns or raises.  What was written before
    a [raise] stays written. *)
Definition M (S A : Type) : Type := S -> list event -> result A * S * list event.

Definition ret {S A : Type} (a : A) : M S A := fun s t => (Ok a, s, t).

Definition raise {S A : Type} (e : exn) : M S A := fun s t => (Raise e, s, t).

Definition bind {S A B : Type} (c : M S A) (k : A -> M S B) : M S B :=
  fun s t =>
    match c s t with
    | (Ok a, s', t') => k a s' t'
    | (Raise e, s', t') => (Raise e, s', t')
    end.

Definition lift {S A : Type} (r : result A) : M S A := fun s t => (r, s, t).

Definition get_self {S : Type} : M S S := fun s t => (Ok s, s, t).

Definition set_self {S : Type} (s' : S) : M S unit := fun _ t => (Ok tt, s', t).

Declare Scope py_scope.
Delimit Scope py_scope with py.

Notation "x <- c ;; k" := (bind c (fun x => k))
  (at level 61, c at next level, right associativity) : py_scope.
Notation "c ;;; k" := (bind c (fun _ => k))
  (at level 61, right associativity) : py_scope.

Local Open Scope py_scope.

(** [_sha1_of_string]. *)
Definition _sha1_of_string (txt : string) : string :=
  let hh := Sha1.hexdigest txt in
  hh.

(** [_sha1_of_object]. *)
Definition _sha1_of_object (obj : json) : string :=
  let txt := Json.dumps obj in
  _sha1_of_string txt.

(** [_subfeed_hash]. *)
Definition _subfeed_hash (subfeed_name : json) : string :=
  match subfeed_name with
  | JStr name =>
    if PyStr.startswith name "~" then PyStr.drop1 name
    else _sha1_of_string name
  | _ => _sha1_of_object subfeed_name
  end.

(** [_parse_feed_uri]. *)
Definition _parse_feed_uri (uri : string) : result (string * option string * Z) :=
  let listA := PyStr.split "?" uri in
  if negb (1 <=? List.length listA)%nat then Raise AssertionError else
  let list0 := PyStr.split "/" (nth 0 listA "") in
  if negb (3 <=? List.length list0)%nat then Raise AssertionError else
  let protocol := PyStr.remove_char ":" (nth 0 list0 "") in
  if negb (String.eqb protocol "feed") then Raise AssertionError else
  let feed_id := nth 2 list0 "" in
  let subfeed_name :=
    if (3 <=? List.length list0)%nat then Some (PyStr.join "/" (skipn 3 list0))
    else None in
  let subfeed_name :=
    match subfeed_name with
    | Some name => if PyStr.truthy name then Some (Urllib.unquote name) else None
    | None => None
    end in
  Ok (feed_id, subfeed_name, 0).

(** The class [Feed].  [_feed_id] is [None] for a snapshot; the attribute
    [_snapshot_object] exists for a snapshot only.  The unused
    [_timeout_sec] is left out. *)
Record Feed : Type := mkFeed {
  _feed_uri : string;
  _feed_id : option string;
  _is_writeable : json;
  _is_snapshot : bool;
  _snapshot_object : option json
}.

(** The class [Subfeed].  [sf_feed_uri], [sf_feed_id], [sf_is_writeable]
    and [sf_subfeed_hash] are the attributes [_feed_uri], [_feed_id],
    [_is_writeable] and [_subfeed_hash] of the subfeed. *)
Record Subfeed : Type := mkSubfeed {
  _feed : Feed;
  sf_feed_uri : string;
  sf_feed_id : option string;
  sf_is_writeable : json;
  _subfeed_name : json;
  _channel : string;
  _position : Z;
  sf_subfeed_hash : string;
  _subfeed_name_str : string
}.

(** The iterator class of [message_stream]; [signed] is the argument the
    class closes over, [_parent] is the subfeed the computation runs on. *)
Record custom_iterator : Type := mkIter {
  signed_of : bool;
  _messages : list json;
  _relative_position : Z
}.

(** A value that is [None] or a string. *)
Definition json_of_opt (o : option string) : json :=
  match o with
  | Some s => JStr s
  | None => JNull
  end.

(** The outcome of a loop run with a bound on its turns. *)
Inductive progress (A : Type) : Type :=
| Done (r : result A)
| Running.

Arguments Done {A} r.
Arguments Running {A}.


(** The registry key [{'type': 'feed_id_for_name', 'feed_name': feed_name}]. *)
Definition registry_key (feed_name : string) : json :=
  JDict [("type", JStr "feed_id_for_name"); ("feed_name", JStr feed_name)].

(* ================================================================== *)
(** ** A concrete daemon, loader and registry *)

(** Collaborators to run the client against: a daemon that keeps the
    messages appended so far, read off the trace of requests; a loader
    that knows one snapshot; an empty registry. *)
Module Scenario.

Definition base : string := "http://127.0.0.1:20431".

Definition daemon_url : reply (string * json) := Reply (base, JDict []).

Definition field (x : json) (k : string) : json :=
  match Py.getitem x k with
  | Ok v => v
  | Raise _ => JNull
  end.

Definition same_str (a b : json) : bool :=
  match a, b with
  | JStr x, JStr y => String.eqb x y
  | _, _ => false
  end.

(** The messages appended to the subfeed [(feed_id, hash)], oldest first. *)
Fixpoint stored (feed_id hash : json) (t : list event) : list json :=
  match t with
  | [] => []
  | Post url body _ :: t' =>
    if String.eqb url (base ++ "/feed/appendMessages")
       && same_str (field body "feedId") feed_id
       && same_str (field body "subfeedHash") hash
    then (match field body "messages" with
          | JList l => l
          | _ => []
          end ++ stored feed_id hash t')%list
    else stored feed_id hash t'
  | _ :: t' => stored feed_id hash t'
  end.

(** The answer to one watch: the stored messages from its position on,
    at most [max] of them when [max] is positive. *)
Definition watched (t : list event) (max : Z) (w : json) : list json :=
  let log := stored (field w "feedId") (field w "subfeedHash") t in
  match field w "position" with
  | JInt p => if 0 <? max then Py.slice log p (Some (p + max)) else Py.slice log p None
  | _ => []
  end.

Fixpoint answers (t : list event) (max : Z) (ws : list (string * json))
  : list (string * json) :=
  match ws with
  | [] => []
  | (key, w) :: ws' =>
    match watched t max w with
    | [] => answers t max ws'
    | (_ :: _) as l => (key, JList l) :: answers t max ws'
    end
  end.

Definition daemon (t : list event) (url : string) (body headers : json) : reply json :=
  if String.eqb url (base ++ "/feed/getFeedInfo") then
    Reply (JDict [("success", JBool true); ("isWriteable", JBool true)])
  else if String.eqb url (base ++ "/feed/appendMessages") then
    Reply (JDict [("success", JBool true)])
  else if String.eqb url (base ++ "/feed/getNumLocalMessages") then
    Reply (JDict [("success", JBool true);
                  ("numMessages",
                   JInt (Z.of_nat (List.length
                           (stored (field body "feedId") (field body "subfeedHash") t))))])
  else if String.eqb url (base ++ "/feed/watchForNewMessages") then
    match field body "subfeedWatches", field body "maxNumMessages" with
    | JDict ws, JInt max =>
      Reply (JDict [("success", JBool true); ("messages", JDict (answers t max ws))])
    | _, _ => Reply (JDict [("success", JBool false); ("error", JStr "bad request")])
    end
  else if String.eqb url (base ++ "/feed/deleteFeed") then
    Reply (JDict [("success", JBool true)])
  else Failure "not found".

(** A daemon that reports every feed as read-only. *)
Definition readonly_daemon (t : list event) (url : string) (body headers : json)
  : reply json :=
  if String.eqb url (base ++ "/feed/getFeedInfo") then
    Reply (JDict [("success", JBool true); ("isWriteable", JBool false)])
  else daemon t url body headers.

(** A daemon with nothing to report: every answer is a successful poll
    without messages. *)
Definition silent_daemon (t : list event) (url : string) (body headers : json)
  : reply json :=
  Reply (JDict [("success", JBool true); ("isWriteable", JBool true);
                ("messages", JDict [])]).

Definition msg (n : Z) : json := JDict [("t", JInt n)].

(** [_subfeed_hash('events')], written out. *)
Definition events_hash : string := "82d50d9042decb175894924272dd3b5a14cd3716".

(** [_subfeed_hash('other')], written out. *)
Definition other_hash : string := "d0941e68da8f38151ff86a61fc59f7c5cf9fcaa2".

(** A snapshot of the subfeed [events] with three messages. *)
Definition snapshot : json :=
  JDict [("subfeeds",
          JDict [(events_hash,
                  JDict [("subfeedHash", JStr events_hash);
                         ("messages", JList [msg 1; msg 2; msg 3])])])].

Definition snapshot_uri : string := "sha1://3f2a5c0d9b7e4a1f8c6d2e0b1a2c3d4e5f60718a/feed.json".

Definition loader (t : list event) (uri : string) : reply json :=
  if String.eqb uri snapshot_uri then Reply snapshot else Failure "not found".

Definition registry (key : json) : json := JNull.

End Scenario.

Section Client.

(** The collaborators that are not part of the module: the daemon
    connection ([_daemon_url], [_http_post_json]), the file loader
    ([_load_json]) and the naming registry ([_get]).  The daemon and the
    loader answer from what has happened so far. *)
Variable _daemon_url : reply (string * json).
Variable _http_post_json : list event -> string -> json -> json -> reply json.
Variable _load_json : list event -> string -> reply json.
Variable _get : json -> json.

Set Default Proof Using "Type".

Definition daemon_url {S : Type} : M S (string * json) :=
  lift (of_reply _daemon_url).

Definition http_post_json {S : Type} (url : string) (body headers : json) : M S json :=
  fun s t => (of_reply (_http_post_json t url body headers), s, (t ++ [Post url body headers])%list).

Definition load_json {S : Type} (uri : string) : M S json :=
  fun s t => (of_reply (_load_json t uri), s, (t ++ [Load uri])%list).

Definition sleep {S : Type} : M S unit :=
  fun s t => (Ok tt, s, (t ++ [Sleep])%list).

(** One entry of [subfeed_watches2]. *)
Definition watch2 (channel : string) (watch : json) : result json :=
  match Py.getitem watch "feedId" with
  | Raise e => Raise e
  | Ok feedId =>
    match Py.contains "subfeedHash" watch with
    | Raise e => Raise e
    | Ok has_hash =>
      match (if has_hash then Py.get watch "subfeedHash" JNull
             else match Py.getitem watch "subfeedName" with
                  | Ok name => Ok (JStr (_subfeed_hash name))
                  | Raise e => Raise e
                  end) with
      | Raise e => Raise e
      | Ok subfeedHash =>
        match Py.getitem watch "position" with
        | Raise e => Raise e
        | Ok position =>
          Ok (JDict [("feedId", feedId); ("subfeedHash", subfeedHash);
                     ("channelName", JStr channel); ("position", position)])
        end
      end
    end
  end.

Fixpoint watches2 (channel : string) (subfeed_watches : list (string * json))
  : result (list (string * json)) :=
  match subfeed_watches with
  | [] => Ok []
  | (key, watch) :: rest =>
    match watch2 channel watch with
    | Raise e => Raise e
    | Ok w =>
      match watches2 channel rest with
      | Raise e => Raise e
      | Ok ws => Ok ((key, w) :: ws)
      end
    end
  end.

(** [_watch_for_new_messages]. *)
Definition _watch_for_new_messages {S : Type} (subfeed_watches : list (string * json))
    (wait_msec : Z) (channel : string) (signed : bool) (max_num_messages : Z)
  : M S json :=
  dh <- daemon_url ;;
  let url := fst dh ++ "/feed/watchForNewMessages" in
  subfeed_watches2 <- lift (watches2 channel subfeed_watches) ;;
  x <- http_post_json url
         (JDict [("subfeedWatches", JDict subfeed_watches2);
                 ("waitMsec", JInt wait_msec);
                 ("signed", JBool signed);
                 ("maxNumMessages", JInt max_num_messages)])
         (snd dh) ;;
  success <- lift (Py.getitem x "success") ;;
  if negb (Py.truthy success) then
    _ <- lift (Py.getitem x "error") ;;
    raise (Exception "Unable to watch for new messages")
  else lift (Py.getitem x "messages").

(** [Feed._initialize]: the feed with its writability resolved. *)
Definition Feed_initialize {S : Type} (self : Feed) : M S Feed :=
  dh <- daemon_url ;;
  let url := fst dh ++ "/feed/getFeedInfo" in
  x <- http_post_json url (JDict [("feedId", json_of_opt (_feed_id self))]) (snd dh) ;;
  success <- lift (Py.getitem x "success") ;;
  if negb (Py.truthy success) then
    _ <- lift (Py.getitem x "error") ;;
    raise AssertionError
  else
    w <- lift (Py.getitem x "isWriteable") ;;
    ret (mkFeed (_feed_uri self) (_feed_id self) w (_is_snapshot self)
           (_snapshot_object self)).

(** [Feed.__init__]. *)
Definition Feed__init__ {S : Type} (uri : string) : M S Feed :=
  let uri := if negb (Py.substring_in "://" uri) then "feed://" ++ uri else uri in
  if PyStr.startswith uri "feed://" then
    parsed <- lift (_parse_feed_uri uri) ;;
    let '(feed_id, subfeed_name, position) := parsed in
    match subfeed_name with
    | Some _ => raise (Exception "Cannot specify subfeed name in URI when loading feed")
    | None => Feed_initialize (mkFeed uri (Some feed_id) JNull false None)
    end
  else if PyStr.startswith uri "sha1://" then
    obj <- load_json uri ;;
    match obj with
    | JNull => raise AssertionError
    | _ => ret (mkFeed uri None (JBool false) true (Some obj))
    end
  else raise (Exception "Unexpected feed uri").

(** The properties of [Feed]. *)
Definition Feed_is_writeable (self : Feed) : json := _is_writeable self.
Definition Feed_feed_id (self : Feed) : option string := _feed_id self.
Definition Feed_uri (self : Feed) : string := _feed_uri self.
Definition Feed_is_snapshot (self : Feed) : bool := _is_snapshot self.

(** [Subfeed.__init__]; [_initialize] does nothing. *)
Definition Subfeed__init__ (feed : Feed) (channel : string) (subfeed_name : json)
    (position : Z) : Subfeed :=
  let hash := _subfeed_hash subfeed_name in
  mkSubfeed feed (_feed_uri feed) (_feed_id feed) (_is_writeable feed)
    subfeed_name channel position hash
    (match subfeed_name with
     | JStr name => name
     | _ => "~" ++ hash
     end).

(** [Feed.load_subfeed]; the defaults are [position=0] and
    [channel='*local*']. *)
Definition Feed_load_subfeed (self : Feed) (subfeed_name : json) (position : Z)
    (channel : string) : Subfeed :=
  Subfeed__init__ self channel subfeed_name position.

(** [Subfeed.uri]. *)
Definition Subfeed_uri (self : Subfeed) : result string :=
  let feed_uri := sf_feed_uri self in
  if PyStr.startswith feed_uri "feed://" then
    Ok (sf_feed_uri self ++ "/" ++ Urllib.quote (_subfeed_name_str self))
  else if PyStr.startswith feed_uri "sha1://" then
    Ok (sf_feed_uri self ++ "?subfeedName=" ++ Urllib.quote (_subfeed_name_str self))
  else Raise (Exception "Unexpected feed uri").

Definition Subfeed_position (self : Subfeed) : Z := _position self.
Definition Subfeed_subfeed_name (self : Subfeed) : json := _subfeed_name self.
Definition Subfeed_subfeed_hash (self : Subfeed) : string := sf_subfeed_hash self.
Definition Subfeed_is_snapshot (self : Subfeed) : bool := Feed_is_snapshot (_feed self).
Definition Subfeed_is_writeable (self : Subfeed) : json := Feed_is_writeable (_feed self).

Definition with_position (self : Subfeed) (position : Z) : Subfeed :=
  mkSubfeed (_feed self) (sf_feed_uri self) (sf_feed_id self) (sf_is_writeable self)
    (_subfeed_name self) (_channel self) position (sf_subfeed_hash self)
    (_subfeed_name_str self).

(** [Subfeed.set_position]. *)
Definition Subfeed_set_position (position : Z) : M Subfeed unit :=
  self <- get_self ;;
  set_self (with_position self position).

(** [Subfeed._get_snapshot_messages]: whatever goes wrong in the lookup,
    the answer is the empty list. *)
Definition Subfeed_get_snapshot_messages (self : Subfeed) : json :=
  match _snapshot_object (_feed self) with
  | None => JList []
  | Some snapshot =>
    match Py.getitem snapshot "subfeeds" with
    | Raise _ => JList []
    | Ok subfeeds =>
      match Py.getitem subfeeds (sf_subfeed_hash self) with
      | Raise _ => JList []
      | Ok obj =>
        match Py.getitem obj "messages" with
        | Raise _ => JList []
        | Ok messages => messages
        end
      end
    end
  end.

(** [Subfeed.get_num_local_messages]. *)
Definition Subfeed_get_num_local_messages : M Subfeed json :=
  self <- get_self ;;
  if negb (Subfeed_is_snapshot self) then
    dh <- daemon_url ;;
    let url := fst dh ++ "/feed/getNumLocalMessages" in
    x <- http_post_json url
           (JDict [("feedId", json_of_opt (sf_feed_id self));
                   ("subfeedHash", JStr (sf_subfeed_hash self))])
           (snd dh) ;;
    success <- lift (Py.getitem x "success") ;;
    if negb (Py.truthy success) then raise AssertionError
    else lift (Py.getitem x "numMessages")
  else
    let messages := Subfeed_get_snapshot_messages self in
    n <- lift (Py.len messages) ;;
    ret (JInt n).

(** [self._position = self._position + len(y)]. *)
Definition advance (y : json) : M Subfeed unit :=
  self <- get_self ;;
  n <- lift (Py.len y) ;;
  set_self (with_position self (_position self + n)).

(** [Subfeed.get_next_messages]; the defaults are [wait_msec=10],
    [signed=False], [max_num_messages=0] and [advance_position=True]. *)
Definition Subfeed_get_next_messages (wait_msec : Z) (signed : bool)
    (max_num_messages : Z) (advance_position : bool) : M Subfeed json :=
  self <- get_self ;;
  if negb (Subfeed_is_snapshot self) then
    let subfeed_watches :=
      [("watch", JDict [("feedId", json_of_opt (sf_feed_id self));
                        ("subfeedHash", JStr (sf_subfeed_hash self));
                        ("position", JInt (_position self))])] in
    x <- _watch_for_new_messages subfeed_watches wait_msec (_channel self) signed
           max_num_messages ;;
    y <- lift (Py.get x "watch" (JList [])) ;;
    (if advance_position then advance y else ret tt) ;;;
    ret y
  else
    let messages := Subfeed_get_snapshot_messages self in
    let position := _position self in
    ret_ <- lift (if 0 <? max_num_messages
                  then Py.getslice messages position (Some (position + max_num_messages))
                  else Py.getslice messages position None) ;;
    (if advance_position then advance ret_ else ret tt) ;;;
    ret ret_.

(** [Subfeed.get_next_message]: the message, or [None]. *)
Definition Subfeed_get_next_message (wait_msec : Z) (signed : bool)
    (advance_position : bool) : M Subfeed json :=
  messages <- Subfeed_get_next_messages wait_msec signed 1 advance_position ;;
  match messages with
  | JNull => ret JNull
  | _ =>
    n <- lift (Py.len messages) ;;
    if n =? 0 then ret JNull
    else
      match messages with
      | JList l => lift (Py.index l 0)
      | JStr s => c <- lift (Py.index (Utf8.chars s) 0) ;; ret (JStr c)
      | _ => raise KeyError
      end
  end.

(** [Subfeed.append_messages]. *)
Definition Subfeed_append_messages (messages : json) : M Subfeed unit :=
  self <- get_self ;;
  if negb (Py.truthy (Subfeed_is_writeable self)) then
    raise (Exception "Cannot append messages to a readonly feed")
  else
    dh <- daemon_url ;;
    let url := fst dh ++ "/feed/appendMessages" in
    x <- http_post_json url
           (JDict [("feedId", json_of_opt (sf_feed_id self));
                   ("subfeedHash", JStr (sf_subfeed_hash self));
                   ("messages", messages)])
           (snd dh) ;;
    success <- lift (Py.getitem x "success") ;;
    if negb (Py.truthy success) then
      _ <- lift (Py.get x "error" JNull) ;;
      raise (Exception "Unable to append messages")
    else ret tt.

(** [Subfeed.append_message]. *)
Definition Subfeed_append_message (message : json) : M Subfeed unit :=
  Subfeed_append_messages (JList [message]).

(** A method of the parent run from the iterator. *)
Definition on_parent {A : Type} (c : M Subfeed A) : M (custom_iterator * Subfeed) A :=
  fun s t =>
    match c (snd s) t with
    | (r, parent, t') => (r, (fst s, parent), t')
    end.

(** [custom_iterator._load_messages]. *)
Definition _load_messages : M (custom_iterator * Subfeed) unit :=
  s <- get_self ;;
  messages <- on_parent (Subfeed_get_next_messages 5000 (signed_of (fst s)) 0 false) ;;
  match messages with
  | JNull => ret tt
  | _ =>
    msgs <- lift (Py.iter messages) ;;
    s <- get_self ;;
    set_self (mkIter (signed_of (fst s)) (_messages (fst s) ++ msgs)%list
                (_relative_position (fst s)), snd s)
  end.

(** [custom_iterator.__init__], that is [Subfeed.message_stream]: the
    iterator, its buffer loaded once. *)
Definition Subfeed_message_stream (signed : bool) (parent : Subfeed) (t : list event)
  : result unit * (custom_iterator * Subfeed) * list event :=
  _load_messages (mkIter signed [] 0, parent) t.

Definition exhausted (it : custom_iterator) : bool :=
  Z.of_nat (List.length (_messages it)) <=? _relative_position it.

(** The [while] loop of [__next__], for at most [fuel] turns. *)
Fixpoint next_loop (fuel : nat) (s : custom_iterator * Subfeed) (t : list event)
  : progress unit * (custom_iterator * Subfeed) * list event :=
  if exhausted (fst s) then
    match fuel with
    | O => (Running, s, t)
    | S fuel' =>
      match _load_messages s t with
      | (Raise e, s', t') => (Done (Raise e), s', t')
      | (Ok _, s', t') =>
        if exhausted (fst s') then
          if Subfeed_is_snapshot (snd s') then (Done (Raise StopIteration), s', t')
          else next_loop fuel' s' (t' ++ [Sleep])%list
        else next_loop fuel' s' t'
      end
    end
  else (Done (Ok tt), s, t).

(** [custom_iterator.__next__], its loop bounded by [fuel]. *)
Definition __next__ (fuel : nat) (s : custom_iterator * Subfeed) (t : list event)
  : progress json * (custom_iterator * Subfeed) * list event :=
  match next_loop fuel s t with
  | (Running, s', t') => (Running, s', t')
  | (Done (Raise e), s', t') => (Done (Raise e), s', t')
  | (Done (Ok _), (it, parent), t') =>
    let parent' := with_position parent (_position parent + 1) in
    let it' := mkIter (signed_of it) (_messages it) (_relative_position it + 1) in
    (Done (Py.index (_messages it') (_relative_position it' - 1)), (it', parent'), t')
  end.

(** [_get_feed_id] with [create=False], as [_delete_feed] calls it. *)
Definition _get_feed_id (feed_name : string) : result string :=
  let feed_id := _get (registry_key feed_name) in
  match feed_id with
  | JStr id => Ok id
  | _ => Raise (Exception "Unable to load feed with name")
  end.

(** The branch of [_delete_feed] for a [feed://] URI. *)
Definition _delete_feed_uri {S : Type} (feed_uri : string) : M S unit :=
  parsed <- lift (_parse_feed_uri feed_uri) ;;
  let '(feed_id, subfeed_name, position) := parsed in
  match subfeed_name with
  | Some _ => raise AssertionError
  | None =>
    dh <- daemon_url ;;
    let url := fst dh ++ "/feed/deleteFeed" in
    x <- http_post_json url (JDict [("feedId", JStr feed_id)]) (snd dh) ;;
    success <- lift (Py.getitem x "success") ;;
    if negb (Py.truthy success) then
      _ <- lift (Py.get x "error" JNull) ;;
      raise (Exception "Unable to delete feed")
    else ret tt
  end.

(** [_delete_feed]: a name is looked up in the registry and the call is
    made again on [feed://<id>], which takes the first branch. *)
Definition _delete_feed {S : Type} (feed_name_or_uri : string) : M S unit :=
  if PyStr.startswith feed_name_or_uri "feed://" then
    _delete_feed_uri feed_name_or_uri
  else
    feed_id <- lift (_get_feed_id feed_name_or_uri) ;;
    _delete_feed_uri ("feed://" ++ feed_id).

(** [Feed.delete]. *)
Definition Feed_delete : M Feed unit :=
  self <- get_self ;;
  _delete_feed (Feed_uri self).

(** [_load_subfeed]; the default is [channel='*local*']. *)
Definition _load_subfeed {S : Type} (subfeed_uri : string) (channel : string)
  : M S Subfeed :=
  parsed <- lift (_parse_feed_uri subfeed_uri) ;;
  let '(feed_id, subfeed_name, position) := parsed in
  match subfeed_name with
  | None => raise AssertionError
  | Some name =>
    feed <- Feed__init__ ("feed://" ++ feed_id) ;;
    ret (Feed_load_subfeed feed (JStr name) position channel)
  end.

(** The branch of [_load_feed] for a [feed://] URI, with [create=False]. *)
Definition _load_feed_uri {S : Type} (feed_uri : string) : M S Feed :=
  parsed <- lift (_parse_feed_uri feed_uri) ;;
  let '(feed_id, subfeed_name, position) := parsed in
  match subfeed_name with
  | Some _ => raise AssertionError
  | None => Feed__init__ ("feed://" ++ feed_id)
  end.

(** [_load_feed] with [create=False]: a name is looked up in the
    registry and the call is made again on [feed://<id>], which takes the
    first branch. *)
Definition _load_feed {S : Type} (feed_name_or_uri : string) : M S Feed :=
  if PyStr.startswith feed_name_or_uri "feed://" then
    _load_feed_uri feed_name_or_uri
  else if PyStr.startswith feed_name_or_uri "sha1://" then
    Feed__init__ feed_name_or_uri
  else
    feed_id <- lift (_get_feed_id feed_name_or_uri) ;;
    _load_feed_uri ("feed://" ++ feed_id).

(** The loop [for msg in it] over an iterator of [message_stream], as
    [print_messages] runs it: [__next__] is called until a call does not
    yield.  [calls] bounds the number of calls and [fuel] the turns of
    each.  The loop gives the messages handed to its body, in order, and
    how it stands: [None] when [calls] ran out, else the outcome of the
    call that did not yield. *)
Fixpoint for_each (calls fuel : nat) (s : custom_iterator * Subfeed) (t : list event)
  : list json * option (progress json) * (custom_iterator * Subfeed) * list event :=
  match calls with
  | O => ([], None, s, t)
  | S calls' =>
    match __next__ fuel s t with
    | (Done (Ok m), s', t') =>
      match for_each calls' fuel s' t' with
      | (ms, r, s'', t'') => (m :: ms, r, s'', t'')
      end
    | (r, s', t') => ([], Some r, s', t')
    end
  end.


(** [_create_feed] with [feed_name=None], the default: nothing is
    written to the registry. *)
Definition _create_feed {S : Type} : M S Feed :=
  dh <- daemon_url ;;
  let url := fst dh ++ "/feed/createFeed" in
  x <- http_post_json url (JDict []) (snd dh) ;;
  success <- lift (Py.getitem x "success") ;;
  if negb (Py.truthy success) then raise (Exception "Unable to create feed")
  else
    feed_id <- lift (Py.getitem x "feedId") ;;
    match feed_id with
    | JStr id => _load_feed ("feed://" ++ id)
    | _ => raise TypeError
    end.
(* ------------------------------------------------------------------ *)
(** *** Notions the properties are stated with *)

(** A feed object is what [Feed.__init__] returned for some URI. *)
Definition constructed (feed : Feed) : Prop :=
  exists (uri : string) (t t' : list event),
    @Feed__init__ unit uri tt t = (Ok feed, tt, t').

Definition readonly_error : exn :=
  Exception "Cannot append messages to a readonly feed".

(** The snapshot payload holds an entry for [hash] in its [subfeeds]
    mapping. *)
Definition snapshot_has (snapshot : json) (hash : string) : bool :=
  match snapshot with
  | JDict d =>
    match Py.assoc "subfeeds" d with
    | Some (JDict subfeeds) =>
      match Py.assoc hash subfeeds with
      | Some _ => true
      | None => false
      end
    | _ => false
    end
  | _ => false
  end.

(** The pieces of a URI between slashes, the query left out. *)
Definition uri_segments (uri : string) : list string :=
  PyStr.split "/" (nth 0 (PyStr.split "?" uri) "").

(** The scheme segment: the first piece, its colons dropped. *)
Definition scheme_segment (uri : string) : string :=
  PyStr.remove_char ":" (nth 0 (uri_segments uri) "").

(** The path segments: the pieces after the scheme segment. *)
Definition path_segments (uri : string) : list string := tl (uri_segments uri).

(** The query of a URI, when it has one. *)
Definition query_suffix (query : option string) : string :=
  match query with
  | Some q => String "?" q
  | None => ""
  end.



(** A subfeed name that is a string. *)
Definition is_str (name : json) : bool :=
  match name with
  | JStr _ => true
  | _ => false
  end.


(** The result, the object and the trace a computation ends with. *)
Definition result_of {S A : Type} (o : result A * S * list event) : result A :=
  fst (fst o).
Definition self_of {S A : Type} (o : result A * S * list event) : S := snd (fst o).
Definition trace_of {S A : Type} (o : result A * S * list event) : list event := snd o.

(** Every exception but the end of a sequence. *)
Definition ordinary (e : exn) : Prop := e <> StopIteration.

(** A result that is not the end of a sequence. *)
Definition tame {A : Type} (r : result A) : Prop :=
  forall e : exn, r = Raise e -> ordinary e.

(** A computation that takes the object from [s] to some [s'] with
    [R s s'] and raises ordinary exceptions only. *)
Definition obeys {S A : Type} (R : S -> S -> Prop) (c : M S A) : Prop :=
  forall (s : S) (t : list event),
    R s (self_of (c s t)) /\ tame (result_of (c s t)).

(** The outcome, the objects and the trace a bounded loop ends with. *)
Definition progress_of {S A : Type} (o : progress A * S * list event) : progress A :=
  fst (fst o).
Definition state_of {S A : Type} (o : progress A * S * list event) : S := snd (fst o).

(** The sleeps of a trace. *)
Definition sleeps (t : list event) : list event :=
  filter (fun e => match e with Sleep => true | _ => false end) t.

(** An answer of the daemon to a watch that brings no message for the
    key [watch]. *)
Definition empty_poll (x : json) : Prop :=
  exists ok messages y : json,
    Py.getitem x "success" = Ok ok /\ Py.truthy ok = true
    /\ Py.getitem x "messages" = Ok messages
    /\ Py.get messages "watch" (JList []) = Ok y
    /\ (y = JNull \/ Py.iter y = Ok []).

(** A daemon that is reachable and answers every request with an empty
    poll. *)
Definition quiet : Prop :=
  (exists dh : string * json, _daemon_url = Reply dh)
  /\ forall (t : list event) (url : string) (body headers : json),
       exists x : json, _http_post_json t url body headers = Reply x /\ empty_poll x.

(** A client at work: one subfeed, the iterators made from it by
    [message_stream], all of which share it as their parent, and the
    trace. *)
Record client : Type := mkClient {
  c_self : Subfeed;
  c_iters : list custom_iterator;
  c_trace : list event
}.

(** The operations of a subfeed; [next i fuel] is [__next__] on the
    [i]-th iterator, its loop run for at most [fuel] turns. *)
Inductive op : Type :=
| set_position (position : Z)
| get_next_messages (wait_msec : Z) (signed : bool) (max_num_messages : Z)
    (advance_position : bool)
| get_next_message (wait_msec : Z) (signed advance_position : bool)
| get_num_local_messages
| append_messages (messages : json)
| append_message (message : json)
| message_stream (signed : bool)
| next (i fuel : nat).

Definition is_set_position (o : op) : bool :=
  match o with
  | set_position _ => true
  | _ => false
  end.

(** The operations that read or write through the subfeed itself. *)
Definition is_fetch (o : op) : bool :=
  match o with
  | get_next_messages _ _ _ _ | get_next_message _ _ _ | get_num_local_messages
  | append_messages _ | append_message _ => true
  | _ => false
  end.

Definition on_self {A : Type} (m : M Subfeed A) (c : client) : client :=
  let '(_, s, t) := m (c_self c) (c_trace c) in
  mkClient s (c_iters c) t.

Fixpoint replace_nth {A : Type} (i : nat) (a : A) (l : list A) : list A :=
  match l, i with
  | [], _ => []
  | _ :: l', O => a :: l'
  | x :: l', S i' => x :: replace_nth i' a l'
  end.

(** One operation; what it returns or raises is dropped, what it does to
    the subfeed, the iterators and the trace is kept. *)
Definition perform (o : op) (c : client) : client :=
  match o with
  | set_position position => on_self (Subfeed_set_position position) c
  | get_next_messages wait_msec signed max_num_messages advance_position =>
    on_self (Subfeed_get_next_messages wait_msec signed max_num_messages
               advance_position) c
  | get_next_message wait_msec signed advance_position =>
    on_self (Subfeed_get_next_message wait_msec signed advance_position) c
  | get_num_local_messages => on_self Subfeed_get_num_local_messages c
  | append_messages messages => on_self (Subfeed_append_messages messages) c
  | append_message message => on_self (Subfeed_append_message message) c
  | message_stream signed =>
    match Subfeed_message_stream signed (c_self c) (c_trace c) with
    | (Ok _, (it, s), t) => mkClient s (c_iters c ++ [it]) t
    | (Raise _, (_, s), t) => mkClient s (c_iters c) t
    end
  | next i fuel =>
    match nth_error (c_iters c) i with
    | Some it =>
      let '(_, (it', s), t) := __next__ fuel (it, c_self c) (c_trace c) in
      mkClient s (replace_nth i it' (c_iters c)) t
    | None => c
    end
  end.

Fixpoint perform_all (ops : list op) (c : client) : client :=
  match ops with
  | [] => c
  | o :: ops' => perform_all ops' (perform o c)
  end.

(** The cursor of a client's subfeed. *)
Definition cursor (c : client) : Z := _position (c_self c).

(** Only the cursor differs, and it has not gone back. *)
Definition moved_on (s s' : Subfeed) : Prop :=
  _position s <= _position s' /\ s' = with_position s (_position s').

(** The fetch of [get_next_messages], before the cursor moves. *)
Definition fetch (wait_msec : Z) (signed : bool) (max_num_messages : Z)
  : M Subfeed json :=
  Subfeed_get_next_messages wait_msec signed max_num_messages false.

(** A snapshot subfeed over the messages [msgs] whose cursor stands
    within them. *)
Definition within (msgs : list json) (s : Subfeed) : Prop :=
  Subfeed_is_snapshot s = true
  /\ Subfeed_get_snapshot_messages s = JList msgs
  /\ 0 <= _position s <= Z.of_nat (List.length msgs).

(** The cursor stays within the messages when it was within them. *)
Definition stays_within (msgs : list json) (s s' : Subfeed) : Prop :=
  within msgs s -> within msgs s'.

(** An iterator in step with its parent: what it has buffered and not
    yet yielded is what the snapshot holds from the cursor on. *)
Definition in_step (msgs : list json) (it : custom_iterator) (parent : Subfeed) : Prop :=
  within msgs parent
  /\ 0 <= _relative_position it
  /\ skipn (Z.to_nat (_relative_position it)) (_messages it)
     = skipn (Z.to_nat (_position parent)) msgs.

(** Unfolding of the monad's operations. *)
Ltac run :=
  unfold bind, ret, raise, lift, get_self, set_self, advance, on_parent; simpl.

(** The URI [Feed.__init__] works with: a text without [://] is a feed
    id. *)
Definition feed_uri_of (uri : string) : string :=
  if negb (Py.substring_in "://" uri) then "feed://" ++ uri else uri.

(** Every character of a text has the property [p]. *)
Fixpoint all_chars (p : ascii -> bool) (s : string) : bool :=
  match s with
  | EmptyString => true
  | String c s' => p c && all_chars p s'
  end.

(** A digit or a letter from [a] to [f]. *)
Definition is_lower_hex (c : ascii) : bool :=
  Urllib.in_range 48 57 c || Urllib.in_range 97 102 c.

(** A subfeed name that a URI can carry: a structured name, or a string
    that is not empty. *)
Definition addressable (name : json) : Prop :=
  match name with
  | JStr s => s <> "" /\ Utf8.valid s
  | _ => True
  end.


(** A computation on a read-only snapshot subfeed that leaves the trace
    as it was and changes nothing but the cursor. *)
Definition offline {A : Type} (c : M Subfeed A) : Prop :=
  forall (self : Subfeed) (t : list event),
    Subfeed_is_snapshot self = true ->
    Py.truthy (Subfeed_is_writeable self) = false ->
    trace_of (c self t) = t
    /\ exists p : Z, self_of (c self t) = with_position self p.
(* ------------------------------------------------------------------ *)
(** *** Slices *)

Lemma slice_nil (A : Type) (start : Z) (stop : option Z) :
  Py.slice (@nil A) start stop = [].
Proof.
  unfold Py.slice. rewrite skipn_nil. apply firstn_nil.
Qed.

Lemma slice_from (A : Type) (l : list A) (p : Z) :
  0 <= p -> Py.slice l p None = skipn (Z.to_nat p) l.
Proof.
  intros Hp. unfold Py.slice, Py.clamp.
  destruct (Z.ltb_spec p 0) as [Hneg | _]; [lia |].
  destruct (Z.le_gt_cases p (Z.of_nat (List.length l))) as [Hle | Hgt].
  - rewrite Z.min_l by exact Hle.
    apply firstn_all2. rewrite length_skipn. lia.
  - rewrite Z.min_r by lia.
    rewrite !skipn_all2 by lia. apply firstn_nil.
Qed.

Lemma slice_window (A : Type) (l : list A) (p n : Z) :
  0 <= p -> 0 < n ->
  Py.slice l p (Some (p + n)) = firstn (Z.to_nat n) (skipn (Z.to_nat p) l).
Proof.
  intros Hp Hn. unfold Py.slice, Py.clamp.
  destruct (Z.ltb_spec p 0) as [Hneg | _]; [lia |].
  destruct (Z.ltb_spec (p + n) 0) as [Hneg | _]; [lia |].
  destruct (Z.le_gt_cases p (Z.of_nat (List.length l))) as [Hle | Hgt].
  - rewrite (Z.min_l p) by exact Hle.
    destruct (Z.le_gt_cases (p + n) (Z.of_nat (List.length l))) as [Hin | Hout].
    + rewrite Z.min_l by exact Hin. f_equal. lia.
    + rewrite Z.min_r by lia.
      rewrite !firstn_all2; [reflexivity | rewrite length_skipn; lia
                            | rewrite length_skipn; lia].
  - rewrite !Z.min_r by lia.
    rewrite !skipn_all2 by lia. now rewrite !firstn_nil.
Qed.

Lemma slice_past_end (A : Type) (l : list A) (p : Z) (stop : option Z) :
  Z.of_nat (List.length l) <= p -> Py.slice l p stop = [].
Proof.
  intros Hp. unfold Py.slice, Py.clamp.
  destruct (Z.ltb_spec p 0) as [Hneg | _]; [lia |].
  rewrite Z.min_r by exact Hp.
  rewrite skipn_all2 by lia. apply firstn_nil.
Qed.

Lemma with_position_same (self : Subfeed) :
  with_position self (_position self) = self.
Proof. now destruct self. Qed.

Lemma with_position_add_0 (self : Subfeed) :
  with_position self (_position self + 0) = self.
Proof. rewrite Z.add_0_r. apply with_position_same. Qed.

(* ------------------------------------------------------------------ *)
(** *** Feeds as the constructor builds them *)

Lemma Feed_initialize_fields (S : Type) (self feed : Feed) (s s' : S)
    (t t' : list event) :
  Feed_initialize self s t = (Ok feed, s', t') ->
  _feed_uri feed = _feed_uri self /\ _feed_id feed = _feed_id self
  /\ _is_snapshot feed = _is_snapshot self
  /\ _snapshot_object feed = _snapshot_object self.
Proof.
  unfold Feed_initialize, daemon_url, http_post_json. run.
  destruct (of_reply _daemon_url) as [dh | e]; [| discriminate].
  destruct (of_reply _) as [x | e]; [| discriminate].
  destruct (Py.getitem x "success") as [ok | e]; [| discriminate].
  destruct (negb (Py.truthy ok)).
  - destruct (Py.getitem x "error"); discriminate.
  - destruct (Py.getitem x "isWriteable") as [w | e]; [| discriminate].
    intros H. injection H as <- _ _. simpl. auto.
Qed.

Lemma constructed_snapshot_readonly (feed : Feed) :
  constructed feed -> _is_snapshot feed = true ->
  _is_writeable feed = JBool false.
Proof.
  intros (uri & t & t' & H) Hsnap. unfold Feed__init__ in H.
  set (u := if negb (Py.substring_in "://" uri) then "feed://" ++ uri else uri) in H.
  destruct (PyStr.startswith u "feed://").
  - revert H. run.
    destruct (_parse_feed_uri u) as [[[fid [name |]] pos] | e]; try discriminate.
    intros H. apply Feed_initialize_fields in H.
    destruct H as (_ & _ & H & _). simpl in H. congruence.
  - destruct (PyStr.startswith u "sha1://"); [| discriminate].
    revert H. unfold load_json. run.
    destruct (of_reply _) as [obj | e]; [| discriminate].
    destruct obj; try discriminate; intros H; injection H as <- _; reflexivity.
Qed.

(* ------------------------------------------------------------------ *)
(** *** Fetching from a snapshot *)

Lemma snapshot_fetch (self : Subfeed) (t : list event) (msgs : list json)
    (wait_msec : Z) (signed : bool) (max_num_messages : Z) (advance_position : bool) :
  Subfeed_is_snapshot self = true ->
  Subfeed_get_snapshot_messages self = JList msgs ->
  let ret_ := if 0 <? max_num_messages
              then Py.slice msgs (_position self) (Some (_position self + max_num_messages))
              else Py.slice msgs (_position self) None in
  Subfeed_get_next_messages wait_msec signed max_num_messages advance_position self t
  = (Ok (JList ret_),
     if advance_position
     then with_position self (_position self + Z.of_nat (List.length ret_))
     else self,
     t).
Proof.
  intros Hsnap Hmsgs ret_. unfold Subfeed_get_next_messages. run.
  rewrite Hsnap, Hmsgs. simpl. subst ret_.
  destruct (0 <? max_num_messages); simpl; destruct advance_position; reflexivity.
Qed.

(* ------------------------------------------------------------------ *)
(** *** UTF-8: decoding an encoded text *)

(** Linear arithmetic with division and remainder by constants. *)
Ltac dlia :=
  clear _daemon_url _http_post_json _load_json _get;
  zify; Z.to_euclidean_division_equations; lia.

Ltac ncases :=
  repeat match goal with
         | |- context [N.ltb ?a ?b] => destruct (N.ltb_spec a b); try dlia
         | |- context [N.leb ?a ?b] => destruct (N.leb_spec a b); try dlia
         | |- context [N.eqb ?a ?b] => destruct (N.eqb_spec a b); try dlia
         end.

Lemma scalar_range (c : N) :
  Utf8.scalar c = true -> (c < 0xD800 \/ 0xDFFF < c < 0x110000)%N.
Proof.
  unfold Utf8.scalar. intros H.
  apply orb_true_iff in H. destruct H as [H | H].
  - left. now apply N.ltb_lt.
  - right. apply andb_true_iff in H. destruct H as [H1 H2].
    apply N.ltb_lt in H1, H2. lia.
Qed.

Lemma decode_encode_cp (c : N) (rest : string) :
  Utf8.scalar c = true ->
  Utf8.decode (Utf8.encode_cp c ++ rest) = c :: Utf8.decode rest.
Proof.
  intros Hs. apply scalar_range in Hs.
  unfold Utf8.encode_cp.
  destruct (N.ltb_spec c 0x80) as [H1 | H1].
  - cbn [append Utf8.decode]. unfold Utf8.byte.
    rewrite N_ascii_embedding by lia. ncases. reflexivity.
  - destruct (N.ltb_spec c 0x800) as [H2 | H2].
    + cbn [append Utf8.decode]. unfold Utf8.byte, Utf8.cont.
      rewrite !N_ascii_embedding by dlia. ncases.
      cbn [andb]. f_equal. dlia.
    + destruct (N.ltb_spec c 0x10000) as [H3 | H3].
      * cbn [append Utf8.decode]. unfold Utf8.byte, Utf8.second3, Utf8.cont.
        rewrite !N_ascii_embedding by dlia. ncases; cbn [andb]; f_equal; dlia.
      * cbn [append Utf8.decode]. unfold Utf8.byte, Utf8.second4, Utf8.cont.
        rewrite !N_ascii_embedding by dlia. ncases; cbn [andb]; f_equal; dlia.
Qed.

Lemma decode_encode (cps : list N) :
  forallb Utf8.scalar cps = true -> Utf8.decode (Utf8.encode cps) = cps.
Proof.
  induction cps as [| c cps IH]; intros H; [reflexivity |].
  cbn [forallb] in H. apply andb_true_iff in H. destruct H as [Hc Hcps].
  cbn [Utf8.encode]. rewrite decode_encode_cp by exact Hc.
  now rewrite IH.
Qed.

(** Decoding a text and encoding it again changes nothing. *)
Lemma decode_replace_valid (s : string) :
  Utf8.valid s -> Utf8.decode_replace s = s.
Proof.
  intros (cps & Hs & ->). unfold Utf8.decode_replace.
  now rewrite decode_encode.
Qed.
(* ------------------------------------------------------------------ *)
(** *** Splitting and joining *)

Lemma split_nonempty (sep : ascii) (s : string) : PyStr.split sep s <> [].
Proof.
  destruct s as [| c s]; simpl; [discriminate |].
  destruct (Ascii.eqb c sep); [discriminate |].
  destruct (PyStr.split sep s); discriminate.
Qed.

Lemma split_length (sep : ascii) (s : string) :
  (1 <= List.length (PyStr.split sep s))%nat.
Proof.
  pose proof (split_nonempty sep s).
  destruct (PyStr.split sep s); [contradiction | simpl; lia].
Qed.

Lemma contains_app (c : ascii) (a b : string) :
  PyStr.contains c (a ++ b) = PyStr.contains c a || PyStr.contains c b.
Proof.
  induction a as [| x a IH]; simpl; [reflexivity |].
  now rewrite IH, orb_assoc.
Qed.

(** A text without the separator is one piece. *)
Lemma split_no_sep (sep : ascii) (s : string) :
  PyStr.contains sep s = false -> PyStr.split sep s = [s].
Proof.
  induction s as [| c s IH]; simpl; intros H; [reflexivity |].
  apply orb_false_iff in H. destruct H as [Hc Hs].
  rewrite Hc, (IH Hs). reflexivity.
Qed.

(** The first piece ends at the first separator. *)
Lemma split_app_sep (sep : ascii) (a b : string) :
  PyStr.contains sep a = false ->
  PyStr.split sep (a ++ String sep b) = a :: PyStr.split sep b.
Proof.
  induction a as [| c a IH]; simpl; intros H.
  - now rewrite Ascii.eqb_refl.
  - apply orb_false_iff in H. destruct H as [Hc Ha].
    rewrite Hc, (IH Ha). reflexivity.
Qed.

(** Joining the pieces with the separator gives the text back. *)
Lemma join_split (sep : ascii) (s : string) :
  PyStr.join (String sep "") (PyStr.split sep s) = s.
Proof.
  induction s as [| c s IH]; [reflexivity |].
  cbn [PyStr.split].
  destruct (Ascii.eqb_spec c sep) as [-> | Hne].
  - pose proof (split_nonempty sep s) as Hs.
    cbn [PyStr.join]. destruct (PyStr.split sep s) as [| p ps]; [contradiction |].
    rewrite IH. reflexivity.
  - pose proof (split_nonempty sep s) as Hs.
    destruct (PyStr.split sep s) as [| p ps]; [contradiction |].
    destruct ps; cbn [PyStr.join append] in *; now rewrite IH.
Qed.

Lemma truthy_nonempty (s : string) : PyStr.truthy s = true <-> s <> "".
Proof. destruct s; simpl; split; congruence. Qed.

Lemma prefix_app (p s : string) : String.prefix p (p ++ s) = true.
Proof.
  induction p as [| c p IH]; simpl.
  - now destruct s.
  - destruct (ascii_dec c c); [exact IH | contradiction].
Qed.

(* ------------------------------------------------------------------ *)
(** *** Percent-encoding *)

(** Every byte, case by case. *)
Ltac each_byte c := destruct c as [[] [] [] [] [] [] [] []].

Lemma quoter_safe_or_escaped (c : ascii) :
  (Urllib.quoter c = String c "" /\ Ascii.eqb c "%" = false /\ Ascii.eqb c "?" = false
   /\ Urllib.is_ascii c = true)
  \/ (Urllib.quoter c = Urllib.percent c).
Proof.
  unfold Urllib.quoter.
  destruct (Urllib.always_safe c || Ascii.eqb c "/") eqn:Hsafe; [left | now right].
  split; [reflexivity |]. revert Hsafe. each_byte c; vm_compute; auto; discriminate.
Qed.

Lemma quoter_escaped (c : ascii) :
  Urllib.always_safe c || Ascii.eqb c "/" = false -> Urllib.quoter c = Urllib.percent c.
Proof. unfold Urllib.quoter. now intros ->. Qed.

Lemma percent_shape (c : ascii) :
  exists h l : ascii,
    Urllib.percent c = String "%" (String h (String l ""))
    /\ Urllib.hexval h = Some (N_of_ascii c / 16)%N
    /\ Urllib.hexval l = Some (N_of_ascii c mod 16)%N
    /\ Ascii.eqb h "?" = false /\ Ascii.eqb l "?" = false
    /\ Ascii.eqb h "/" = false /\ Ascii.eqb l "/" = false
    /\ Urllib.is_ascii h = true /\ Urllib.is_ascii l = true.
Proof.
  unfold Urllib.percent. eexists. eexists. split; [reflexivity |].
  each_byte c; vm_compute; repeat split; reflexivity.
Qed.

Lemma byte_of_nibbles (c : ascii) :
  ascii_of_N (16 * (N_of_ascii c / 16) + N_of_ascii c mod 16) = c.
Proof.
  rewrite <- N.div_mod by discriminate. apply ascii_N_embedding.
Qed.

(** Unescaping what [quote] wrote gives the bytes back. *)
Lemma unquote_to_bytes_quote (s : string) :
  Urllib.unquote_to_bytes (Urllib.quote s) = s.
Proof.
  induction s as [| c s IH]; [reflexivity |].
  cbn [Urllib.quote].
  destruct (quoter_safe_or_escaped c) as [(-> & Hp & _) | ->].
  - cbn [append Urllib.unquote_to_bytes]. now rewrite Hp, IH.
  - destruct (percent_shape c) as (h & l & -> & Hh & Hl & _).
    cbn [append Urllib.unquote_to_bytes].
    rewrite Ascii.eqb_refl, Hh, Hl, IH, byte_of_nibbles. reflexivity.
Qed.

Lemma quote_no_query (s : string) : PyStr.contains "?" (Urllib.quote s) = false.
Proof.
  induction s as [| c s IH]; [reflexivity |].
  cbn [Urllib.quote]. rewrite contains_app, IH, orb_false_r.
  destruct (quoter_safe_or_escaped c) as [(-> & _ & Hq & _) | ->].
  - simpl. now rewrite Hq.
  - destruct (percent_shape c) as (h & l & -> & _ & _ & Hh & Hl & _).
    simpl. now rewrite Hh, Hl.
Qed.

Lemma quote_is_ascii (s : string) (run : string) :
  Urllib.unquote_parts run (Urllib.quote s)
  = Urllib.unquote_run (run ++ Urllib.quote s).
Proof.
  assert (Hgen : forall q : string,
             (forall run', Urllib.unquote_parts run' q = Urllib.unquote_run (run' ++ q)) ->
             forall (c : ascii) run',
               Urllib.is_ascii c = true ->
               Urllib.unquote_parts run' (String c q)
               = Urllib.unquote_run (run' ++ String c q)).
  { intros q Hq c run' Hc. cbn [Urllib.unquote_parts]. rewrite Hc, Hq.
    f_equal. induction run' as [| x r IHr]; simpl; [reflexivity | now rewrite IHr]. }
  revert run. induction s as [| c s IH]; intros run.
  - simpl. f_equal. induction run as [| x r IHr]; simpl; [reflexivity | now rewrite <- IHr].
  - cbn [Urllib.quote].
    destruct (quoter_safe_or_escaped c) as [(-> & _ & _ & Ha) | ->].
    + cbn [append]. now apply Hgen.
    + destruct (percent_shape c) as (h & l & -> & _ & _ & _ & _ & _ & _ & Hh & Hl).
      cbn [append]. apply Hgen; [| reflexivity].
      intros r1. apply Hgen; [| exact Hh].
      intros r2. apply Hgen; [| exact Hl]. exact IH.
Qed.

Lemma quote_without_percent (s : string) :
  PyStr.contains "%" (Urllib.quote s) = false -> Urllib.quote s = s.
Proof.
  induction s as [| c s IH]; [reflexivity |].
  cbn [Urllib.quote]. rewrite contains_app. intros H.
  apply orb_false_iff in H. destruct H as [Hc Hs].
  destruct (quoter_safe_or_escaped c) as [(Hq & _) | Hq]; rewrite Hq in *.
  - simpl. now rewrite (IH Hs).
  - unfold Urllib.percent in Hc. simpl in Hc. discriminate.
Qed.

(** [unquote] undoes [quote] on every text. *)
Lemma unquote_quote (s : string) :
  Utf8.valid s -> Urllib.unquote (Urllib.quote s) = s.
Proof.
  intros Hv. unfold Urllib.unquote.
  destruct (PyStr.contains "%" (Urllib.quote s)) eqn:Hp.
  - rewrite quote_is_ascii. cbn [append]. unfold Urllib.unquote_run.
    rewrite unquote_to_bytes_quote. now apply decode_replace_valid.
  - now apply quote_without_percent.
Qed.

Lemma quote_nonempty (s : string) : s <> "" -> Urllib.quote s <> "".
Proof.
  destruct s as [| c s]; [congruence |]. intros _.
  cbn [Urllib.quote].
  destruct (quoter_safe_or_escaped c) as [(-> & _) | ->]; [discriminate |].
  unfold Urllib.percent. discriminate.
Qed.
(* ------------------------------------------------------------------ *)
(** *** Feed URIs *)

Lemma split_pieces_no_sep (sep : ascii) (s : string) :
  Forall (fun p => PyStr.contains sep p = false) (PyStr.split sep s).
Proof.
  induction s as [| c s IH]; simpl.
  - constructor; [reflexivity | constructor].
  - destruct (Ascii.eqb c sep) eqn:Hc.
    + constructor; [reflexivity | exact IH].
    + destruct (PyStr.split sep s) as [| p ps].
      * constructor; [simpl; now rewrite Hc | constructor].
      * inversion IH as [| ? ? Hp Hps]; subst.
        constructor; [simpl; now rewrite Hc, Hp | exact Hps].
Qed.

Lemma split_pieces_without (c sep : ascii) (s : string) :
  PyStr.contains c s = false ->
  Forall (fun p => PyStr.contains c p = false) (PyStr.split sep s).
Proof.
  induction s as [| x s IH]; simpl; intros H.
  - constructor; [reflexivity | constructor].
  - apply orb_false_iff in H. destruct H as [Hx Hs]. specialize (IH Hs).
    destruct (Ascii.eqb x sep).
    + constructor; [reflexivity | exact IH].
    + destruct (PyStr.split sep s) as [| p ps].
      * constructor; [simpl; now rewrite Hx | constructor].
      * inversion IH as [| ? ? Hp Hps]; subst.
        constructor; [simpl; now rewrite Hx, Hp | exact Hps].
Qed.

Lemma Forall_nth_default (A : Type) (P : A -> Prop) (l : list A) (n : nat) (d : A) :
  Forall P l -> P d -> P (nth n l d).
Proof.
  intros Hl Hd. revert n. induction Hl as [| x l Hx Hl IH]; intros [| n]; simpl; auto.
Qed.

(** The feed id of a parsed URI holds neither a slash nor a question
    mark. *)
Lemma parse_feed_uri_id (uri feed_id : string) (name : option string) (pos : Z) :
  _parse_feed_uri uri = Ok (feed_id, name, pos) ->
  PyStr.contains "/" feed_id = false /\ PyStr.contains "?" feed_id = false.
Proof.
  unfold _parse_feed_uri.
  destruct (negb (1 <=? List.length (PyStr.split "?" uri))%nat); [discriminate |].
  set (list0 := PyStr.split "/" (nth 0 (PyStr.split "?" uri) "")).
  destruct (negb (3 <=? List.length list0)%nat); [discriminate |].
  destruct (negb (String.eqb (PyStr.remove_char ":" (nth 0 list0 "")) "feed"));
    [discriminate |].
  intros H. injection H as <- _ _. split.
  - apply Forall_nth_default; [apply split_pieces_no_sep | reflexivity].
  - apply Forall_nth_default; [| reflexivity].
    apply split_pieces_without.
    apply (Forall_nth_default _ (fun p => PyStr.contains "?" p = false));
      [apply split_pieces_no_sep | reflexivity].
Qed.

Lemma path_before_query (path : string) (query : option string) :
  PyStr.contains "?" path = false ->
  nth 0 (PyStr.split "?" (path ++ query_suffix query)) "" = path.
Proof.
  intros Hp. destruct query as [q |]; simpl.
  - now rewrite split_app_sep.
  - assert (Hnil : path ++ "" = path).
    { clear Hp. induction path as [| c p IH]; simpl; [reflexivity | now rewrite IH]. }
    rewrite Hnil. now rewrite split_no_sep.
Qed.

(** A URI of the form [feed://<feed id>/<name>?<query>]. *)
Lemma parse_feed_uri_with_name (fid enc : string) (query : option string) :
  PyStr.contains "/" fid = false ->
  PyStr.contains "?" fid = false ->
  PyStr.contains "?" enc = false ->
  _parse_feed_uri ("feed://" ++ fid ++ "/" ++ enc ++ query_suffix query)
  = Ok (fid, if PyStr.truthy enc then Some (Urllib.unquote enc) else None, 0).
Proof.
  intros Hslash Hq Hqe. unfold _parse_feed_uri.
  pose proof (split_length "?" ("feed://" ++ fid ++ "/" ++ enc ++ query_suffix query)) as Hlen.
  apply Nat.leb_le in Hlen. rewrite Hlen. cbn [negb].
  assert (Hpath : nth 0 (PyStr.split "?" ("feed://" ++ fid ++ "/" ++ enc ++ query_suffix query)) ""
                  = "feed://" ++ fid ++ "/" ++ enc).
  { replace ("feed://" ++ fid ++ "/" ++ enc ++ query_suffix query)
      with (("feed://" ++ fid ++ "/" ++ enc) ++ query_suffix query).
    - apply path_before_query.
      rewrite !contains_app, Hq, Hqe. reflexivity.
    - simpl. do 7 f_equal.
      clear. induction fid as [| c f IH]; simpl; [reflexivity | now rewrite IH]. }
  rewrite Hpath.
  change ("feed://" ++ fid ++ "/" ++ enc)
    with ("feed:" ++ String "/" ("" ++ String "/" (fid ++ String "/" enc))).
  rewrite split_app_sep by reflexivity.
  rewrite split_app_sep by reflexivity.
  rewrite split_app_sep by exact Hslash.
  pose proof (split_length "/" enc) as Henc.
  cbn [List.length nth skipn].
  replace (3 <=? S (S (S (List.length (PyStr.split "/" enc)))))%nat with true
    by (symmetry; apply Nat.leb_le; lia).
  cbn [negb]. change (PyStr.remove_char ":" "feed:") with "feed".
  cbn [String.eqb Ascii.eqb Bool.eqb negb].
  now rewrite (join_split "/" enc).
Qed.

(** A URI of the form [feed://<feed id>?<query>]. *)
Lemma parse_feed_uri_without_name (fid : string) (query : option string) :
  PyStr.contains "/" fid = false ->
  PyStr.contains "?" fid = false ->
  _parse_feed_uri ("feed://" ++ fid ++ query_suffix query) = Ok (fid, None, 0).
Proof.
  intros Hslash Hq. unfold _parse_feed_uri.
  pose proof (split_length "?" ("feed://" ++ fid ++ query_suffix query)) as Hlen.
  apply Nat.leb_le in Hlen. rewrite Hlen. cbn [negb].
  assert (Hpath : nth 0 (PyStr.split "?" ("feed://" ++ fid ++ query_suffix query)) ""
                  = "feed://" ++ fid).
  { change ("feed://" ++ fid ++ query_suffix query)
      with (("feed://" ++ fid) ++ query_suffix query).
    apply path_before_query. simpl. exact Hq. }
  rewrite Hpath.
  change ("feed://" ++ fid) with ("feed:" ++ String "/" ("" ++ String "/" fid)).
  rewrite split_app_sep by reflexivity.
  rewrite split_app_sep by reflexivity.
  rewrite split_no_sep by exact Hslash.
  reflexivity.
Qed.

(** What [Feed.__init__] leaves in a live feed. *)
Lemma constructed_live_feed (feed : Feed) :
  constructed feed -> _is_snapshot feed = false ->
  exists feed_id : string,
    _feed_id feed = Some feed_id
    /\ PyStr.contains "/" feed_id = false /\ PyStr.contains "?" feed_id = false
    /\ PyStr.startswith (_feed_uri feed) "feed://" = true
    /\ _parse_feed_uri (_feed_uri feed) = Ok (feed_id, None, 0).
Proof.
  intros (uri & t & t' & H) Hlive. unfold Feed__init__ in H.
  set (u := if negb (Py.substring_in "://" uri) then "feed://" ++ uri else uri) in H.
  destruct (PyStr.startswith u "feed://") eqn:Hu.
  - revert H. run.
    destruct (_parse_feed_uri u) as [[[fid [name |]] pos] | e] eqn:Hparse;
      try discriminate.
    intros H. apply Feed_initialize_fields in H.
    destruct H as (Huri & Hid & _ & _). simpl in Huri, Hid.
    exists fid. rewrite Hid, Huri.
    destruct (parse_feed_uri_id _ _ _ _ Hparse) as [H1 H2].
    assert (Hpos : pos = 0).
    { revert Hparse. unfold _parse_feed_uri.
      repeat match goal with
             | |- context [if ?b then _ else _] => destruct b; try discriminate
             end;
        intros H; now injection H. }
    subst pos. auto.
  - destruct (PyStr.startswith u "sha1://"); [| discriminate].
    revert H. unfold load_json. run.
    destruct (of_reply _) as [obj | e]; [| discriminate].
    destruct obj; try discriminate; intros H; injection H as <- _;
      simpl in Hlive; discriminate.
Qed.

(** A snapshot feed keeps the URI it was loaded from, which is not a
    [feed://] URI. *)
Lemma constructed_snapshot_uri (feed : Feed) :
  constructed feed -> _is_snapshot feed = true ->
  PyStr.startswith (_feed_uri feed) "feed://" = false.
Proof.
  intros (uri & t & t' & H) Hsnap. unfold Feed__init__ in H.
  set (u := if negb (Py.substring_in "://" uri) then "feed://" ++ uri else uri) in H.
  destruct (PyStr.startswith u "feed://") eqn:Hu.
  - revert H. run.
    destruct (_parse_feed_uri u) as [[[fid [name |]] pos] | e]; try discriminate.
    intros H. apply Feed_initialize_fields in H.
    destruct H as (_ & _ & H & _). simpl in H. congruence.
  - destruct (PyStr.startswith u "sha1://"); [| discriminate].
    revert H. unfold load_json. run.
    destruct (of_reply _) as [obj | e]; [| discriminate].
    destruct obj; try discriminate; intros H; injection H as <- _; exact Hu.
Qed.

(** What [_delete_feed] does on the [feed://] URI of a feed id: at most
    the one request, and exactly that one when it returns. *)
Lemma delete_feed_uri_effect (S : Type) (feed_uri feed_id : string) (s : S)
    (t : list event) :
  _parse_feed_uri feed_uri = Ok (feed_id, None, 0) ->
  let o := _delete_feed_uri feed_uri s t in
  self_of o = s
  /\ (trace_of o = t
      \/ exists dh : string * json,
           _daemon_url = Reply dh
           /\ trace_of o
              = (t ++ [Post (fst dh ++ "/feed/deleteFeed")
                         (JDict [("feedId", JStr feed_id)]) (snd dh)])%list)
  /\ (result_of o = Ok tt ->
      exists (dh : string * json) (x ok : json),
        _daemon_url = Reply dh
        /\ _http_post_json t (fst dh ++ "/feed/deleteFeed")
             (JDict [("feedId", JStr feed_id)]) (snd dh) = Reply x
        /\ Py.getitem x "success" = Ok ok /\ Py.truthy ok = true
        /\ trace_of o
           = (t ++ [Post (fst dh ++ "/feed/deleteFeed")
                      (JDict [("feedId", JStr feed_id)]) (snd dh)])%list).
Proof.
  intros Hparse. cbv zeta.
  unfold _delete_feed_uri, daemon_url, http_post_json, self_of, trace_of, result_of.
  run. rewrite Hparse. simpl.
  destruct _daemon_url as [dh | msg]; simpl;
    [| split; [reflexivity |]; split; [now left | discriminate]].
  destruct (_http_post_json t (fst dh ++ "/feed/deleteFeed")
              (JDict [("feedId", JStr feed_id)]) (snd dh)) as [x | msg] eqn:Hpost; simpl;
    [| split; [reflexivity |]; split; [right; now exists dh | discriminate]].
  destruct (Py.getitem x "success") as [ok | e] eqn:Hok; simpl;
    [| split; [reflexivity |]; split; [right; now exists dh | discriminate]].
  destruct (Py.truthy ok) eqn:Htruthy; simpl.
  - split; [reflexivity |]. split; [right; now exists dh |].
    intros _. exists dh, x, ok. auto.
  - destruct (Py.get x "error" JNull); simpl;
      (split; [reflexivity |]; split; [right; now exists dh | discriminate]).
Qed.
(* ------------------------------------------------------------------ *)
(** *** The order of strings and the sorting of items *)




(* ------------------------------------------------------------------ *)
(** *** Canonical JSON does not see the insertion order *)





Lemma append_inj_l (p a b : string) : p ++ a = p ++ b -> a = b.
Proof.
  induction p as [| c p IH]; simpl; intros H; [exact H |].
  injection H as Hr. now apply IH.
Qed.

Lemma append_assoc (a b c : string) : (a ++ b) ++ c = a ++ b ++ c.
Proof.
  induction a as [| x a IH]; simpl; [reflexivity | now rewrite IH].
Qed.

Lemma string_length_append (a b : string) :
  String.length (a ++ b) = (String.length a + String.length b)%nat.
Proof.
  induction a as [| x a IH]; simpl; [reflexivity | now rewrite IH].
Qed.

Lemma append_inj_r (a b s : string) : a ++ s = b ++ s -> a = b.
Proof.
  revert b. induction a as [| x a IH]; intros [| y b] H; simpl in H.
  - reflexivity.
  - apply (f_equal String.length) in H. simpl in H.
    rewrite string_length_append in H. lia.
  - apply (f_equal String.length) in H. simpl in H.
    rewrite string_length_append in H. lia.
  - injection H as Hc Hr. subst y. f_equal. now apply IH.
Qed.




(* ------------------------------------------------------------------ *)
(** *** What the monad's operations keep *)

Lemma tame_ok (A : Type) (a : A) : tame (Ok a).
Proof. intros e H. discriminate H. Qed.

Lemma tame_raise (A : Type) (e : exn) : ordinary e -> tame (@Raise A e).
Proof. intros He e' H. now injection H as <-. Qed.

Lemma tame_of_reply (A : Type) (r : reply A) : tame (of_reply r).
Proof. destruct r; intros e H; [discriminate H | injection H as <-; discriminate]. Qed.

Lemma tame_getitem (x : json) (k : string) : tame (Py.getitem x k).
Proof.
  intros e H. unfold Py.getitem in H.
  destruct x as [| | | | | d]; try (injection H as <-; discriminate).
  destruct (Py.assoc k d); [discriminate H | injection H as <-; discriminate].
Qed.

Lemma tame_get (x : json) (k : string) (default : json) : tame (Py.get x k default).
Proof.
  intros e H. unfold Py.get in H.
  destruct x as [| | | | | d]; try (injection H as <-; discriminate).
  destruct (Py.assoc k d); discriminate H.
Qed.

Lemma tame_len (x : json) : tame (Py.len x).
Proof.
  intros e H. destruct x; simpl in H; try discriminate H; injection H as <-; discriminate.
Qed.

Lemma tame_getslice (x : json) (start : Z) (stop : option Z) :
  tame (Py.getslice x start stop).
Proof.
  intros e H. destruct x; simpl in H; try discriminate H; injection H as <-; discriminate.
Qed.

Lemma tame_contains (k : string) (x : json) : tame (Py.contains k x).
Proof.
  intros e H. destruct x; simpl in H; try discriminate H; injection H as <-; discriminate.
Qed.

Lemma tame_iter (x : json) : tame (Py.iter x).
Proof.
  intros e H. destruct x; simpl in H; try discriminate H; injection H as <-; discriminate.
Qed.

Lemma tame_index (A : Type) (l : list A) (i : Z) : tame (Py.index l i).
Proof.
  intros e H. unfold Py.index in H.
  destruct ((_ <? 0) || _); [injection H as <-; discriminate |].
  destruct (nth_error l _); [discriminate H | injection H as <-; discriminate].
Qed.

Lemma tame_watch2 (channel : string) (watch : json) : tame (watch2 channel watch).
Proof.
  intros e H. unfold watch2 in H.
  destruct (Py.getitem watch "feedId") as [feedId | e1] eqn:H1;
    [| injection H as <-; exact (tame_getitem _ _ _ H1)].
  destruct (Py.contains "subfeedHash" watch) as [has | e2] eqn:H2;
    [| injection H as <-; exact (tame_contains _ _ _ H2)].
  destruct has.
  - destruct (Py.get watch "subfeedHash" JNull) as [h | e3] eqn:H3;
      [| injection H as <-; exact (tame_get _ _ _ _ H3)].
    destruct (Py.getitem watch "position") as [p | e4] eqn:H4;
      [discriminate H | injection H as <-; exact (tame_getitem _ _ _ H4)].
  - destruct (Py.getitem watch "subfeedName") as [n | e3] eqn:H3;
      [| injection H as <-; exact (tame_getitem _ _ _ H3)].
    destruct (Py.getitem watch "position") as [p | e4] eqn:H4;
      [discriminate H | injection H as <-; exact (tame_getitem _ _ _ H4)].
Qed.

Lemma tame_watches2 (channel : string) (ws : list (string * json)) :
  tame (watches2 channel ws).
Proof.
  induction ws as [| [key watch] ws IH]; intros e H; simpl in H; [discriminate H |].
  destruct (watch2 channel watch) as [w | e1] eqn:H1;
    [| injection H as <-; exact (tame_watch2 _ _ _ H1)].
  destruct (watches2 channel ws) as [ws' | e2];
    [discriminate H | injection H as <-; now apply IH].
Qed.

Section Obeys.

Context {S : Type} (R : S -> S -> Prop).

Lemma obeys_ret (A : Type) (a : A) : (forall s, R s s) -> obeys R (@ret S A a).
Proof. intros Hrefl s t. split; [apply Hrefl | apply tame_ok]. Qed.

Lemma obeys_raise (A : Type) (e : exn) :
  (forall s, R s s) -> ordinary e -> obeys R (@raise S A e).
Proof. intros Hrefl He s t. split; [apply Hrefl | now apply tame_raise]. Qed.

Lemma obeys_lift (A : Type) (r : result A) :
  (forall s, R s s) -> tame r -> obeys R (@lift S A r).
Proof. intros Hrefl Hr s t. split; [apply Hrefl | exact Hr]. Qed.

Lemma obeys_get_self : (forall s, R s s) -> obeys R (@get_self S).
Proof. intros Hrefl s t. split; [apply Hrefl | apply tame_ok]. Qed.

Lemma obeys_set_self (s' : S) : (forall s, R s s') -> obeys R (set_self s').
Proof. intros H s t. split; [apply H | apply tame_ok]. Qed.

Lemma obeys_daemon_url : (forall s, R s s) -> obeys R (@daemon_url S).
Proof. intros Hrefl. apply obeys_lift; [exact Hrefl | apply tame_of_reply]. Qed.

Lemma obeys_http_post_json (url : string) (body headers : json) :
  (forall s, R s s) -> obeys R (@http_post_json S url body headers).
Proof. intros Hrefl s t. split; [apply Hrefl | apply tame_of_reply]. Qed.

Lemma obeys_sleep : (forall s, R s s) -> obeys R (@sleep S).
Proof. intros Hrefl s t. split; [apply Hrefl | apply tame_ok]. Qed.

Lemma obeys_bind (A B : Type) (c : M S A) (k : A -> M S B) :
  (forall a b c, R a b -> R b c -> R a c) ->
  obeys R c -> (forall a, obeys R (k a)) -> obeys R (bind c k).
Proof.
  intros Htrans Hc Hk s t. unfold bind, self_of, result_of.
  destruct (Hc s t) as [HR Ht]. unfold self_of, result_of in HR, Ht.
  destruct (c s t) as [[[a | e] s'] t']; simpl in *.
  - destruct (Hk a s' t') as [HR' Ht']. split; [| exact Ht'].
    exact (Htrans _ _ _ HR HR').
  - split; [exact HR |]. intros e' He'. injection He' as <-. exact (Ht e eq_refl).
Qed.

Lemma obeys_watch_for_new_messages (subfeed_watches : list (string * json))
    (wait_msec : Z) (channel : string) (signed : bool) (max_num_messages : Z) :
  (forall s, R s s) -> (forall a b c, R a b -> R b c -> R a c) ->
  obeys R (@_watch_for_new_messages S subfeed_watches wait_msec channel signed
             max_num_messages).
Proof.
  intros Hrefl Htrans. unfold _watch_for_new_messages.
  apply obeys_bind; [exact Htrans | now apply obeys_daemon_url | intros dh].
  apply obeys_bind; [exact Htrans | apply obeys_lift; [exact Hrefl | apply tame_watches2]
                    | intros ws].
  apply obeys_bind; [exact Htrans | now apply obeys_http_post_json | intros x].
  apply obeys_bind; [exact Htrans | apply obeys_lift; [exact Hrefl | apply tame_getitem]
                    | intros ok].
  destruct (negb (Py.truthy ok)).
  - apply obeys_bind; [exact Htrans | apply obeys_lift; [exact Hrefl | apply tame_getitem]
                      | intros _].
    apply obeys_raise; [exact Hrefl | discriminate].
  - apply obeys_lift; [exact Hrefl | apply tame_getitem].
Qed.

End Obeys.

(* ------------------------------------------------------------------ *)
(** *** Fetching, with and without moving the cursor *)

Lemma fetch_keeps_self (wait_msec : Z) (signed : bool) (max_num_messages : Z) :
  obeys (fun s s' : Subfeed => s' = s) (fetch wait_msec signed max_num_messages).
Proof.
  assert (Hrefl : forall s : Subfeed, s = s) by reflexivity.
  assert (Htrans : forall a b c : Subfeed, b = a -> c = b -> c = a) by congruence.
  unfold fetch, Subfeed_get_next_messages.
  apply obeys_bind; [exact Htrans | now apply obeys_get_self | intros self].
  destruct (negb (Subfeed_is_snapshot self)).
  - apply obeys_bind;
      [exact Htrans | now apply obeys_watch_for_new_messages | intros x].
    apply obeys_bind;
      [exact Htrans | apply obeys_lift; [exact Hrefl | apply tame_get] | intros y].
    apply obeys_bind; [exact Htrans | now apply obeys_ret | intros _].
    now apply obeys_ret.
  - cbv zeta.
    apply obeys_bind; [exact Htrans | | intros y].
    + apply obeys_lift; [exact Hrefl |].
      destruct (0 <? max_num_messages); apply tame_getslice.
    + apply obeys_bind; [exact Htrans | now apply obeys_ret | intros _].
      now apply obeys_ret.
Qed.

(** [get_next_messages] is its fetch followed, when [advance_position] is
    set, by the move of the cursor by the length of what was fetched. *)
Lemma get_next_messages_as_fetch (wait_msec : Z) (signed : bool)
    (max_num_messages : Z) (advance_position : bool) (self : Subfeed) (t : list event) :
  Subfeed_get_next_messages wait_msec signed max_num_messages advance_position self t
  = match fetch wait_msec signed max_num_messages self t with
    | (Ok y, _, t') =>
      if advance_position then
        match Py.len y with
        | Ok n => (Ok y, with_position self (_position self + n), t')
        | Raise e => (Raise e, self, t')
        end
      else (Ok y, self, t')
    | (Raise e, _, t') => (Raise e, self, t')
    end.
Proof.
  unfold fetch, Subfeed_get_next_messages, advance. run.
  destruct (negb (Subfeed_is_snapshot self)).
  - pose proof (obeys_watch_for_new_messages (fun s s' : Subfeed => s' = s)
                  [("watch", JDict [("feedId", json_of_opt (sf_feed_id self));
                                    ("subfeedHash", JStr (sf_subfeed_hash self));
                                    ("position", JInt (_position self))])]
                  wait_msec (_channel self) signed max_num_messages
                  (fun s => eq_refl) ltac:(congruence) self t) as [Hs _].
    unfold self_of in Hs.
    destruct (_watch_for_new_messages _ _ _ _ _ self t) as [[[x | e] s'] t'];
      simpl in Hs; subst s'; [| reflexivity].
    destruct (Py.get x "watch" (JList [])) as [y | e]; [| reflexivity].
    destruct advance_position; [| reflexivity].
    destruct (Py.len y); reflexivity.
  - destruct (if 0 <? max_num_messages then _ else _) as [y | e]; [| reflexivity].
    destruct advance_position; [| reflexivity].
    destruct (Py.len y); reflexivity.
Qed.

(** After [get_next_messages] the cursor stands where it stood, moved
    forward by the number of messages returned when the call returned and
    [advance_position] was set; nothing else in the subfeed changes. *)
Lemma get_next_messages_cursor (wait_msec : Z) (signed : bool)
    (max_num_messages : Z) (advance_position : bool) (self : Subfeed) (t : list event) :
  let o := Subfeed_get_next_messages wait_msec signed max_num_messages
             advance_position self t in
  match result_of o with
  | Ok y =>
    if advance_position
    then exists n : Z, Py.len y = Ok n /\ 0 <= n
                       /\ self_of o = with_position self (_position self + n)
    else self_of o = self
  | Raise _ => self_of o = self
  end.
Proof.
  cbv zeta. rewrite get_next_messages_as_fetch.
  destruct (fetch wait_msec signed max_num_messages self t) as [[[y | e] s'] t'];
    [| reflexivity].
  destruct advance_position; [| reflexivity].
  destruct (Py.len y) as [n | e] eqn:Hlen; [| reflexivity].
  exists n. split; [exact Hlen |]. split; [| reflexivity].
  destruct y; simpl in Hlen; try discriminate Hlen; injection Hlen as <-; lia.
Qed.

(* ------------------------------------------------------------------ *)
(** *** The stream *)

(** Loading the buffer leaves the parent as it was, keeps the offset and
    the flag of the iterator, extends the buffer at its end, and raises
    ordinary exceptions only. *)
Lemma load_messages_effect (s : custom_iterator * Subfeed) (t : list event) :
  let o := _load_messages s t in
  snd (self_of o) = snd s
  /\ _relative_position (fst (self_of o)) = _relative_position (fst s)
  /\ signed_of (fst (self_of o)) = signed_of (fst s)
  /\ (exists more : list json, _messages (fst (self_of o)) = (_messages (fst s) ++ more)%list)
  /\ tame (result_of o).
Proof.
  cbv zeta. unfold _load_messages. run. unfold self_of, result_of.
  destruct s as [it parent]. simpl.
  pose proof (fetch_keeps_self 5000 (signed_of it) 0 parent t) as [Hs Ht].
  unfold fetch, self_of, result_of in Hs, Ht.
  destruct (Subfeed_get_next_messages 5000 (signed_of it) 0 false parent t)
    as [[[y | e] parent'] t']; simpl in *; subst parent'.
  - assert (Hnil : exists more : list json, _messages it = (_messages it ++ more)%list)
      by (exists []; now rewrite app_nil_r).
    destruct y; simpl;
      repeat split; try exact Hnil; try (intros e He; discriminate He);
      try (eexists; reflexivity);
      try (intros e He; injection He as <-; discriminate).
  - split; [reflexivity |]. split; [reflexivity |]. split; [reflexivity |].
    split; [exists []; now rewrite app_nil_r |].
    intros e' He'. injection He' as <-. exact (Ht e eq_refl).
Qed.

Lemma with_messages_same (it : custom_iterator) :
  mkIter (signed_of it) (_messages it ++ []) (_relative_position it) = it.
Proof. destruct it. simpl. now rewrite app_nil_r. Qed.

(** What the loop of [__next__] leaves behind. *)
Lemma next_loop_effect (fuel : nat) (s : custom_iterator * Subfeed) (t : list event) :
  let o := next_loop fuel s t in
  snd (state_of o) = snd s
  /\ _relative_position (fst (state_of o)) = _relative_position (fst s)
  /\ match progress_of o with
     | Done (Ok _) => exhausted (fst (state_of o)) = false
     | Done (Raise e) =>
       e = StopIteration ->
       Subfeed_is_snapshot (snd s) = true /\ exhausted (fst (state_of o)) = true
     | Running =>
       exhausted (fst (state_of o)) = true
       /\ (Subfeed_is_snapshot (snd s) = true -> fuel = O)
     end.
Proof.
  cbv zeta. revert s t. induction fuel as [| fuel IH]; intros s t.
  - simpl. destruct (exhausted (fst s)) eqn:Hex; unfold state_of, progress_of; simpl; auto.
  - simpl. destruct (exhausted (fst s)) eqn:Hex;
      [| unfold state_of, progress_of; simpl; auto].
    pose proof (load_messages_effect s t) as (Hp & Hr & _ & _ & Ht).
    unfold self_of, result_of in Hp, Hr, Ht.
    destruct (_load_messages s t) as [[[u | e] s'] t']; simpl in Hp, Hr, Ht.
    + destruct (exhausted (fst s')) eqn:Hex'.
      * destruct (Subfeed_is_snapshot (snd s')) eqn:Hsnap.
        -- unfold state_of, progress_of; simpl.
           split; [exact Hp |]. split; [exact Hr |]. intros _.
           rewrite <- Hp. auto.
        -- specialize (IH s' (t' ++ [Sleep])%list).
           destruct IH as (IHp & IHr & IHo).
           split; [congruence |]. split; [congruence |].
           destruct (progress_of (next_loop fuel s' (t' ++ [Sleep])%list)) as [[v | e] |].
           ++ exact IHo.
           ++ rewrite <- Hp. exact IHo.
           ++ destruct IHo as [IH1 IH2]. split; [exact IH1 |].
              rewrite <- Hp, Hsnap. discriminate.
      * specialize (IH s' t'). destruct IH as (IHp & IHr & IHo).
        split; [congruence |]. split; [congruence |].
        assert (Hfirst : next_loop fuel s' t' = (Done (Ok tt), s', t'))
          by (destruct fuel; simpl; now rewrite Hex').
        rewrite Hfirst in *. unfold progress_of, state_of in *. simpl in *. exact Hex'.
    + unfold state_of, progress_of; simpl.
      split; [exact Hp |]. split; [exact Hr |].
      intros ->. exfalso. exact (Ht StopIteration eq_refl eq_refl).
Qed.

(** Under a quiet daemon a load on a live subfeed brings nothing. *)
Lemma load_messages_quiet (it : custom_iterator) (parent : Subfeed) (t : list event) :
  quiet -> Subfeed_is_snapshot parent = false ->
  exists e : event,
    is_post e = true
    /\ _load_messages (it, parent) t = (Ok tt, (it, parent), (t ++ [e])%list).
Proof.
  intros [[dh Hdh] Hquiet] Hlive.
  unfold _load_messages, Subfeed_get_next_messages, _watch_for_new_messages,
    daemon_url, http_post_json.
  run. rewrite Hlive, Hdh. simpl.
  match goal with
  | |- context [_http_post_json t ?url ?body ?headers] =>
    destruct (Hquiet t url body headers) as (x & -> & ok & messages & y & H1 & H2 & H3 & H4 & H5);
      exists (Post url body headers)
  end.
  split; [reflexivity |]. simpl.
  rewrite H1, H2. simpl. rewrite H3, H4.
  destruct H5 as [-> | H5]; [reflexivity |].
  destruct y; simpl in H5 |- *; try discriminate H5.
  - injection H5 as H5. rewrite H5. simpl. now rewrite with_messages_same.
  - injection H5 as ->. simpl. now rewrite with_messages_same.
  - injection H5 as H5. rewrite H5. simpl. now rewrite with_messages_same.
Qed.

(** Under a quiet daemon the loop on a live subfeed with an empty buffer
    polls and sleeps once per turn and is still running when stopped. *)
Lemma next_loop_quiet (fuel : nat) (it : custom_iterator) (parent : Subfeed)
    (t : list event) :
  quiet -> Subfeed_is_snapshot parent = false -> exhausted it = true ->
  exists t' : list event,
    next_loop fuel (it, parent) t = (Running, (it, parent), t')
    /\ List.length (posts t') = (List.length (posts t) + fuel)%nat
    /\ List.length (sleeps t') = (List.length (sleeps t) + fuel)%nat.
Proof.
  intros Hq Hlive Hex. revert t. induction fuel as [| fuel IH]; intros t.
  - exists t. simpl. rewrite Hex. split; [reflexivity |]. split; lia.
  - destruct (load_messages_quiet it parent t Hq Hlive) as (e & He & Hload).
    destruct (IH ((t ++ [e]) ++ [Sleep])%list) as (t' & Hloop & Hposts & Hsleeps).
    exists t'. split.
    + simpl. rewrite Hex. simpl. rewrite Hload. simpl. rewrite Hex, Hlive. exact Hloop.
    + unfold posts, sleeps in *.
      rewrite !filter_app, !length_app in Hposts, Hsleeps. simpl in Hposts, Hsleeps.
      rewrite He in Hposts. destruct e; try discriminate He.
      simpl in Hposts, Hsleeps. split; lia.
Qed.

(** On a snapshot whose messages end at or before the cursor, the loop
    with an empty buffer ends the sequence at its first turn. *)
Lemma next_loop_snapshot_end (fuel : nat) (it : custom_iterator) (parent : Subfeed)
    (t : list event) (msgs : list json) :
  Subfeed_is_snapshot parent = true ->
  Subfeed_get_snapshot_messages parent = JList msgs ->
  Z.of_nat (List.length msgs) <= _position parent ->
  exhausted it = true ->
  next_loop (S fuel) (it, parent) t = (Done (Raise StopIteration), (it, parent), t).
Proof.
  intros Hsnap Hmsgs Hend Hex.
  assert (Hload : _load_messages (it, parent) t = (Ok tt, (it, parent), t)).
  { unfold _load_messages. run.
    rewrite (snapshot_fetch parent t msgs 5000 (signed_of it) 0 false Hsnap Hmsgs).
    simpl. rewrite slice_past_end by exact Hend. simpl.
    now rewrite with_messages_same. }
  simpl. rewrite Hex. simpl. rewrite Hload. simpl. now rewrite Hex, Hsnap.
Qed.

Lemma index_in_range (A : Type) (l : list A) (i : Z) :
  0 <= i < Z.of_nat (List.length l) -> exists a : A, Py.index l i = Ok a.
Proof.
  intros [H0 H1]. unfold Py.index.
  destruct (Z.ltb_spec i 0) as [Hneg | _]; [lia |].
  destruct (Z.ltb_spec i 0) as [Hneg | _]; [lia |].
  destruct (Z.leb_spec (Z.of_nat (List.length l)) i) as [Hbig | _]; [lia |]. simpl.
  destruct (nth_error l (Z.to_nat i)) as [a |] eqn:Hnth; [now exists a |].
  apply nth_error_None in Hnth. lia.
Qed.

(** One call of [__next__]: when it ends the sequence, when it yields,
    what happens to the parent, and that it ends on a snapshot. *)
Lemma next_effect (fuel : nat) (it : custom_iterator) (parent : Subfeed)
    (t : list event) :
  0 <= _relative_position it ->
  (progress_of (__next__ fuel (it, parent) t) = Done (Raise StopIteration) ->
   Subfeed_is_snapshot parent = true
   /\ exhausted (fst (state_of (__next__ fuel (it, parent) t))) = true
   /\ snd (state_of (__next__ fuel (it, parent) t)) = parent)
  /\ (forall m : json,
        progress_of (__next__ fuel (it, parent) t) = Done (Ok m) ->
        snd (state_of (__next__ fuel (it, parent) t))
        = with_position parent (_position parent + 1)
        /\ _relative_position (fst (state_of (__next__ fuel (it, parent) t)))
           = _relative_position it + 1)
  /\ ((forall m : json, progress_of (__next__ fuel (it, parent) t) <> Done (Ok m)) ->
      snd (state_of (__next__ fuel (it, parent) t)) = parent)
  /\ (Subfeed_is_snapshot parent = true -> (1 <= fuel)%nat ->
      progress_of (__next__ fuel (it, parent) t) <> Running).
Proof.
  intros Hrel.
  pose proof (next_loop_effect fuel (it, parent) t) as (Hp & Hr & Ho).
  unfold __next__, progress_of, state_of in *. simpl in Hp, Hr, Ho.
  destruct (next_loop fuel (it, parent) t) as [[[[u | e] |] [it1 parent1]] t1];
    simpl in Hp, Hr, Ho |- *; subst parent1.
  - assert (Hin : exists m : json,
               Py.index (_messages it1) (_relative_position it1 + 1 - 1) = Ok m).
    { apply index_in_range. unfold exhausted in Ho.
      apply Z.leb_gt in Ho. lia. }
    destruct Hin as [m Hm]. rewrite Hm.
    split; [discriminate |]. split; [intros _ _; split; [reflexivity | lia] |].
    split; [intros Hno; now destruct (Hno m) |]. discriminate.
  - split; [intros He; injection He as ->; destruct (Ho eq_refl); auto |].
    split; [discriminate |]. split; [reflexivity |]. discriminate.
  - split; [discriminate |]. split; [discriminate |]. split; [reflexivity |].
    intros Hsnap Hfuel _. destruct Ho as [_ Ho]. specialize (Ho Hsnap). lia.
Qed.
(* ------------------------------------------------------------------ *)
(** *** The cursor under the operations *)

Lemma moved_on_refl (s : Subfeed) : moved_on s s.
Proof. split; [lia | now rewrite with_position_same]. Qed.

Lemma moved_on_trans (a b c : Subfeed) : moved_on a b -> moved_on b c -> moved_on a c.
Proof.
  intros [H1 H2] [H3 H4]. split; [lia |].
  rewrite H4, H2. reflexivity.
Qed.

Lemma moved_on_forward (s : Subfeed) (n : Z) :
  0 <= n -> moved_on s (with_position s (_position s + n)).
Proof. intros Hn. split; simpl; [lia | reflexivity]. Qed.

Lemma get_next_messages_moves_on (wait_msec : Z) (signed : bool)
    (max_num_messages : Z) (advance_position : bool) :
  obeys moved_on
    (Subfeed_get_next_messages wait_msec signed max_num_messages advance_position).
Proof.
  intros s t. split.
  - pose proof (get_next_messages_cursor wait_msec signed max_num_messages
                  advance_position s t) as H. cbv zeta in H.
    destruct (result_of _) as [y | e].
    + destruct advance_position.
      * destruct H as (n & _ & Hn & ->). now apply moved_on_forward.
      * rewrite H. apply moved_on_refl.
    + rewrite H. apply moved_on_refl.
  - rewrite get_next_messages_as_fetch.
    pose proof (fetch_keeps_self wait_msec signed max_num_messages s t) as [_ Ht].
    unfold result_of in *.
    destruct (fetch wait_msec signed max_num_messages s t) as [[[y | e] s'] t'];
      simpl in *.
    + destruct advance_position; [| apply tame_ok].
      destruct (Py.len y) as [n | e] eqn:Hlen; simpl; [apply tame_ok |].
      intros e' He'. injection He' as <-. exact (tame_len y e Hlen).
    + intros e' He'. injection He' as <-. exact (Ht e eq_refl).
Qed.

Lemma get_next_message_obeys (R : Subfeed -> Subfeed -> Prop)
    (wait_msec : Z) (signed advance_position : bool) :
  (forall s, R s s) -> (forall a b c, R a b -> R b c -> R a c) ->
  obeys R (Subfeed_get_next_messages wait_msec signed 1 advance_position) ->
  obeys R (Subfeed_get_next_message wait_msec signed advance_position).
Proof.
  intros Hrefl Htrans Hfetch. unfold Subfeed_get_next_message.
  apply obeys_bind; [exact Htrans | exact Hfetch | intros messages].
  assert (Hrest : obeys R
            (n <- lift (Py.len messages) ;;
             (if n =? 0 then ret JNull
              else match messages with
                   | JList l => lift (Py.index l 0)
                   | JStr s => c <- lift (Py.index (Utf8.chars s) 0) ;; ret (JStr c)
                   | _ => raise KeyError
                   end) : M Subfeed json)).
  { apply obeys_bind;
      [exact Htrans | apply obeys_lift; [exact Hrefl | apply tame_len] | intros n].
    destruct (n =? 0); [apply obeys_ret; exact Hrefl |].
    destruct messages;
      try (apply obeys_raise; [exact Hrefl | discriminate]).
    - apply obeys_bind;
        [exact Htrans | apply obeys_lift; [exact Hrefl | apply tame_index] | intros c].
      apply obeys_ret; exact Hrefl.
    - apply obeys_lift; [exact Hrefl | apply tame_index]. }
  destruct messages; try exact Hrest.
  apply obeys_ret; exact Hrefl.
Qed.

Lemma get_next_message_moves_on (wait_msec : Z) (signed advance_position : bool) :
  obeys moved_on (Subfeed_get_next_message wait_msec signed advance_position).
Proof.
  apply get_next_message_obeys;
    [exact moved_on_refl | exact moved_on_trans | apply get_next_messages_moves_on].
Qed.

Lemma get_num_local_messages_keeps_self :
  obeys (fun s s' : Subfeed => s' = s) Subfeed_get_num_local_messages.
Proof.
  assert (Hrefl : forall s : Subfeed, s = s) by reflexivity.
  assert (Htrans : forall a b c : Subfeed, b = a -> c = b -> c = a) by congruence.
  unfold Subfeed_get_num_local_messages.
  apply obeys_bind; [exact Htrans | now apply obeys_get_self | intros self].
  destruct (negb (Subfeed_is_snapshot self)).
  - apply obeys_bind; [exact Htrans | now apply obeys_daemon_url | intros dh].
    apply obeys_bind; [exact Htrans | now apply obeys_http_post_json | intros x].
    apply obeys_bind;
      [exact Htrans | apply obeys_lift; [exact Hrefl | apply tame_getitem] | intros ok].
    destruct (negb (Py.truthy ok)).
    + apply obeys_raise; [exact Hrefl | discriminate].
    + apply obeys_lift; [exact Hrefl | apply tame_getitem].
  - cbv zeta.
    apply obeys_bind;
      [exact Htrans | apply obeys_lift; [exact Hrefl | apply tame_len] | intros n].
    now apply obeys_ret.
Qed.

Lemma append_messages_keeps_self (messages : json) :
  obeys (fun s s' : Subfeed => s' = s) (Subfeed_append_messages messages).
Proof.
  assert (Hrefl : forall s : Subfeed, s = s) by reflexivity.
  assert (Htrans : forall a b c : Subfeed, b = a -> c = b -> c = a) by congruence.
  unfold Subfeed_append_messages.
  apply obeys_bind; [exact Htrans | now apply obeys_get_self | intros self].
  destruct (negb (Py.truthy (Subfeed_is_writeable self))).
  - apply obeys_raise; [exact Hrefl | discriminate].
  - apply obeys_bind; [exact Htrans | now apply obeys_daemon_url | intros dh].
    apply obeys_bind; [exact Htrans | now apply obeys_http_post_json | intros x].
    apply obeys_bind;
      [exact Htrans | apply obeys_lift; [exact Hrefl | apply tame_getitem] | intros ok].
    destruct (negb (Py.truthy ok)).
    + apply obeys_bind;
        [exact Htrans | apply obeys_lift; [exact Hrefl | apply tame_get] | intros _].
      apply obeys_raise; [exact Hrefl | discriminate].
    + now apply obeys_ret.
Qed.

(** What [__next__] does to the parent: nothing, or one step forward. *)
Lemma next_parent (fuel : nat) (it : custom_iterator) (parent : Subfeed)
    (t : list event) :
  snd (state_of (__next__ fuel (it, parent) t)) = parent
  \/ snd (state_of (__next__ fuel (it, parent) t))
     = with_position parent (_position parent + 1).
Proof.
  pose proof (next_loop_effect fuel (it, parent) t) as (Hp & _).
  unfold __next__, state_of in *. simpl in Hp.
  destruct (next_loop fuel (it, parent) t) as [[[[u | e] |] [it1 parent1]] t1];
    simpl in *; subst parent1; auto.
Qed.

(** Every operation but [set_position] moves the subfeed on. *)
Lemma perform_moves_on (o : op) (c : client) :
  is_set_position o = false -> moved_on (c_self c) (c_self (perform o c)).
Proof.
  assert (Hkeep : forall (A : Type) (m : M Subfeed A),
             obeys (fun s s' : Subfeed => s' = s) m ->
             moved_on (c_self c) (c_self (on_self m c))).
  { intros A m Hm. unfold on_self.
    destruct (Hm (c_self c) (c_trace c)) as [Hs _]. unfold self_of in Hs.
    destruct (m (c_self c) (c_trace c)) as [[r s] t]. simpl in *. subst s.
    apply moved_on_refl. }
  assert (Hmove : forall (A : Type) (m : M Subfeed A),
             obeys moved_on m -> moved_on (c_self c) (c_self (on_self m c))).
  { intros A m Hm. unfold on_self.
    destruct (Hm (c_self c) (c_trace c)) as [Hs _]. unfold self_of in Hs.
    now destruct (m (c_self c) (c_trace c)) as [[r s] t]. }
  destruct o as [p | w s m a | w s a | | ms | m | s | i fuel]; intros Hop;
    try discriminate Hop; cbn [perform].
  - apply Hmove, get_next_messages_moves_on.
  - apply Hmove, get_next_message_moves_on.
  - apply Hkeep, get_num_local_messages_keeps_self.
  - apply Hkeep, append_messages_keeps_self.
  - apply Hkeep. unfold Subfeed_append_message. apply append_messages_keeps_self.
  - unfold Subfeed_message_stream.
    pose proof (load_messages_effect (mkIter s [] 0, c_self c) (c_trace c)) as (Hp & _).
    unfold self_of in Hp.
    destruct (_load_messages (mkIter s [] 0, c_self c) (c_trace c))
      as [[[u | e] [it parent]] t]; simpl in *; subst parent; apply moved_on_refl.
  - destruct (nth_error (c_iters c) i) as [it |]; [| apply moved_on_refl].
    pose proof (next_parent fuel it (c_self c) (c_trace c)) as Hn.
    unfold state_of in Hn.
    destruct (__next__ fuel (it, c_self c) (c_trace c)) as [[r [it' parent]] t].
    simpl in *. destruct Hn as [-> | ->];
      [apply moved_on_refl | apply moved_on_forward; lia].
Qed.

Lemma perform_all_moves_on (ops : list op) (c : client) :
  (forall o, In o ops -> is_set_position o = false) ->
  moved_on (c_self c) (c_self (perform_all ops c)).
Proof.
  revert c. induction ops as [| o ops IH]; intros c Hops; simpl.
  - apply moved_on_refl.
  - apply (moved_on_trans _ (c_self (perform o c))).
    + apply perform_moves_on. apply Hops. now left.
    + apply IH. intros o' Ho'. apply Hops. now right.
Qed.

(* ------------------------------------------------------------------ *)
(** *** The cursor of a snapshot subfeed and the end of its messages *)

Lemma slice_length (A : Type) (l : list A) (p : Z) (stop : option Z) :
  0 <= p <= Z.of_nat (List.length l) ->
  Z.of_nat (List.length (Py.slice l p stop)) <= Z.of_nat (List.length l) - p.
Proof.
  intros Hp. unfold Py.slice, Py.clamp.
  destruct (Z.ltb_spec p 0) as [Hneg | _]; [lia |].
  rewrite Z.min_l by lia.
  pose proof (firstn_le_length
                (Z.to_nat (match stop with
                           | Some e => if e <? 0
                                       then Z.max 0 (e + Z.of_nat (List.length l))
                                       else Z.min e (Z.of_nat (List.length l))
                           | None => Z.of_nat (List.length l)
                           end - p))
                (skipn (Z.to_nat p) l)) as H1.
  rewrite length_firstn, length_skipn. lia.
Qed.

Lemma get_next_messages_stays_within (msgs : list json) (wait_msec : Z) (signed : bool)
    (max_num_messages : Z) (advance_position : bool) :
  obeys (stays_within msgs)
    (Subfeed_get_next_messages wait_msec signed max_num_messages advance_position).
Proof.
  intros s t. split.
  - intros (Hsnap & Hmsgs & Hpos).
    rewrite (snapshot_fetch s t msgs wait_msec signed max_num_messages
               advance_position Hsnap Hmsgs).
    unfold self_of. simpl.
    destruct advance_position; [| now repeat split].
    split; [exact Hsnap |]. split; [exact Hmsgs |]. simpl.
    destruct (0 <? max_num_messages);
      match goal with
      | |- context [Py.slice msgs ?p ?stop] =>
        pose proof (slice_length _ msgs p stop Hpos)
      end; lia.
  - apply get_next_messages_moves_on.
Qed.

Lemma stays_within_refl (msgs : list json) (s : Subfeed) : stays_within msgs s s.
Proof. intros H. exact H. Qed.

Lemma stays_within_trans (msgs : list json) (a b c : Subfeed) :
  stays_within msgs a b -> stays_within msgs b c -> stays_within msgs a c.
Proof. intros H1 H2 H. exact (H2 (H1 H)). Qed.

(** The operations that go through the subfeed keep its cursor within
    the messages of a snapshot. *)
Lemma perform_fetch_stays_within (msgs : list json) (o : op) (c : client) :
  is_fetch o = true -> within msgs (c_self c) -> within msgs (c_self (perform o c)).
Proof.
  assert (Hkeep : forall (A : Type) (m : M Subfeed A),
             obeys (fun s s' : Subfeed => s' = s) m ->
             within msgs (c_self c) -> within msgs (c_self (on_self m c))).
  { intros A m Hm. unfold on_self.
    destruct (Hm (c_self c) (c_trace c)) as [Hs _]. unfold self_of in Hs.
    destruct (m (c_self c) (c_trace c)) as [[r s] t]. simpl in *. now subst s. }
  assert (Hmove : forall (A : Type) (m : M Subfeed A),
             obeys (stays_within msgs) m ->
             within msgs (c_self c) -> within msgs (c_self (on_self m c))).
  { intros A m Hm. unfold on_self.
    destruct (Hm (c_self c) (c_trace c)) as [Hs _]. unfold self_of in Hs.
    now destruct (m (c_self c) (c_trace c)) as [[r s] t]. }
  destruct o as [p | w s m a | w s a | | ms | m | s | i fuel]; intros Hop;
    try discriminate Hop; cbn [perform].
  - apply Hmove, get_next_messages_stays_within.
  - apply Hmove. apply get_next_message_obeys;
      [exact (stays_within_refl msgs) | exact (stays_within_trans msgs)
      | apply get_next_messages_stays_within].
  - apply Hkeep, get_num_local_messages_keeps_self.
  - apply Hkeep, append_messages_keeps_self.
  - apply Hkeep. unfold Subfeed_append_message. apply append_messages_keeps_self.
Qed.

Lemma perform_all_fetch_stays_within (msgs : list json) (ops : list op) (c : client) :
  (forall o, In o ops -> is_fetch o = true) ->
  within msgs (c_self c) -> within msgs (c_self (perform_all ops c)).
Proof.
  revert c. induction ops as [| o ops IH]; intros c Hops Hc; simpl; [exact Hc |].
  apply IH.
  - intros o' Ho'. apply Hops. now right.
  - apply perform_fetch_stays_within; [apply Hops; now left | exact Hc].
Qed.

Lemma message_stream_in_step (msgs : list json) (signed : bool) (parent : Subfeed)
    (t : list event) :
  within msgs parent ->
  exists it : custom_iterator,
    Subfeed_message_stream signed parent t = (Ok tt, (it, parent), t)
    /\ in_step msgs it parent.
Proof.
  intros (Hsnap & Hmsgs & Hpos).
  unfold Subfeed_message_stream, _load_messages. run.
  rewrite (snapshot_fetch parent t msgs 5000 signed 0 false Hsnap Hmsgs). simpl.
  eexists. split; [reflexivity |].
  split; [now repeat split |]. split; [simpl; lia |]. simpl.
  apply slice_from. lia.
Qed.

Lemma skipn_succ_tl (A : Type) (n : nat) (l : list A) :
  skipn (S n) l = tl (skipn n l).
Proof.
  revert l. induction n as [| n IH]; intros [| x l]; simpl; try reflexivity.
  apply IH.
Qed.

Lemma next_in_step (msgs : list json) (fuel : nat) (it : custom_iterator)
    (parent : Subfeed) (t : list event) :
  in_step msgs it parent ->
  in_step msgs (fst (state_of (__next__ fuel (it, parent) t)))
    (snd (state_of (__next__ fuel (it, parent) t))).
Proof.
  intros (Hw & Hrel & Hsync). pose proof Hw as (Hsnap & Hmsgs & Hpos).
  unfold __next__, state_of.
  destruct (exhausted it) eqn:Hex.
  - assert (Hend : Z.of_nat (List.length msgs) <= _position parent).
    { unfold exhausted in Hex. apply Z.leb_le in Hex.
      rewrite skipn_all2 in Hsync by lia.
      apply (f_equal (@List.length json)) in Hsync.
      rewrite length_skipn in Hsync. simpl in Hsync. lia. }
    destruct fuel as [| fuel].
    + simpl. rewrite Hex. simpl. now repeat split.
    + rewrite (next_loop_snapshot_end fuel it parent t msgs Hsnap Hmsgs Hend Hex).
      simpl. now repeat split.
  - assert (Hloop : next_loop fuel (it, parent) t = (Done (Ok tt), (it, parent), t))
      by (destruct fuel; simpl; now rewrite Hex).
    rewrite Hloop. simpl.
    unfold exhausted in Hex. apply Z.leb_gt in Hex.
    assert (Hmore : (Z.to_nat (_relative_position it) < List.length (_messages it))%nat)
      by lia.
    assert (Hlen : List.length (skipn (Z.to_nat (_position parent)) msgs) <> O).
    { rewrite <- Hsync, length_skipn. lia. }
    rewrite length_skipn in Hlen.
    split; [| split].
    + split; [exact Hsnap |]. split; [exact Hmsgs |]. simpl. lia.
    + simpl. lia.
    + simpl.
      replace (Z.to_nat (_relative_position it + 1))
        with (S (Z.to_nat (_relative_position it))) by lia.
      replace (Z.to_nat (_position parent + 1))
        with (S (Z.to_nat (_position parent))) by lia.
      rewrite !skipn_succ_tl. now rewrite Hsync.
Qed.

(** One stream over a snapshot, and nothing else moving the cursor: the
    cursor stays within the messages. *)
Lemma single_stream_stays_within (msgs : list json) (fuels : list nat) (c : client)
    (it : custom_iterator) :
  c_iters c = [it] -> in_step msgs it (c_self c) ->
  within msgs (c_self (perform_all (map (next 0) fuels) c)).
Proof.
  revert c it. induction fuels as [| fuel fuels IH]; intros c it Hit Hstep; simpl.
  - now destruct Hstep.
  - pose proof (next_in_step msgs fuel it (c_self c) (c_trace c) Hstep) as Hnext.
    rewrite Hit. simpl. unfold state_of in Hnext.
    destruct (__next__ fuel (it, c_self c) (c_trace c)) as [[r [it' parent]] t].
    simpl in Hnext. apply (IH _ it'); [reflexivity | exact Hnext].
Qed.
(* ------------------------------------------------------------------ *)
(** *** URIs by their scheme *)

Lemma prefix_split (p u : string) :
  String.prefix p u = true -> exists r : string, u = p ++ r.
Proof.
  revert u. induction p as [| c p IH]; intros u H.
  - exists u. reflexivity.
  - destruct u as [| x u]; [discriminate H |]. simpl in H.
    destruct (ascii_dec c x) as [-> | _]; [| discriminate H].
    destruct (IH u H) as [r ->]. now exists r.
Qed.

Lemma first_piece_cons (sep c : ascii) (s : string) :
  Ascii.eqb c sep = false ->
  nth 0 (PyStr.split sep (String c s)) "" = String c (nth 0 (PyStr.split sep s) "").
Proof.
  intros Hc. simpl. rewrite Hc.
  pose proof (split_nonempty sep s) as Hne.
  destruct (PyStr.split sep s); [contradiction | reflexivity].
Qed.

(** The segments of a URI that starts with a scheme and two slashes. *)
Lemma segments_after_scheme (scheme rest : string) :
  PyStr.contains "/" scheme = false ->
  PyStr.contains "?" scheme = false ->
  exists path : string,
    nth 0 (PyStr.split "?" (scheme ++ "//" ++ rest)) "" = scheme ++ "//" ++ path
    /\ uri_segments (scheme ++ "//" ++ rest) = scheme :: "" :: PyStr.split "/" path.
Proof.
  intros Hslash Hq.
  assert (Hgen : forall tail : string,
             nth 0 (PyStr.split "?" (scheme ++ tail)) ""
             = scheme ++ nth 0 (PyStr.split "?" tail) "").
  { clear Hslash. induction scheme as [| c scheme IH]; intros tail; [reflexivity |].
    simpl in Hq. apply orb_false_iff in Hq. destruct Hq as [Hc Hq].
    cbn [append]. rewrite first_piece_cons by exact Hc. now rewrite IH. }
  assert (Hpath : nth 0 (PyStr.split "?" (scheme ++ "//" ++ rest)) ""
                  = scheme ++ "//" ++ nth 0 (PyStr.split "?" rest) "").
  { rewrite Hgen. f_equal. cbn [append].
    now rewrite !first_piece_cons by reflexivity. }
  exists (nth 0 (PyStr.split "?" rest) ""). split; [exact Hpath |].
  unfold uri_segments. rewrite Hpath.
  change (scheme ++ "//" ++ nth 0 (PyStr.split "?" rest) "")
    with (scheme ++ String "/" ("" ++ String "/" (nth 0 (PyStr.split "?" rest) ""))).
  rewrite split_app_sep by exact Hslash.
  now rewrite split_app_sep by reflexivity.
Qed.

(** A URI that starts with [feed://] always parses. *)
Lemma parse_feed_scheme (u : string) :
  PyStr.startswith u "feed://" = true ->
  exists (fid : string) (name : option string), _parse_feed_uri u = Ok (fid, name, 0).
Proof.
  intros H. apply prefix_split in H. destruct H as [r ->].
  destruct (segments_after_scheme "feed:" r eq_refl eq_refl) as (path & Hfirst & Hsegs).
  unfold uri_segments in Hsegs. unfold _parse_feed_uri.
  pose proof (split_length "?" ("feed://" ++ r)) as Hlen.
  apply Nat.leb_le in Hlen. rewrite Hlen. cbn [negb].
  change ("feed://" ++ r) with ("feed:" ++ "//" ++ r). rewrite Hsegs.
  pose proof (split_length "/" path) as Hp.
  cbn [List.length nth skipn].
  replace (3 <=? S (S (List.length (PyStr.split "/" path))))%nat with true
    by (symmetry; apply Nat.leb_le; lia).
  cbn [negb]. change (PyStr.remove_char ":" "feed:") with "feed".
  cbn [String.eqb Ascii.eqb Bool.eqb negb].
  eexists. eexists. reflexivity.
Qed.

(** A URI that starts with [sha1://] never parses as a feed URI. *)
Lemma parse_sha1_scheme (u : string) :
  PyStr.startswith u "sha1://" = true -> _parse_feed_uri u = Raise AssertionError.
Proof.
  intros H. apply prefix_split in H. destruct H as [r ->].
  destruct (segments_after_scheme "sha1:" r eq_refl eq_refl) as (path & Hfirst & Hsegs).
  unfold uri_segments in Hsegs. unfold _parse_feed_uri.
  pose proof (split_length "?" ("sha1://" ++ r)) as Hlen.
  apply Nat.leb_le in Hlen. rewrite Hlen. cbn [negb].
  change ("sha1://" ++ r) with ("sha1:" ++ "//" ++ r). rewrite Hsegs.
  pose proof (split_length "/" path) as Hp.
  cbn [List.length nth].
  replace (3 <=? S (S (List.length (PyStr.split "/" path))))%nat with true
    by (symmetry; apply Nat.leb_le; lia).
  reflexivity.
Qed.

Lemma substring_in_app (p a b : string) :
  Py.substring_in p b = true -> Py.substring_in p (a ++ b) = true.
Proof.
  intros H. induction a as [| c a IH]; [exact H |].
  cbn [append]. simpl. rewrite IH. apply orb_true_r.
Qed.

Lemma substring_in_prefix (p s : string) : Py.substring_in p (p ++ s) = true.
Proof.
  pose proof (prefix_app p s) as H.
  destruct (p ++ s); cbn [Py.substring_in]; now rewrite H.
Qed.

(** [Feed.__init__], branch by branch. *)
Lemma Feed_init_cases (S : Type) (uri : string) (s : S) (t : list event) :
  (PyStr.startswith (feed_uri_of uri) "feed://" = true
   /\ exists fid : string,
        _parse_feed_uri (feed_uri_of uri) = Ok (fid, None, 0)
        /\ Feed__init__ uri s t
           = Feed_initialize (mkFeed (feed_uri_of uri) (Some fid) JNull false None) s t)
  \/ (PyStr.startswith (feed_uri_of uri) "feed://" = true
      /\ (exists (fid name : string),
             _parse_feed_uri (feed_uri_of uri) = Ok (fid, Some name, 0))
      /\ Feed__init__ uri s t
         = (Raise (Exception "Cannot specify subfeed name in URI when loading feed"),
            s, t))
  \/ (PyStr.startswith (feed_uri_of uri) "feed://" = false
      /\ PyStr.startswith (feed_uri_of uri) "sha1://" = true
      /\ Feed__init__ uri s t
         = match _load_json t (feed_uri_of uri) with
           | Reply JNull => (Raise AssertionError, s, (t ++ [Load (feed_uri_of uri)])%list)
           | Reply obj =>
             (Ok (mkFeed (feed_uri_of uri) None (JBool false) true (Some obj)), s,
              (t ++ [Load (feed_uri_of uri)])%list)
           | Failure msg =>
             (Raise (TransportError msg), s, (t ++ [Load (feed_uri_of uri)])%list)
           end)
  \/ (PyStr.startswith (feed_uri_of uri) "feed://" = false
      /\ PyStr.startswith (feed_uri_of uri) "sha1://" = false
      /\ Feed__init__ uri s t = (Raise (Exception "Unexpected feed uri"), s, t)).
Proof.
  unfold Feed__init__. fold (feed_uri_of uri).
  destruct (PyStr.startswith (feed_uri_of uri) "feed://") eqn:Hfeed.
  - destruct (parse_feed_scheme _ Hfeed) as (fid & [name |] & Hparse).
    + right. left. split; [reflexivity |]. split; [now exists fid, name |].
      run. now rewrite Hparse.
    + left. split; [reflexivity |]. exists fid. split; [exact Hparse |].
      run. now rewrite Hparse.
  - destruct (PyStr.startswith (feed_uri_of uri) "sha1://") eqn:Hsha.
    + right. right. left. split; [reflexivity |]. split; [reflexivity |].
      unfold load_json. run.
      destruct (_load_json t (feed_uri_of uri)) as [obj | msg]; simpl; [| reflexivity].
      destruct obj; reflexivity.
    + right. right. right. auto.
Qed.

(** [Feed._initialize]: one request, then the answer decides. *)
Lemma Feed_initialize_effect (S : Type) (self : Feed) (s : S) (t : list event)
    (dh : string * json) :
  _daemon_url = Reply dh ->
  let request := Post (fst dh ++ "/feed/getFeedInfo")
                   (JDict [("feedId", json_of_opt (_feed_id self))]) (snd dh) in
  let answer := _http_post_json t (fst dh ++ "/feed/getFeedInfo")
                  (JDict [("feedId", json_of_opt (_feed_id self))]) (snd dh) in
  let o := Feed_initialize self s t in
  self_of o = s
  /\ trace_of o = (t ++ [request])%list
  /\ (forall feed : Feed,
        result_of o = Ok feed ->
        exists x ok : json,
          answer = Reply x
          /\ Py.getitem x "success" = Ok ok /\ Py.truthy ok = true
          /\ Py.getitem x "isWriteable" = Ok (_is_writeable feed)
          /\ feed = mkFeed (_feed_uri self) (_feed_id self) (_is_writeable feed)
                      (_is_snapshot self) (_snapshot_object self))
  /\ (forall x ok : json,
        answer = Reply x ->
        Py.getitem x "success" = Ok ok -> Py.truthy ok = false ->
        result_of o = Raise AssertionError \/ result_of o = Raise KeyError).
Proof.
  intros Hdh. cbv zeta.
  unfold Feed_initialize, daemon_url, http_post_json, self_of, trace_of, result_of.
  run. rewrite Hdh. simpl.
  destruct (_http_post_json t (fst dh ++ "/feed/getFeedInfo")
              (JDict [("feedId", json_of_opt (_feed_id self))]) (snd dh))
    as [x | msg]; simpl;
    [| split; [reflexivity |]; split; [reflexivity |]; split; intros; congruence].
  destruct (Py.getitem x "success") as [ok | e] eqn:Hok; simpl;
    [| split; [reflexivity |]; split; [reflexivity |]; split; intros; congruence].
  destruct (Py.truthy ok) eqn:Htruthy; simpl.
  - destruct (Py.getitem x "isWriteable") as [w | e] eqn:Hw; simpl.
    + split; [reflexivity |]. split; [reflexivity |]. split.
      * intros feed Hfeed. injection Hfeed as <-. exists x, ok. simpl. auto.
      * intros x' ok' Hx' Hok'. injection Hx' as <-. congruence.
    + split; [reflexivity |]. split; [reflexivity |]. split; [intros; congruence |].
      intros x' ok' Hx' Hok'. injection Hx' as <-. congruence.
  - assert (Herr : exists d, x = JDict d).
    { destruct x; simpl in Hok; try discriminate Hok. eauto. }
    destruct Herr as [d ->]. unfold Py.getitem.
    destruct (Py.assoc "error" d); simpl;
      (split; [reflexivity |]; split; [reflexivity |]; split; [intros; congruence |]);
      intros; auto.
Qed.
(* ------------------------------------------------------------------ *)
(** *** Hashes and safe texts *)

Lemma append_nil_r (s : string) : s ++ "" = s.
Proof.
  induction s as [| c s IH]; simpl; [reflexivity | now rewrite IH].
Qed.

Lemma all_chars_app (p : ascii -> bool) (a b : string) :
  all_chars p (a ++ b) = all_chars p a && all_chars p b.
Proof.
  induction a as [| c a IH]; simpl; [reflexivity |].
  now rewrite IH, andb_assoc.
Qed.

Lemma hexdigit_lower_hex (n : N) :
  (n < 16)%N -> is_lower_hex (Sha1.hexdigit n) = true.
Proof.
  intros Hn.
  assert (Hcases : In n [0; 1; 2; 3; 4; 5; 6; 7; 8; 9; 10; 11; 12; 13; 14; 15]%N).
  { simpl. lia. }
  simpl in Hcases.
  repeat (destruct Hcases as [<- | Hcases]; [reflexivity |]).
  contradiction.
Qed.

Lemma hex_shape (n : nat) (x : N) :
  String.length (Sha1.hex n x) = n /\ all_chars is_lower_hex (Sha1.hex n x) = true.
Proof.
  revert x. induction n as [| n IH]; intros x; simpl; [auto |].
  destruct (IH (x / 16)%N) as [Hlen Hall].
  rewrite string_length_append, all_chars_app, Hlen, Hall. simpl.
  split; [lia |].
  rewrite hexdigit_lower_hex; [reflexivity |].
  apply N.mod_lt. discriminate.
Qed.

(** A SHA-1 hex digest is forty lower-case hex digits. *)
Lemma hexdigest_shape (s : string) :
  String.length (Sha1.hexdigest s) = 40%nat
  /\ all_chars is_lower_hex (Sha1.hexdigest s) = true.
Proof.
  unfold Sha1.hexdigest.
  destruct (Sha1.blocks _ Sha1.init _) as [[[[h0 h1] h2] h3] h4].
  rewrite !string_length_append, !all_chars_app.
  destruct (hex_shape 8 h0) as [-> ->], (hex_shape 8 h1) as [-> ->],
    (hex_shape 8 h2) as [-> ->], (hex_shape 8 h3) as [-> ->],
    (hex_shape 8 h4) as [-> ->].
  split; reflexivity.
Qed.

Lemma lower_hex_safe (c : ascii) :
  is_lower_hex c = true -> Urllib.always_safe c = true.
Proof. each_byte c; vm_compute; auto. Qed.

Lemma all_chars_weaken (p q : ascii -> bool) (s : string) :
  (forall c, p c = true -> q c = true) -> all_chars p s = true -> all_chars q s = true.
Proof.
  intros Hpq. induction s as [| c s IH]; simpl; [auto |].
  intros H. apply andb_true_iff in H. destruct H as [Hc Hs].
  now rewrite (Hpq c Hc), (IH Hs).
Qed.

Lemma safe_char (c : ascii) :
  Urllib.always_safe c = true ->
  Urllib.quoter c = String c ""
  /\ Ascii.eqb c "/" = false /\ Ascii.eqb c "?" = false /\ Ascii.eqb c "%" = false.
Proof. each_byte c; vm_compute; auto; discriminate. Qed.

(** A text of safe characters is its own quoted form and holds no slash,
    question mark or percent sign. *)
Lemma quote_safe (s : string) :
  all_chars Urllib.always_safe s = true ->
  Urllib.quote s = s
  /\ PyStr.contains "/" s = false /\ PyStr.contains "?" s = false
  /\ PyStr.contains "%" s = false.
Proof.
  induction s as [| c s IH]; simpl; [auto |].
  intros H. apply andb_true_iff in H. destruct H as [Hc Hs].
  destruct (IH Hs) as (Hq & H1 & H2 & H3).
  destruct (safe_char c Hc) as (-> & -> & -> & ->).
  simpl. now rewrite Hq, H1, H2, H3.
Qed.

Lemma startswith_app (a b p : string) :
  PyStr.startswith a p = true -> PyStr.startswith (a ++ b) p = true.
Proof.
  unfold PyStr.startswith. intros H. apply prefix_split in H.
  destruct H as [r ->]. rewrite append_assoc. apply prefix_app.
Qed.

(** The name string of a structured name: a tilde and the hash, safe
    characters all. *)
Lemma structured_name_str (feed : Feed) (name : json) (position : Z) (channel : string) :
  is_str name = false ->
  _subfeed_name_str (Feed_load_subfeed feed name position channel)
  = "~" ++ Sha1.hexdigest (Json.dumps name)
  /\ _subfeed_hash name = Sha1.hexdigest (Json.dumps name)
  /\ all_chars Urllib.always_safe ("~" ++ Sha1.hexdigest (Json.dumps name)) = true.
Proof.
  intros Hs.
  assert (Hsafe : all_chars Urllib.always_safe ("~" ++ Sha1.hexdigest (Json.dumps name))
                  = true).
  { cbn [append all_chars].
    destruct (hexdigest_shape (Json.dumps name)) as [_ Hhex].
    rewrite (all_chars_weaken _ _ _ lower_hex_safe Hhex). reflexivity. }
  destruct name; try discriminate Hs; repeat split; try reflexivity; exact Hsafe.
Qed.

(** The name string of a subfeed, quoted, and what it decodes to. *)
Lemma name_str_quoted (feed : Feed) (name : json) (position : Z) (channel : string) :
  addressable name ->
  PyStr.contains "?"
    (Urllib.quote (_subfeed_name_str (Feed_load_subfeed feed name position channel)))
  = false
  /\ PyStr.truthy
       (Urllib.quote (_subfeed_name_str (Feed_load_subfeed feed name position channel)))
     = true
  /\ Urllib.unquote
       (Urllib.quote (_subfeed_name_str (Feed_load_subfeed feed name position channel)))
     = _subfeed_name_str (Feed_load_subfeed feed name position channel).
Proof.
  intros Hname. split; [apply quote_no_query |].
  destruct (is_str name) eqn:Hstr.
  - destruct name as [| b | z | s | l | d]; try discriminate Hstr.
    destruct Hname as [Hne Hvalid].
    unfold Feed_load_subfeed, Subfeed__init__. cbn [_subfeed_name_str].
    split; [apply truthy_nonempty; now apply quote_nonempty | now apply unquote_quote].
  - destruct (structured_name_str feed name position channel Hstr) as (-> & _ & Hsafe).
    destruct (quote_safe _ Hsafe) as (-> & _ & _ & Hpercent).
    split; [reflexivity |].
    unfold Urllib.unquote. now rewrite Hpercent.
Qed.

(** [Feed.__init__] on [feed://] followed by a feed id. *)
Lemma Feed_init_of_id (S : Type) (fid : string) (s : S) (t : list event) :
  PyStr.contains "/" fid = false -> PyStr.contains "?" fid = false ->
  Feed__init__ ("feed://" ++ fid) s t
  = Feed_initialize (mkFeed ("feed://" ++ fid) (Some fid) JNull false None) s t.
Proof.
  intros Hslash Hq.
  assert (Huri : feed_uri_of ("feed://" ++ fid) = "feed://" ++ fid).
  { unfold feed_uri_of.
    assert (Hin : Py.substring_in "://" ("feed://" ++ fid) = true).
    { change ("feed://" ++ fid) with ("feed" ++ "://" ++ fid).
      apply substring_in_app, substring_in_prefix. }
    now rewrite Hin. }
  pose proof (parse_feed_uri_without_name fid None Hslash Hq) as Hparse.
  cbn [query_suffix] in Hparse.
  rewrite append_nil_r in Hparse.
  destruct (Feed_init_cases S ("feed://" ++ fid) s t)
    as [(_ & fid' & Hparse' & Heq) | [(_ & (f & n & Hparse') & _)
                                     | [(Hfeed' & _) | (Hfeed' & _)]]];
    rewrite Huri in *.
  - assert (fid' = fid) by congruence. now subst fid'.
  - congruence.
  - unfold PyStr.startswith in Hfeed'. now rewrite prefix_app in Hfeed'.
  - unfold PyStr.startswith in Hfeed'. now rewrite prefix_app in Hfeed'.
Qed.

(** The URI of a subfeed of a live feed parses back to the feed id and
    the name string. *)
Lemma subfeed_uri_parses_back (feed : Feed) (fid : string) (name : json)
    (position : Z) (channel : string) :
  PyStr.contains "/" fid = false -> PyStr.contains "?" fid = false ->
  _feed_uri feed = "feed://" ++ fid ->
  addressable name ->
  Subfeed_uri (Feed_load_subfeed feed name position channel)
  = Ok ("feed://" ++ fid ++ "/"
        ++ Urllib.quote (_subfeed_name_str (Feed_load_subfeed feed name position channel)))
  /\ _parse_feed_uri
       ("feed://" ++ fid ++ "/"
        ++ Urllib.quote (_subfeed_name_str (Feed_load_subfeed feed name position channel)))
     = Ok (fid, Some (_subfeed_name_str (Feed_load_subfeed feed name position channel)), 0).
Proof.
  intros Hslash Hq Huri Hname.
  destruct (name_str_quoted feed name position channel Hname) as (Hnq & Htruthy & Hback).
  split.
  - unfold Subfeed_uri.
    replace (sf_feed_uri (Feed_load_subfeed feed name position channel))
      with ("feed://" ++ fid) by (symmetry; exact Huri).
    unfold PyStr.startswith. rewrite prefix_app. reflexivity.
  - pose proof (parse_feed_uri_with_name fid _ None Hslash Hq Hnq) as Hparse.
    cbn [query_suffix] in Hparse.
    rewrite append_nil_r in Hparse.
    now rewrite Hparse, Htruthy, Hback.
Qed.

(** The name string of a subfeed has the hash of the subfeed. *)
Lemma name_str_hash (feed : Feed) (name : json) (position : Z) (channel : string) :
  _subfeed_hash (JStr (_subfeed_name_str (Feed_load_subfeed feed name position channel)))
  = sf_subfeed_hash (Feed_load_subfeed feed name position channel).
Proof.
  destruct (is_str name) eqn:Hstr.
  - destruct name; try discriminate Hstr. reflexivity.
  - destruct (structured_name_str feed name position channel Hstr) as (-> & Hhash & _).
    unfold Feed_load_subfeed, Subfeed__init__. cbn [sf_subfeed_hash].
    rewrite Hhash. unfold _subfeed_hash, PyStr.startswith.
    now rewrite (prefix_app "~" (Sha1.hexdigest (Json.dumps name))).
Qed.

(** What [Feed.__init__] returns on [feed://] followed by a feed id. *)
Lemma Feed_init_of_id_fields (S : Type) (fid : string) (s s' : S) (t t' : list event)
    (feed : Feed) :
  PyStr.contains "/" fid = false -> PyStr.contains "?" fid = false ->
  Feed__init__ ("feed://" ++ fid) s t = (Ok feed, s', t') ->
  _feed_uri feed = "feed://" ++ fid /\ _feed_id feed = Some fid
  /\ _is_snapshot feed = false /\ _snapshot_object feed = None.
Proof.
  intros Hslash Hq H. rewrite (Feed_init_of_id S fid s t Hslash Hq) in H.
  apply Feed_initialize_fields in H. exact H.
Qed.

(** What [_load_feed] returns on a [feed://] URI. *)
Lemma load_feed_uri_outcome (S : Type) (feed_uri : string) (s : S) (t : list event)
    (feed : Feed) :
  result_of (_load_feed_uri feed_uri s t) = Ok feed ->
  exists fid : string,
    _feed_id feed = Some fid /\ _feed_uri feed = "feed://" ++ fid
    /\ PyStr.contains "/" fid = false /\ PyStr.contains "?" fid = false
    /\ _is_snapshot feed = false.
Proof.
  unfold _load_feed_uri, result_of. run.
  destruct (_parse_feed_uri feed_uri) as [[[fid [name |]] pos] | e] eqn:Hparse;
    simpl; try discriminate.
  destruct (parse_feed_uri_id _ _ _ _ Hparse) as [Hslash Hq].
  change (String "f" (String "e" (String "e" (String "d"
            (String ":" (String "/" (String "/" fid)))))))
    with ("feed://" ++ fid).
  destruct (Feed__init__ ("feed://" ++ fid) s t) as [[[f | e] s'] t'] eqn:Hinit;
    cbn [fst]; [| discriminate].
  intros H. injection H as <-.
  destruct (Feed_init_of_id_fields S fid s s' t t' f Hslash Hq Hinit)
    as (Huri & Hid & Hsnap & _).
  exists fid. auto.
Qed.
(* ------------------------------------------------------------------ *)
(** *** Requests of a live subfeed *)

(** The entry [watch2] builds from the watch of [get_next_messages]. *)
Lemma watches2_of_get_next_messages (channel : string) (feed_id subfeed_hash position : json) :
  watches2 channel
    [("watch", JDict [("feedId", feed_id); ("subfeedHash", subfeed_hash);
                      ("position", position)])]
  = Ok [("watch", JDict [("feedId", feed_id); ("subfeedHash", subfeed_hash);
                         ("channelName", JStr channel); ("position", position)])].
Proof. reflexivity. Qed.

(** A lookup in a dict that has grown at the front by another key. *)
Lemma assoc_cons_other (k k' : string) (v : json) (d : list (string * json)) :
  String.eqb k' k = false -> Py.assoc k ((k', v) :: d) = Py.assoc k d.
Proof. intros H. cbn [Py.assoc]. now rewrite H. Qed.

(** The keys [watches2] gives are the keys it was given, and each entry
    has the four fields of a watch. *)
Lemma watches2_entries (channel : string) (ws ws' : list (string * json)) :
  watches2 channel ws = Ok ws' ->
  map fst ws' = map fst ws
  /\ Forall (fun kw => exists feed_id subfeed_hash position : json,
                         snd kw = JDict [("feedId", feed_id);
                                         ("subfeedHash", subfeed_hash);
                                         ("channelName", JStr channel);
                                         ("position", position)]) ws'.
Proof.
  revert ws'. induction ws as [| [key watch] rest IH]; intros ws' H.
  - injection H as <-. split; [reflexivity | constructor].
  - cbn [watches2] in H.
    destruct (watch2 channel watch) as [w | e] eqn:Hw; [| discriminate H].
    destruct (watches2 channel rest) as [ws0 | e]; [| discriminate H].
    injection H as <-. destruct (IH ws0 eq_refl) as [Hk Hf].
    split; [cbn; now rewrite Hk |]. constructor; [| exact Hf].
    cbn [snd]. unfold watch2 in Hw.
    destruct (Py.getitem watch "feedId") as [f | e]; [| discriminate Hw].
    destruct (Py.contains "subfeedHash" watch) as [b | e]; [| discriminate Hw].
    destruct (if b then Py.get watch "subfeedHash" JNull
              else match Py.getitem watch "subfeedName" with
                   | Ok name => Ok (JStr (_subfeed_hash name))
                   | Raise e => Raise e
                   end) as [h | e]; [| discriminate Hw].
    destruct (Py.getitem watch "position") as [p | e]; [| discriminate Hw].
    injection Hw as <-. now exists f, h, p.
Qed.

(** The first message of a slice of one. *)
Lemma firstn_1_skipn (A : Type) (n : nat) (l : list A) :
  firstn 1 (skipn n l) = match nth_error l n with Some a => [a] | None => [] end.
Proof.
  rewrite <- hd_error_skipn. now destruct (skipn n l).
Qed.

(** [_load_feed] on a [feed://] URI: at most the one request of the
    constructor, and that one when a feed is returned. *)
Lemma load_feed_uri_effect (S : Type) (rest : string) (s : S) (t : list event)
    (dh : string * json) :
  _daemon_url = Reply dh ->
  let o := _load_feed ("feed://" ++ rest) s t in
  self_of o = s
  /\ (trace_of o = t
      \/ exists fid : string,
           trace_of o = (t ++ [Post (fst dh ++ "/feed/getFeedInfo")
                                 (JDict [("feedId", JStr fid)]) (snd dh)])%list)
  /\ (forall feed : Feed,
        result_of o = Ok feed ->
        exists fid : string,
          _feed_id feed = Some fid /\ _feed_uri feed = "feed://" ++ fid
          /\ _is_snapshot feed = false
          /\ trace_of o = (t ++ [Post (fst dh ++ "/feed/getFeedInfo")
                                   (JDict [("feedId", JStr fid)]) (snd dh)])%list)
  /\ (PyStr.contains "/" rest = false -> PyStr.contains "?" rest = false ->
      o = Feed_initialize (mkFeed ("feed://" ++ rest) (Some rest) JNull false None) s t).
Proof.
  intros Hd o. subst o.
  assert (Hpre : PyStr.startswith ("feed://" ++ rest) "feed://" = true)
    by (unfold PyStr.startswith; apply prefix_app).
  unfold _load_feed. rewrite Hpre. unfold _load_feed_uri, bind, lift, raise.
  split; [| split; [| split]].
  - destruct (_parse_feed_uri ("feed://" ++ rest)) as [[[fid [name |]] pos] | e] eqn:Hp;
      try reflexivity.
    destruct (parse_feed_uri_id _ _ _ _ Hp) as [Hslash Hq].
    rewrite (Feed_init_of_id S fid s t Hslash Hq).
    destruct (Feed_initialize_effect S
                (mkFeed ("feed://" ++ fid) (Some fid) JNull false None) s t dh Hd)
      as (Hself & _).
    exact Hself.
  - destruct (_parse_feed_uri ("feed://" ++ rest)) as [[[fid [name |]] pos] | e] eqn:Hp;
      try (left; reflexivity).
    destruct (parse_feed_uri_id _ _ _ _ Hp) as [Hslash Hq].
    rewrite (Feed_init_of_id S fid s t Hslash Hq).
    right. exists fid.
    destruct (Feed_initialize_effect S
                (mkFeed ("feed://" ++ fid) (Some fid) JNull false None) s t dh Hd)
      as (_ & Htrace & _).
    exact Htrace.
  - intros feed.
    destruct (_parse_feed_uri ("feed://" ++ rest)) as [[[fid [name |]] pos] | e] eqn:Hp;
      try discriminate.
    destruct (parse_feed_uri_id _ _ _ _ Hp) as [Hslash Hq].
    rewrite (Feed_init_of_id S fid s t Hslash Hq). intros Hok.
    destruct (Feed_initialize_effect S
                (mkFeed ("feed://" ++ fid) (Some fid) JNull false None) s t dh Hd)
      as (_ & Htrace & Hfeed & _).
    destruct (Hfeed feed Hok) as (x & ok & _ & _ & _ & _ & ->).
    exists fid. repeat split. exact Htrace.
  - intros Hslash Hq.
    assert (Hp : _parse_feed_uri ("feed://" ++ rest) = Ok (rest, None, 0)).
    { pose proof (parse_feed_uri_without_name rest None Hslash Hq) as H.
      cbn [query_suffix] in H. now rewrite append_nil_r in H. }
    rewrite Hp. apply Feed_init_of_id; assumption.
Qed.
(* ------------------------------------------------------------------ *)
(** *** A snapshot subfeed at work *)

Lemma set_position_offline (position : Z) : offline (Subfeed_set_position position).
Proof. intros self t _ _. split; [reflexivity |]. now exists position. Qed.

Lemma get_next_messages_offline (wait_msec : Z) (signed : bool)
    (max_num_messages : Z) (advance_position : bool) :
  offline (Subfeed_get_next_messages wait_msec signed max_num_messages advance_position).
Proof.
  intros self t Hs _. unfold Subfeed_get_next_messages, trace_of, self_of. run.
  rewrite Hs. cbn.
  destruct (if 0 <? max_num_messages
            then Py.getslice (Subfeed_get_snapshot_messages self) (_position self)
                   (Some (_position self + max_num_messages))
            else Py.getslice (Subfeed_get_snapshot_messages self) (_position self) None)
    as [r | e]; cbn.
  - destruct advance_position; cbn.
    + destruct (Py.len r) as [n | e]; cbn.
      * split; [reflexivity |]. now exists (_position self + n).
      * split; [reflexivity |]. exists (_position self). now rewrite with_position_same.
    + split; [reflexivity |]. exists (_position self). now rewrite with_position_same.
  - split; [reflexivity |]. exists (_position self). now rewrite with_position_same.
Qed.

Lemma get_next_message_offline (wait_msec : Z) (signed advance_position : bool) :
  offline (Subfeed_get_next_message wait_msec signed advance_position).
Proof.
  intros self t Hs Hw.
  destruct (get_next_messages_offline wait_msec signed 1 advance_position self t Hs Hw)
    as [Ht Hp].
  unfold Subfeed_get_next_message, bind, trace_of, self_of in *.
  destruct (Subfeed_get_next_messages wait_msec signed 1 advance_position self t)
    as [[[y | e] s'] t']; cbn [fst snd] in *; [| now split].
  destruct y as [| b | z | str | l | d]; run;
    try (destruct (Z.of_nat _ =? 0)); run;
    try (destruct (Py.index _ 0)); now split.
Qed.

Lemma get_num_local_messages_offline : offline Subfeed_get_num_local_messages.
Proof.
  intros self t Hs _. unfold Subfeed_get_num_local_messages, trace_of, self_of. run.
  rewrite Hs. cbn.
  destruct (Py.len (Subfeed_get_snapshot_messages self)); cbn;
    (split; [reflexivity |]); exists (_position self); now rewrite with_position_same.
Qed.

Lemma append_messages_offline (messages : json) :
  offline (Subfeed_append_messages messages).
Proof.
  intros self t _ Hw. unfold Subfeed_append_messages, trace_of, self_of. run.
  rewrite Hw. cbn. split; [reflexivity |].
  exists (_position self). now rewrite with_position_same.
Qed.

(** [_load_messages] on a snapshot: no call, the parent as it was. *)
Lemma load_messages_offline (s : custom_iterator * Subfeed) (t : list event) :
  Subfeed_is_snapshot (snd s) = true ->
  trace_of (_load_messages s t) = t /\ snd (self_of (_load_messages s t)) = snd s.
Proof.
  intros Hs. destruct s as [it parent]. cbn [snd] in *.
  unfold _load_messages, Subfeed_get_next_messages, trace_of, self_of. run.
  rewrite Hs. cbn.
  destruct (Py.getslice (Subfeed_get_snapshot_messages parent) (_position parent) None)
    as [r | e]; cbn; [| now split].
  destruct r as [| b | z | str | l | d]; cbn; now split.
Qed.

(** The loop of [__next__] on a snapshot: no call, no sleep. *)
Lemma next_loop_offline (fuel : nat) (s : custom_iterator * Subfeed) (t : list event) :
  Subfeed_is_snapshot (snd s) = true ->
  snd (next_loop fuel s t) = t.
Proof.
  revert s t. induction fuel as [| fuel IH]; intros s t Hs; cbn [next_loop].
  - now destruct (exhausted (fst s)).
  - destruct (exhausted (fst s)); [| reflexivity].
    destruct (load_messages_offline s t Hs) as [Ht Hp].
    unfold trace_of, self_of in Ht, Hp.
    destruct (_load_messages s t) as [[[u | e] s'] t']; cbn [fst snd] in *;
      [| exact Ht].
    subst t'. assert (Hs' : Subfeed_is_snapshot (snd s') = true) by now rewrite Hp.
    destruct (exhausted (fst s')).
    + now rewrite Hs'.
    + now apply IH.
Qed.

Lemma next_offline (fuel : nat) (it : custom_iterator) (parent : Subfeed)
    (t : list event) :
  Subfeed_is_snapshot parent = true ->
  snd (__next__ fuel (it, parent) t) = t
  /\ exists p : Z, snd (state_of (__next__ fuel (it, parent) t)) = with_position parent p.
Proof.
  intros Hs. split.
  - pose proof (next_loop_offline fuel (it, parent) t Hs) as H.
    unfold __next__.
    destruct (next_loop fuel (it, parent) t) as [[[[u | e] |] [it' parent']] t'];
      exact H.
  - destruct (next_parent fuel it parent t) as [-> | ->].
    + exists (_position parent). now rewrite with_position_same.
    + now exists (_position parent + 1).
Qed.

(** One operation of a client whose subfeed is a read-only snapshot. *)
Lemma perform_offline (o : op) (c : client) :
  Subfeed_is_snapshot (c_self c) = true ->
  Py.truthy (Subfeed_is_writeable (c_self c)) = false ->
  c_trace (perform o c) = c_trace c
  /\ exists p : Z, c_self (perform o c) = with_position (c_self c) p.
Proof.
  intros Hs Hw.
  assert (Hon : forall (A : Type) (m : M Subfeed A),
             offline m ->
             c_trace (on_self m c) = c_trace c
             /\ exists p : Z, c_self (on_self m c) = with_position (c_self c) p).
  { intros A m Hm. destruct (Hm (c_self c) (c_trace c) Hs Hw) as [Ht Hp].
    unfold on_self, trace_of, self_of in *.
    destruct (m (c_self c) (c_trace c)) as [[r s] t]. now split. }
  destruct o as [position | w sg mx adv | w sg adv | | messages | message | sg | i fuel];
    cbn [perform].
  - apply Hon, set_position_offline.
  - apply Hon, get_next_messages_offline.
  - apply Hon, get_next_message_offline.
  - apply Hon, get_num_local_messages_offline.
  - apply Hon, append_messages_offline.
  - apply Hon. unfold Subfeed_append_message. apply append_messages_offline.
  - destruct (load_messages_offline (mkIter sg [] 0, c_self c) (c_trace c) Hs)
      as [Ht Hp].
    unfold Subfeed_message_stream, trace_of, self_of in *.
    destruct (_load_messages (mkIter sg [] 0, c_self c) (c_trace c))
      as [[[u | e] [it s]] t]; cbn [fst snd c_trace c_self] in *;
      (split; [exact Ht |]); exists (_position (c_self c));
      now rewrite Hp, with_position_same.
  - destruct (nth_error (c_iters c) i) as [it |].
    + destruct (next_offline fuel it (c_self c) (c_trace c) Hs) as [Ht Hp].
      unfold state_of in Hp.
      destruct (__next__ fuel (it, c_self c) (c_trace c)) as [[r [it' s]] t].
      now split.
    + split; [reflexivity |]. exists (_position (c_self c)).
      now rewrite with_position_same.
Qed.

Lemma perform_all_offline (ops : list op) (c : client) :
  Subfeed_is_snapshot (c_self c) = true ->
  Py.truthy (Subfeed_is_writeable (c_self c)) = false ->
  c_trace (perform_all ops c) = c_trace c
  /\ exists p : Z, c_self (perform_all ops c) = with_position (c_self c) p.
Proof.
  revert c. induction ops as [| o ops IH]; intros c Hs Hw; cbn [perform_all].
  - split; [reflexivity |]. exists (_position (c_self c)).
    now rewrite with_position_same.
  - destruct (perform_offline o c Hs Hw) as [Ht [p Hp]].
    destruct (IH (perform o c)) as [Ht' [q Hq]].
    + now rewrite Hp.
    + now rewrite Hp.
    + split; [now rewrite Ht' |]. exists q. now rewrite Hq, Hp.
Qed.

(** A call of [__next__] with a message in the buffer. *)
Lemma next_yields (fuel : nat) (it : custom_iterator) (parent : Subfeed)
    (t : list event) (m : json) :
  0 <= _relative_position it ->
  nth_error (_messages it) (Z.to_nat (_relative_position it)) = Some m ->
  __next__ fuel (it, parent) t
  = (Done (Ok m),
     (mkIter (signed_of it) (_messages it) (_relative_position it + 1),
      with_position parent (_position parent + 1)),
     t).
Proof.
  intros Hrel Hnth.
  assert (Hlen : (Z.to_nat (_relative_position it) < List.length (_messages it))%nat).
  { apply nth_error_Some. now rewrite Hnth. }
  assert (Hex : exhausted it = false).
  { unfold exhausted. apply Z.leb_gt. lia. }
  unfold __next__.
  assert (Hloop : next_loop fuel (it, parent) t = (Done (Ok tt), (it, parent), t)).
  { destruct fuel; cbn [next_loop fst]; now rewrite Hex. }
  rewrite Hloop. cbn [_messages _relative_position signed_of].
  replace (_relative_position it + 1 - 1) with (_relative_position it) by lia.
  unfold Py.index.
  assert (H1 : (_relative_position it <? 0) = false) by (apply Z.ltb_ge; lia).
  assert (H2 : (Z.of_nat (List.length (_messages it)) <=? _relative_position it) = false)
    by (apply Z.leb_gt; lia).
  rewrite H1. cbn [orb]. rewrite H1, H2. cbn [orb]. now rewrite Hnth.
Qed.

(** The loop over an iterator in step with its snapshot parent. *)
Lemma for_each_in_step (msgs : list json) (calls fuel : nat) (it : custom_iterator)
    (parent : Subfeed) (t : list event) :
  in_step msgs it parent ->
  (List.length (skipn (Z.to_nat (_position parent)) msgs) < calls)%nat ->
  exists it' : custom_iterator,
    for_each calls (S fuel) (it, parent) t
    = (skipn (Z.to_nat (_position parent)) msgs,
       Some (Done (Raise StopIteration)),
       (it', with_position parent (Z.of_nat (List.length msgs))),
       t).
Proof.
  revert it parent. induction calls as [| calls IH]; intros it parent Hstep Hcalls;
    [lia |].
  pose proof Hstep as ((Hs & Hm & Hp) & Hrel & Heq).
  cbn [for_each].
  destruct (nth_error (_messages it) (Z.to_nat (_relative_position it))) as [m |] eqn:Hnth.
  - rewrite (next_yields (S fuel) it parent t m Hrel Hnth).
    pose proof (next_in_step msgs (S fuel) it parent t Hstep) as Hstep'.
    rewrite (next_yields (S fuel) it parent t m Hrel Hnth) in Hstep'.
    cbn [state_of fst snd] in Hstep'.
    assert (Hsk : skipn (Z.to_nat (_position parent)) msgs
                  = m :: skipn (Z.to_nat (_position parent + 1)) msgs).
    { replace (Z.to_nat (_position parent + 1))
        with (S (Z.to_nat (_position parent))) by lia.
      rewrite skipn_succ_tl, <- Heq.
      rewrite <- hd_error_skipn in Hnth.
      now destruct (skipn (Z.to_nat (_relative_position it)) (_messages it));
        [discriminate Hnth | injection Hnth as ->]. }
    destruct (IH _ _ Hstep') as [it' Hit'].
    + cbn [_position with_position]. rewrite Hsk in Hcalls. cbn [List.length] in Hcalls.
      lia.
    + rewrite Hit'. cbn [_position with_position]. rewrite Hsk. now exists it'.
  - assert (Hnil : skipn (Z.to_nat (_position parent)) msgs = []).
    { rewrite <- Heq. apply skipn_all2. now apply nth_error_None. }
    assert (Hend : Z.of_nat (List.length msgs) <= _position parent).
    { apply (f_equal (@List.length json)) in Hnil. rewrite length_skipn in Hnil.
      cbn in Hnil. lia. }
    assert (Hex : exhausted it = true).
    { unfold exhausted. apply Z.leb_le. apply nth_error_None in Hnth. lia. }
    unfold __next__.
    rewrite (next_loop_snapshot_end fuel it parent t msgs Hs Hm Hend Hex).
    rewrite Hnil. exists it.
    replace (Z.of_nat (List.length msgs)) with (_position parent) by lia.
    now rewrite with_position_same.
Qed.
(* ------------------------------------------------------------------ *)
(** *** The URI of a live feed and the URIs of its subfeeds *)

(** A text that holds [c], cut at the first [c]. *)
Lemma contains_cut (c : ascii) (s : string) :
  PyStr.contains c s = true ->
  exists a b : string, s = a ++ String c b /\ PyStr.contains c a = false.
Proof.
  induction s as [| x s IH]; cbn [PyStr.contains]; [discriminate |].
  destruct (Ascii.eqb x c) eqn:Hx; cbn [orb].
  - intros _. apply Ascii.eqb_eq in Hx. subst x. now exists "", s.
  - intros H. destruct (IH H) as (a & b & -> & Ha).
    exists (String x a), b. split; [reflexivity |].
    cbn [PyStr.contains]. now rewrite Hx.
Qed.

(** [_parse_feed_uri] reads the part before the first question mark
    only. *)
Lemma parse_feed_uri_path (uri : string) :
  _parse_feed_uri uri = _parse_feed_uri (nth 0 (PyStr.split "?" uri) "").
Proof.
  assert (Hp : PyStr.contains "?" (nth 0 (PyStr.split "?" uri) "") = false)
    by (apply Forall_nth_default; [apply split_pieces_no_sep | reflexivity]).
  unfold _parse_feed_uri at 2. rewrite (split_no_sep "?" _ Hp).
  cbn [nth List.length Nat.leb negb].
  unfold _parse_feed_uri.
  pose proof (split_length "?" uri) as Hlen. apply Nat.leb_le in Hlen.
  now rewrite Hlen.
Qed.

(** What follows a query does not change the path. *)
Lemma query_keeps_path (u s : string) :
  PyStr.contains "?" u = true ->
  nth 0 (PyStr.split "?" (u ++ s)) "" = nth 0 (PyStr.split "?" u) "".
Proof.
  intros H. destruct (contains_cut "?" u H) as (a & b & -> & Ha).
  rewrite append_assoc. cbn [append].
  now rewrite !split_app_sep by exact Ha.
Qed.

(** The URIs without query that [_parse_feed_uri] takes for a feed. *)
Lemma live_uri_forms (u fid : string) :
  PyStr.startswith u "feed://" = true ->
  PyStr.contains "?" u = false ->
  _parse_feed_uri u = Ok (fid, None, 0) ->
  u = "feed://" ++ fid \/ u = "feed://" ++ fid ++ "/".
Proof.
  intros Hpre Hq Hparse. apply prefix_split in Hpre. destruct Hpre as [r ->].
  unfold _parse_feed_uri in Hparse. rewrite (split_no_sep "?" _ Hq) in Hparse.
  cbn [nth List.length Nat.leb negb] in Hparse.
  change ("feed://" ++ r) with ("feed:" ++ String "/" ("" ++ String "/" r)) in Hparse.
  rewrite (split_app_sep "/" "feed:" _ eq_refl) in Hparse.
  rewrite (split_app_sep "/" "" r eq_refl) in Hparse.
  pose proof (join_split "/" r) as Hjoin.
  destruct (PyStr.split "/" r) as [| p ps]; cbn in Hparse.
  - discriminate Hparse.
  - destruct (PyStr.truthy (PyStr.join "/" ps)) eqn:Htr; [discriminate Hparse |].
    injection Hparse as ->. cbn [PyStr.join] in Hjoin.
    destruct ps as [| p' ps'].
    + left. now rewrite <- Hjoin.
    + right. rewrite <- Hjoin.
      destruct (PyStr.join "/" (p' :: ps')); [reflexivity | discriminate Htr].
Qed.

Lemma valid_after_slash (s : string) : Utf8.valid s -> Utf8.valid (String "/" s).
Proof.
  intros (cps & Hs & ->). exists (47%N :: cps). split; [| reflexivity].
  cbn [forallb]. now rewrite Hs.
Qed.

Lemma cons_differs (c : ascii) (s : string) : String c s <> s.
Proof.
  intros H. apply (f_equal String.length) in H. cbn in H. lia.
Qed.

(** What [_parse_feed_uri] reads in the URI of a subfeed with a
    non-empty string name, for each form of the URI of a live feed. *)
Lemma subfeed_uri_parse (u fid name : string) :
  PyStr.startswith u "feed://" = true ->
  _parse_feed_uri u = Ok (fid, None, 0) ->
  name <> "" ->
  Utf8.valid name ->
  (u = "feed://" ++ fid
   /\ _parse_feed_uri (u ++ "/" ++ Urllib.quote name) = Ok (fid, Some name, 0))
  \/ (u = "feed://" ++ fid ++ "/"
      /\ _parse_feed_uri (u ++ "/" ++ Urllib.quote name)
         = Ok (fid, Some ("/" ++ name), 0))
  \/ (PyStr.contains "?" u = true
      /\ _parse_feed_uri (u ++ "/" ++ Urllib.quote name) = Ok (fid, None, 0)).
Proof.
  intros Hpre Hparse Hname Hvalid.
  destruct (parse_feed_uri_id _ _ _ _ Hparse) as [Hslash Hq].
  destruct (PyStr.contains "?" u) eqn:Hquery.
  - right. right. split; [reflexivity |].
    rewrite parse_feed_uri_path, (query_keeps_path u _ Hquery), <- parse_feed_uri_path.
    exact Hparse.
  - destruct (live_uri_forms u fid Hpre Hquery Hparse) as [-> | ->].
    + left. split; [reflexivity |].
      pose proof (parse_feed_uri_with_name fid (Urllib.quote name) None Hslash Hq
                    (quote_no_query name)) as H.
      cbn [query_suffix] in H. rewrite append_nil_r in H.
      pose proof (quote_nonempty name Hname) as Hne.
      apply truthy_nonempty in Hne. rewrite Hne, (unquote_quote name Hvalid) in H.
      exact H.
    + right. left. split; [reflexivity |].
      pose proof (parse_feed_uri_with_name fid (Urllib.quote (String "/" name)) None
                    Hslash Hq (quote_no_query _)) as H.
      cbn [query_suffix] in H. rewrite append_nil_r in H.
      rewrite (unquote_quote _ (valid_after_slash name Hvalid)) in H.
      change (Urllib.quote (String "/" name)) with (String "/" (Urllib.quote name)) in H.
      cbn [PyStr.truthy] in H.
      replace (("feed://" ++ fid ++ "/") ++ "/" ++ Urllib.quote name)
        with ("feed://" ++ fid ++ "/" ++ String "/" (Urllib.quote name)).
      * exact H.
      * cbn [append]. now rewrite append_assoc.
Qed.
(* ================================================================== *)
(** ** The properties of the specification *)

(** C1.  When the owning feed of a subfeed is not writeable -- its
    [is_writeable] is not true, or it is a snapshot feed built by the
    constructor -- [append_messages] and [append_message] raise the
    read-only error at once: the subfeed is left as it was and the trace
    of outside calls is left as it was, so no request has been issued. *)
Theorem append_to_readonly_feed_raises_before_any_request
    (self : Subfeed) (t : list event) :
  Py.truthy (Subfeed_is_writeable self) = false
  \/ (constructed (_feed self) /\ Subfeed_is_snapshot self = true) ->
  (forall messages : json,
     Subfeed_append_messages messages self t = (Raise readonly_error, self, t))
  /\ (forall message : json,
        Subfeed_append_message message self t = (Raise readonly_error, self, t)).
Proof.
  intros H.
  assert (Hro : Py.truthy (Subfeed_is_writeable self) = false).
  { destruct H as [H | [Hc Hs]]; [exact H |].
    unfold Subfeed_is_writeable, Feed_is_writeable.
    now rewrite (constructed_snapshot_readonly _ Hc Hs). }
  assert (Hall : forall messages,
             Subfeed_append_messages messages self t = (Raise readonly_error, self, t)).
  { intros messages. unfold Subfeed_append_messages. run. now rewrite Hro. }
  split; [exact Hall |].
  intros message. unfold Subfeed_append_message. apply Hall.
Qed.

(** C3.  On a subfeed of a snapshot feed whose message list is [msgs],
    with the cursor at [p >= 0], [get_next_messages] returns the part of
    [msgs] that starts at [p]: at most [max_num_messages] messages when
    that bound is positive, all of them when it is [0] (or below); with
    [advance_position] the cursor grows by the number of messages returned,
    without it the subfeed is unchanged; and the trace is unchanged, so the
    daemon is not contacted. *)
Theorem snapshot_get_next_messages_slices
    (self : Subfeed) (t : list event) (msgs : list json)
    (wait_msec : Z) (signed : bool) (max_num_messages : Z) (advance_position : bool) :
  Subfeed_is_snapshot self = true ->
  Subfeed_get_snapshot_messages self = JList msgs ->
  0 <= _position self ->
  let p := Z.to_nat (_position self) in
  let ret_ := if 0 <? max_num_messages
              then firstn (Z.to_nat max_num_messages) (skipn p msgs)
              else skipn p msgs in
  Subfeed_get_next_messages wait_msec signed max_num_messages advance_position self t
  = (Ok (JList ret_),
     if advance_position
     then with_position self (_position self + Z.of_nat (List.length ret_))
     else self,
     t)
  /\ (0 < max_num_messages -> Z.of_nat (List.length ret_) <= max_num_messages).
Proof.
  intros Hsnap Hmsgs Hp p ret_.
  rewrite (snapshot_fetch self t msgs wait_msec signed max_num_messages
             advance_position Hsnap Hmsgs).
  assert (Heq : (if 0 <? max_num_messages
                 then Py.slice msgs (_position self)
                        (Some (_position self + max_num_messages))
                 else Py.slice msgs (_position self) None) = ret_).
  { subst ret_ p.
    destruct (Z.ltb_spec 0 max_num_messages) as [Hpos | Hneg].
    - apply slice_window; lia.
    - now apply slice_from. }
  rewrite Heq. split; [reflexivity |].
  intros Hpos. subst ret_.
  destruct (Z.ltb_spec 0 max_num_messages) as [_ | Hneg]; [| lia].
  pose proof (firstn_le_length (Z.to_nat max_num_messages) (skipn p msgs)). lia.
Qed.

(** C10.  On a subfeed of a snapshot feed whose message list is [msgs],
    with the cursor at or past the end of [msgs], [get_next_messages]
    returns the empty list, raises nothing and leaves the subfeed, its
    cursor included, as it was, with [advance_position] or without; the
    same holds right after [set_position] has put the cursor at any [q]
    at or past the end. *)
Theorem snapshot_get_next_messages_past_end
    (self : Subfeed) (t : list event) (msgs : list json)
    (wait_msec : Z) (signed : bool) (max_num_messages : Z) (advance_position : bool) :
  Subfeed_is_snapshot self = true ->
  Subfeed_get_snapshot_messages self = JList msgs ->
  (Z.of_nat (List.length msgs) <= _position self ->
   Subfeed_get_next_messages wait_msec signed max_num_messages advance_position self t
   = (Ok (JList []), self, t))
  /\ (forall q : Z,
        Z.of_nat (List.length msgs) <= q ->
        bind (Subfeed_set_position q)
             (fun _ => Subfeed_get_next_messages wait_msec signed max_num_messages
                         advance_position) self t
        = (Ok (JList []), with_position self q, t)).
Proof.
  intros Hsnap Hmsgs.
  assert (Hend : forall sf : Subfeed,
             Subfeed_is_snapshot sf = true ->
             Subfeed_get_snapshot_messages sf = JList msgs ->
             Z.of_nat (List.length msgs) <= _position sf ->
             Subfeed_get_next_messages wait_msec signed max_num_messages
               advance_position sf t = (Ok (JList []), sf, t)).
  { intros sf Hs Hm Hp.
    rewrite (snapshot_fetch sf t msgs wait_msec signed max_num_messages
               advance_position Hs Hm).
    rewrite !slice_past_end by exact Hp.
    destruct (0 <? max_num_messages); simpl;
      destruct advance_position; now rewrite ?with_position_add_0. }
  split; [now apply Hend |].
  intros q Hq. unfold Subfeed_set_position. run.
  apply (Hend (with_position self q)); [exact Hsnap | exact Hmsgs | exact Hq].
Qed.

(** C8.  On a subfeed of a snapshot feed whose hash has no entry in the
    payload's [subfeeds] mapping, the lookup answers the empty list and
    the fetches go on from there without raising:
    [get_num_local_messages] returns [0] and [get_next_messages] returns
    the empty list, wherever the cursor stands; the subfeed and the trace
    are unchanged. *)
Theorem snapshot_absent_subfeed_is_empty
    (self : Subfeed) (t : list event) (snapshot : json)
    (wait_msec : Z) (signed : bool) (max_num_messages : Z) (advance_position : bool) :
  Subfeed_is_snapshot self = true ->
  _snapshot_object (_feed self) = Some snapshot ->
  snapshot_has snapshot (sf_subfeed_hash self) = false ->
  Subfeed_get_snapshot_messages self = JList []
  /\ Subfeed_get_num_local_messages self t = (Ok (JInt 0), self, t)
  /\ Subfeed_get_next_messages wait_msec signed max_num_messages advance_position self t
     = (Ok (JList []), self, t).
Proof.
  intros Hsnap Hobj Habs.
  assert (Hmsgs : Subfeed_get_snapshot_messages self = JList []).
  { unfold Subfeed_get_snapshot_messages. rewrite Hobj.
    unfold snapshot_has in Habs. unfold Py.getitem.
    destruct snapshot as [| | | | | d]; try reflexivity.
    destruct (Py.assoc "subfeeds" d) as [[| | | | | subfeeds] |]; try reflexivity.
    destruct (Py.assoc (sf_subfeed_hash self) subfeeds); [discriminate | reflexivity]. }
  split; [exact Hmsgs |]. split.
  - unfold Subfeed_get_num_local_messages. run. now rewrite Hsnap, Hmsgs.
  - rewrite (snapshot_fetch self t [] wait_msec signed max_num_messages
               advance_position Hsnap Hmsgs).
    rewrite !slice_nil.
    destruct (0 <? max_num_messages); simpl;
      destruct advance_position; now rewrite ?with_position_add_0.
Qed.

(* ------------------------------------------------------------------ *)
(** *** Feed URIs *)

(** C6.  [_parse_feed_uri] fails, with an assertion error and no other,
    exactly when the scheme segment of the URI (the text before the first
    slash, colons dropped) is not [feed] or fewer than two path segments
    follow it.  Otherwise it returns the second path segment as the feed
    id and, as the subfeed name, the percent-decoded rest of the path, or
    [None] when that rest is empty.  So [feed://<id>/<name>?<query>]
    yields [<id>] and the decoded [<name>], and [feed://<id>?<query>]
    yields [<id>] and [None]. *)
Theorem parse_feed_uri_outcome (uri : string) :
  (_parse_feed_uri uri = Raise AssertionError
   <-> (scheme_segment uri <> "feed" \/ (List.length (path_segments uri) < 2)%nat))
  /\ (forall e : exn, _parse_feed_uri uri = Raise e -> e = AssertionError)
  /\ (scheme_segment uri = "feed" ->
      (2 <= List.length (path_segments uri))%nat ->
      _parse_feed_uri uri
      = Ok (nth 1 (path_segments uri) "",
            (let name := PyStr.join "/" (skipn 2 (path_segments uri)) in
             if PyStr.truthy name then Some (Urllib.unquote name) else None),
            0))
  /\ (forall (fid enc : string) (query : option string),
        PyStr.contains "/" fid = false ->
        PyStr.contains "?" fid = false ->
        PyStr.contains "?" enc = false ->
        uri = "feed://" ++ fid ++ "/" ++ enc ++ query_suffix query ->
        _parse_feed_uri uri
        = Ok (fid, if PyStr.truthy enc then Some (Urllib.unquote enc) else None, 0))
  /\ (forall (fid : string) (query : option string),
        PyStr.contains "/" fid = false ->
        PyStr.contains "?" fid = false ->
        uri = "feed://" ++ fid ++ query_suffix query ->
        _parse_feed_uri uri = Ok (fid, None, 0)).
Proof.
  assert (Hcases :
            (scheme_segment uri = "feed" /\ (2 <= List.length (path_segments uri))%nat
             /\ _parse_feed_uri uri
                = Ok (nth 1 (path_segments uri) "",
                      (let name := PyStr.join "/" (skipn 2 (path_segments uri)) in
                       if PyStr.truthy name then Some (Urllib.unquote name) else None),
                      0))
            \/ ((scheme_segment uri <> "feed"
                 \/ (List.length (path_segments uri) < 2)%nat)
                /\ _parse_feed_uri uri = Raise AssertionError)).
  { unfold _parse_feed_uri, scheme_segment, path_segments, uri_segments.
    pose proof (split_length "?" uri) as Hlen.
    apply Nat.leb_le in Hlen. rewrite Hlen. cbn [negb].
    set (list0 := PyStr.split "/" (nth 0 (PyStr.split "?" uri) "")).
    assert (Hl : List.length list0 = S (List.length (tl list0))).
    { pose proof (split_nonempty "/" (nth 0 (PyStr.split "?" uri) "")) as Hne.
      fold list0 in Hne. destruct list0; [contradiction | reflexivity]. }
    destruct (Nat.leb_spec 3 (List.length list0)) as [H3 | H3]; cbn [negb].
    - destruct (String.eqb_spec (PyStr.remove_char ":" (nth 0 list0 "")) "feed")
        as [Hs | Hs]; cbn [negb].
      + left. split; [exact Hs |]. split; [lia |].
        destruct list0 as [| x l]; [simpl in Hl; lia |]. reflexivity.
      + right. split; [now left | reflexivity].
    - right. split; [right; lia | reflexivity]. }
  split; [| split; [| split; [| split]]].
  - destruct Hcases as [(Hs & Hn & Hok) | (Hbad & Hfail)].
    + rewrite Hok. split; [discriminate |]. intros [H | H]; [contradiction | lia].
    + split; [intros _; exact Hbad | intros _; exact Hfail].
  - intros e He. destruct Hcases as [(_ & _ & Hok) | (_ & Hfail)]; congruence.
  - intros Hs Hn. destruct Hcases as [(_ & _ & Hok) | ([Hbad | Hbad] & _)];
      [exact Hok | contradiction | lia].
  - intros fid enc query H1 H2 H3 ->. now apply parse_feed_uri_with_name.
  - intros fid query H1 H2 ->. now apply parse_feed_uri_without_name.
Qed.

(** C9, as the code has it.  For a live feed as the constructor builds
    it, with feed id [fid], and for every non-empty subfeed name that is
    a string, the [uri] of the subfeed is the URI of the feed, a slash
    and the quoted name, and parsing it gives back [fid].  It gives back
    the name exactly when the URI of the feed is [feed://<fid>]: then
    the [uri] is [feed://<fid>/<quoted name>] and parsing it gives [fid]
    and the name itself, slashes and all.  The constructor keeps the URI
    it is given, so the URI of a live feed can also be [feed://<fid>/],
    and then the name comes back with a slash before it, or hold a
    query, and then no name comes back. *)
Theorem subfeed_uri_round_trip
    (feed : Feed) (fid name : string) (position : Z) (channel : string) :
  constructed feed ->
  _feed_id feed = Some fid ->
  name <> "" ->
  Utf8.valid name ->
  Subfeed_uri (Feed_load_subfeed feed (JStr name) position channel)
  = Ok (_feed_uri feed ++ "/" ++ Urllib.quote name)
  /\ (_feed_uri feed = "feed://" ++ fid ->
      Subfeed_uri (Feed_load_subfeed feed (JStr name) position channel)
      = Ok ("feed://" ++ fid ++ "/" ++ Urllib.quote name)
      /\ _parse_feed_uri ("feed://" ++ fid ++ "/" ++ Urllib.quote name)
         = Ok (fid, Some name, 0))
  /\ (exists name' : option string,
        _parse_feed_uri (_feed_uri feed ++ "/" ++ Urllib.quote name)
        = Ok (fid, name', 0)
        /\ (name' = Some name <-> _feed_uri feed = "feed://" ++ fid))
  /\ ((_feed_uri feed = "feed://" ++ fid
       /\ _parse_feed_uri (_feed_uri feed ++ "/" ++ Urllib.quote name)
          = Ok (fid, Some name, 0))
      \/ (_feed_uri feed = "feed://" ++ fid ++ "/"
          /\ _parse_feed_uri (_feed_uri feed ++ "/" ++ Urllib.quote name)
             = Ok (fid, Some ("/" ++ name), 0))
      \/ (PyStr.contains "?" (_feed_uri feed) = true
          /\ _parse_feed_uri (_feed_uri feed ++ "/" ++ Urllib.quote name)
             = Ok (fid, None, 0))).
Proof.
  intros Hc Hid Hname Hvalid.
  assert (Hlive : _is_snapshot feed = false).
  { destruct (_is_snapshot feed) eqn:Hs; [| reflexivity].
    destruct Hc as (uri & t & t' & H). unfold Feed__init__ in H.
    set (u := if negb (Py.substring_in "://" uri) then "feed://" ++ uri else uri) in H.
    destruct (PyStr.startswith u "feed://").
    - revert H. run.
      destruct (_parse_feed_uri u) as [[[i [n |]] pos] | e]; try discriminate.
      intros H. apply Feed_initialize_fields in H.
      destruct H as (_ & _ & H & _). simpl in H. congruence.
    - destruct (PyStr.startswith u "sha1://"); [| discriminate].
      revert H. unfold load_json. run.
      destruct (of_reply _) as [obj | e]; [| discriminate].
      destruct obj; try discriminate; intros H; injection H as <- _;
        simpl in Hid; discriminate. }
  destruct (constructed_live_feed feed Hc Hlive) as (i & Hi & Hslash & Hq & Hpre & Hparse).
  assert (i = fid) by congruence. subst i.
  assert (Huri : Subfeed_uri (Feed_load_subfeed feed (JStr name) position channel)
                 = Ok (_feed_uri feed ++ "/" ++ Urllib.quote name)).
  { unfold Subfeed_uri, Feed_load_subfeed, Subfeed__init__.
    cbn [sf_feed_uri _subfeed_name_str]. now rewrite Hpre. }
  pose proof (subfeed_uri_parse (_feed_uri feed) fid name Hpre Hparse Hname Hvalid)
    as Hcases.
  split; [exact Huri |]. split; [| split; [| exact Hcases]].
  - intros Hcanon. rewrite Huri.
    destruct Hcases as [[_ H] | [[Hform _] | [Hquery _]]].
    + rewrite Hcanon in H |- *. split; [reflexivity | exact H].
    + rewrite Hcanon in Hform. apply append_inj_l in Hform.
      rewrite <- (append_nil_r fid) in Hform at 1.
      apply append_inj_l in Hform. discriminate Hform.
    + rewrite Hcanon, contains_app, Hq in Hquery. discriminate Hquery.
  - destruct Hcases as [[Hform H] | [[Hform H] | [Hquery H]]].
    + exists (Some name). split; [exact H |]. split; [intros _; exact Hform | reflexivity].
    + exists (Some ("/" ++ name)). split; [exact H |]. split.
      * intros Heq. injection Heq as Heq. now apply cons_differs in Heq.
      * intros Hcanon. rewrite Hcanon in Hform. apply append_inj_l in Hform.
        rewrite <- (append_nil_r fid) in Hform at 1.
        apply append_inj_l in Hform. discriminate Hform.
    + exists None. split; [exact H |]. split; [discriminate |].
      intros Hcanon. rewrite Hcanon, contains_app, Hq in Hquery. discriminate Hquery.
Qed.

(* ------------------------------------------------------------------ *)
(** *** The hash of a subfeed name *)


(* ------------------------------------------------------------------ *)
(** *** The stream of messages *)

(** C4.  One call of [__next__] on an iterator of [message_stream] whose
    offset is not negative, its loop run for at most [fuel] turns.
    - It raises the end of the sequence only on a snapshot feed, with the
      buffer exhausted and the subfeed untouched.
    - When it yields a message, the position of the subfeed has grown by
      exactly one and so has the offset; when it does not, the subfeed is
      as it was.
    - On a snapshot feed it comes to an end within one turn; when the
      buffer is exhausted and the snapshot holds no message at or after
      the cursor, that end is the end of the sequence.
    - On a live feed whose daemon answers every poll with no message it
      never comes to an end: after [fuel] turns it has polled and slept
      [fuel] times and is still running. *)
Theorem message_stream_next_outcome
    (fuel : nat) (it : custom_iterator) (parent : Subfeed) (t : list event) :
  0 <= _relative_position it ->
  let o := __next__ fuel (it, parent) t in
  let it' := fst (state_of o) in
  let parent' := snd (state_of o) in
  (progress_of o = Done (Raise StopIteration) ->
   Subfeed_is_snapshot parent = true /\ exhausted it' = true /\ parent' = parent)
  /\ (forall m : json,
        progress_of o = Done (Ok m) ->
        parent' = with_position parent (_position parent + 1)
        /\ _relative_position it' = _relative_position it + 1)
  /\ ((forall m : json, progress_of o <> Done (Ok m)) -> parent' = parent)
  /\ (Subfeed_is_snapshot parent = true -> (1 <= fuel)%nat -> progress_of o <> Running)
  /\ (forall msgs : list json,
        Subfeed_is_snapshot parent = true ->
        Subfeed_get_snapshot_messages parent = JList msgs ->
        Z.of_nat (List.length msgs) <= _position parent ->
        exhausted it = true ->
        (1 <= fuel)%nat ->
        o = (Done (Raise StopIteration), (it, parent), t))
  /\ (quiet ->
      Subfeed_is_snapshot parent = false ->
      exhausted it = true ->
      progress_of o = Running /\ state_of o = (it, parent)
      /\ List.length (posts (snd o)) = (List.length (posts t) + fuel)%nat
      /\ List.length (sleeps (snd o)) = (List.length (sleeps t) + fuel)%nat).
Proof.
  intros Hrel. cbv zeta.
  destruct (next_effect fuel it parent t Hrel) as (H1 & H2 & H3 & H4).
  split; [exact H1 |]. split; [exact H2 |]. split; [exact H3 |]. split; [exact H4 |].
  split.
  - intros msgs Hsnap Hmsgs Hend Hex Hfuel.
    destruct fuel as [| fuel]; [lia |].
    unfold __next__.
    now rewrite (next_loop_snapshot_end fuel it parent t msgs Hsnap Hmsgs Hend Hex).
  - intros Hq Hlive Hex.
    destruct (next_loop_quiet fuel it parent t Hq Hlive Hex) as (t' & Hloop & Hp & Hs).
    unfold __next__, progress_of, state_of. rewrite Hloop. simpl. auto.
Qed.

(* ------------------------------------------------------------------ *)
(** *** The cursor *)

(** C2, as the code has it.  Over every sequence of operations on a
    subfeed that holds no [set_position], the cursor never goes back and
    nothing but the cursor changes in the subfeed.  [get_next_messages]
    moves the cursor forward by exactly the number of messages it returns
    when [advance_position] is set, and leaves the subfeed alone when it
    is not set or when the call raises; [__next__] moves the cursor
    forward by exactly one when it yields and leaves the subfeed alone
    when it does not.  On a snapshot subfeed whose cursor stands within
    the messages, it stays within them under the operations that go
    through the subfeed, and under one stream when nothing else moves the
    cursor.  [set_position] puts the cursor wherever it is told. *)
Theorem cursor_under_operations (ops : list op) (c : client) :
  (forall o : op, In o ops -> is_set_position o = false) ->
  cursor c <= cursor (perform_all ops c)
  /\ moved_on (c_self c) (c_self (perform_all ops c))
  /\ (forall (wait_msec : Z) (signed : bool) (max_num_messages : Z)
        (advance_position : bool) (self : Subfeed) (t : list event),
        let o := Subfeed_get_next_messages wait_msec signed max_num_messages
                   advance_position self t in
        match result_of o with
        | Ok y =>
          if advance_position
          then exists n : Z,
                 Py.len y = Ok n /\ 0 <= n
                 /\ self_of o = with_position self (_position self + n)
          else self_of o = self
        | Raise _ => self_of o = self
        end)
  /\ (forall (fuel : nat) (it : custom_iterator) (parent : Subfeed) (t : list event),
        0 <= _relative_position it ->
        let o := __next__ fuel (it, parent) t in
        (forall m : json,
           progress_of o = Done (Ok m) ->
           snd (state_of o) = with_position parent (_position parent + 1))
        /\ ((forall m : json, progress_of o <> Done (Ok m)) ->
            snd (state_of o) = parent))
  /\ (forall msgs : list json,
        within msgs (c_self c) ->
        (forall o : op, In o ops -> is_fetch o = true) ->
        within msgs (c_self (perform_all ops c)))
  /\ (forall (msgs : list json) (signed : bool) (fuels : list nat),
        within msgs (c_self c) ->
        c_iters c = [] ->
        ops = message_stream signed :: map (next 0) fuels ->
        within msgs (c_self (perform_all ops c)))
  /\ (forall (position : Z) (self : Subfeed) (t : list event),
        Subfeed_set_position position self t = (Ok tt, with_position self position, t)).
Proof.
  intros Hops.
  pose proof (perform_all_moves_on ops c Hops) as Hmoved.
  split; [exact (proj1 Hmoved) |]. split; [exact Hmoved |].
  split; [intros; apply get_next_messages_cursor |].
  split.
  { intros fuel it parent t Hrel. cbv zeta.
    destruct (next_effect fuel it parent t Hrel) as (_ & H2 & H3 & _).
    split; [intros m Hm; exact (proj1 (H2 m Hm)) | exact H3]. }
  split; [intros msgs Hw Hfetch; now apply perform_all_fetch_stays_within |].
  split; [| reflexivity].
  intros msgs signed fuels Hw Hiters ->. simpl.
  destruct (message_stream_in_step msgs signed (c_self c) (c_trace c) Hw)
    as (it & Hstream & Hstep).
  rewrite Hstream, Hiters. simpl.
  apply (single_stream_stays_within msgs fuels _ it); [reflexivity | exact Hstep].
Qed.

(* ------------------------------------------------------------------ *)
(** *** Deleting a feed *)

(** C7, as the code has it.  [delete] on a feed built by the constructor
    leaves the feed object as it was, whatever the outcome.  On a live
    feed it issues at most one request, the [deleteFeed] request with the
    id of the feed, and exactly that one when it returns, which it does
    only on an answer marked successful.  On a snapshot feed it looks the
    snapshot URI up as a feed name and raises, with no request, when the
    registry holds no feed id under it.  Afterwards the feed is the same
    object: [load_subfeed] gives the same subfeeds as before, and on a
    live feed with URI [u] the subfeed of a string name still has its URI,
    [u], slash, quoted name. *)
Theorem delete_leaves_feed_as_it_was (self : Feed) (t : list event) :
  constructed self ->
  let o := Feed_delete self t in
  self_of o = self
  /\ (_is_snapshot self = false ->
      exists feed_id : string,
        _feed_id self = Some feed_id
        /\ (trace_of o = t
            \/ exists dh : string * json,
                 _daemon_url = Reply dh
                 /\ trace_of o
                    = (t ++ [Post (fst dh ++ "/feed/deleteFeed")
                               (JDict [("feedId", JStr feed_id)]) (snd dh)])%list)
        /\ (result_of o = Ok tt ->
            exists (dh : string * json) (x ok : json),
              _daemon_url = Reply dh
              /\ _http_post_json t (fst dh ++ "/feed/deleteFeed")
                   (JDict [("feedId", JStr feed_id)]) (snd dh) = Reply x
              /\ Py.getitem x "success" = Ok ok /\ Py.truthy ok = true
              /\ trace_of o
                 = (t ++ [Post (fst dh ++ "/feed/deleteFeed")
                            (JDict [("feedId", JStr feed_id)]) (snd dh)])%list))
  /\ (_is_snapshot self = true ->
      is_str (_get (registry_key (_feed_uri self))) = false ->
      o = (Raise (Exception "Unable to load feed with name"), self, t))
  /\ (forall (name : json) (position : Z) (channel : string),
        Feed_load_subfeed (self_of o) name position channel
        = Feed_load_subfeed self name position channel)
  /\ (_is_snapshot self = false ->
      forall (name : string) (position : Z) (channel : string),
        Subfeed_uri (Feed_load_subfeed (self_of o) (JStr name) position channel)
        = Ok (_feed_uri self ++ "/" ++ Urllib.quote name)).
Proof.
  intros Hc. cbv zeta.
  assert (Hself : self_of (Feed_delete self t) = self).
  { unfold Feed_delete, _delete_feed, Feed_uri. run.
    destruct (PyStr.startswith (_feed_uri self) "feed://").
    - unfold _delete_feed_uri, daemon_url, http_post_json, self_of. run.
      repeat match goal with
             | |- context [match ?x with _ => _ end] => destruct x; simpl
             | |- context [if ?b then _ else _] => destruct b; simpl
             end; reflexivity.
    - unfold _delete_feed_uri, daemon_url, http_post_json, self_of. run.
      repeat match goal with
             | |- context [match ?x with _ => _ end] => destruct x; simpl
             | |- context [if ?b then _ else _] => destruct b; simpl
             end; reflexivity. }
  split; [exact Hself |]. split; [| split; [| split]].
  - intros Hlive.
    destruct (constructed_live_feed self Hc Hlive) as (fid & Hid & _ & _ & Hpre & Hparse).
    exists fid. split; [exact Hid |].
    unfold Feed_delete, _delete_feed, Feed_uri. run. rewrite Hpre.
    destruct (delete_feed_uri_effect Feed (_feed_uri self) fid self t Hparse)
      as (_ & Htrace & Hok).
    split; [exact Htrace | exact Hok].
  - intros Hsnap Hreg.
    unfold Feed_delete, _delete_feed, Feed_uri, _get_feed_id. run.
    rewrite (constructed_snapshot_uri self Hc Hsnap).
    destruct (_get (registry_key (_feed_uri self))); try reflexivity.
    discriminate Hreg.
  - intros name position channel. now rewrite Hself.
  - intros Hlive name position channel. rewrite Hself.
    destruct (constructed_live_feed self Hc Hlive) as (fid & _ & _ & _ & Hpre & _).
    unfold Subfeed_uri, Feed_load_subfeed, Subfeed__init__.
    cbn [sf_feed_uri _subfeed_name_str]. now rewrite Hpre.
Qed.

(* ================================================================== *)
(** ** Further properties of the module *)

(* ------------------------------------------------------------------ *)
(** *** Building a feed *)

(** X1.  What [Feed.__init__] returns.  A snapshot feed has no feed id,
    is not writeable, holds a payload that is not [None], and keeps a
    URI that starts with [sha1://].  A live feed has a feed id without
    slash or question mark, holds no payload, and keeps a URI that
    starts with [feed://] and parses to that id and no subfeed name. *)
Theorem constructed_feed_shape (feed : Feed) :
  constructed feed ->
  if _is_snapshot feed
  then _feed_id feed = None
       /\ _is_writeable feed = JBool false
       /\ (exists obj : json, _snapshot_object feed = Some obj /\ obj <> JNull)
       /\ PyStr.startswith (_feed_uri feed) "sha1://" = true
       /\ PyStr.startswith (_feed_uri feed) "feed://" = false
  else exists fid : string,
         _feed_id feed = Some fid
         /\ PyStr.contains "/" fid = false /\ PyStr.contains "?" fid = false
         /\ PyStr.startswith (_feed_uri feed) "feed://" = true
         /\ _parse_feed_uri (_feed_uri feed) = Ok (fid, None, 0)
         /\ _snapshot_object feed = None.
Proof.
  intros (uri & t & t' & H).
  destruct (Feed_init_cases unit uri tt t)
    as [(Hfeed & fid & Hparse & Heq) | [(_ & _ & Heq) | [(Hfeed & Hsha & Heq)
                                                         | (_ & _ & Heq)]]];
    rewrite Heq in H; try discriminate H.
  - apply Feed_initialize_fields in H. simpl in H.
    destruct H as (Huri & Hid & Hsnap & Hobj). rewrite Hsnap.
    exists fid. rewrite Hid, Huri, Hobj.
    destruct (parse_feed_uri_id _ _ _ _ Hparse) as [H1 H2].
    repeat split; assumption || reflexivity.
  - destruct (_load_json t (feed_uri_of uri)) as [obj | msg]; [| discriminate H].
    destruct obj; try discriminate H; injection H as <- _; simpl;
      (split; [reflexivity |]; split; [reflexivity |];
       split; [eexists; split; [reflexivity | discriminate] | split; assumption]).
Qed.

(** X2.  What [Feed.__init__] refuses, it refuses before any call to the
    daemon or the loader: a [feed://] URI that names a subfeed, and a URI
    of another scheme than [feed] and [sha1].  A text without [://] is
    taken as a feed id: it is handled as [feed://] followed by it.  The
    assertions of [_parse_feed_uri] never fire in the constructor. *)
Theorem Feed_init_refuses_without_a_call
    (S : Type) (uri : string) (s : S) (t : list event) :
  (Py.substring_in "://" uri = false ->
   Feed__init__ uri s t = Feed__init__ ("feed://" ++ uri) s t)
  /\ (forall fid name : string,
        PyStr.startswith (feed_uri_of uri) "feed://" = true ->
        _parse_feed_uri (feed_uri_of uri) = Ok (fid, Some name, 0) ->
        Feed__init__ uri s t
        = (Raise (Exception "Cannot specify subfeed name in URI when loading feed"),
           s, t))
  /\ (PyStr.startswith (feed_uri_of uri) "feed://" = false ->
      PyStr.startswith (feed_uri_of uri) "sha1://" = false ->
      Feed__init__ uri s t = (Raise (Exception "Unexpected feed uri"), s, t))
  /\ (PyStr.startswith (feed_uri_of uri) "feed://" = true ->
      exists (fid : string) (name : option string),
        _parse_feed_uri (feed_uri_of uri) = Ok (fid, name, 0)).
Proof.
  split; [| split; [| split]].
  - intros Hbare. unfold Feed__init__. rewrite Hbare. cbn [negb].
    assert (Hin : Py.substring_in "://" ("feed://" ++ uri) = true).
    { change ("feed://" ++ uri) with ("feed" ++ "://" ++ uri).
      apply substring_in_app, substring_in_prefix. }
    now rewrite Hin.
  - intros fid name Hfeed Hparse.
    destruct (Feed_init_cases S uri s t)
      as [(_ & fid' & Hparse' & _) | [(_ & _ & Heq) | [(Hfeed' & _) | (Hfeed' & _)]]];
      congruence.
  - intros Hfeed Hsha.
    destruct (Feed_init_cases S uri s t)
      as [(Hfeed' & _) | [(Hfeed' & _) | [(_ & Hsha' & _) | (_ & _ & Heq)]]];
      congruence.
  - apply parse_feed_scheme.
Qed.

(** X3.  Building a live feed asks the daemon once: when the daemon is
    reachable, the constructor issues the one [getFeedInfo] request with
    the feed id and nothing else.  A feed is returned only on an answer
    marked successful, and its [is_writeable] is the [isWriteable] of
    that answer; an answer not marked successful makes the constructor
    raise. *)
Theorem Feed_init_live_asks_once
    (S : Type) (uri fid : string) (s : S) (t : list event) (dh : string * json) :
  PyStr.startswith (feed_uri_of uri) "feed://" = true ->
  _parse_feed_uri (feed_uri_of uri) = Ok (fid, None, 0) ->
  _daemon_url = Reply dh ->
  let request := Post (fst dh ++ "/feed/getFeedInfo")
                   (JDict [("feedId", JStr fid)]) (snd dh) in
  let answer := _http_post_json t (fst dh ++ "/feed/getFeedInfo")
                  (JDict [("feedId", JStr fid)]) (snd dh) in
  let o := Feed__init__ uri s t in
  self_of o = s
  /\ trace_of o = (t ++ [request])%list
  /\ (forall feed : Feed,
        result_of o = Ok feed ->
        exists x ok : json,
          answer = Reply x
          /\ Py.getitem x "success" = Ok ok /\ Py.truthy ok = true
          /\ Py.getitem x "isWriteable" = Ok (_is_writeable feed)
          /\ feed = mkFeed (feed_uri_of uri) (Some fid) (_is_writeable feed) false None)
  /\ (forall x ok : json,
        answer = Reply x ->
        Py.getitem x "success" = Ok ok -> Py.truthy ok = false ->
        result_of o = Raise AssertionError \/ result_of o = Raise KeyError).
Proof.
  intros Hfeed Hparse Hdh. cbv zeta.
  destruct (Feed_init_cases S uri s t)
    as [(_ & fid' & Hparse' & Heq) | [(_ & (f & n & Hparse') & _)
                                     | [(Hfeed' & _) | (Hfeed' & _)]]];
    try congruence.
  assert (fid' = fid) by congruence. subst fid'. rewrite Heq.
  exact (Feed_initialize_effect S (mkFeed (feed_uri_of uri) (Some fid) JNull false None)
           s t dh Hdh).
Qed.

(* ------------------------------------------------------------------ *)
(** *** Addressing a subfeed *)

(** X4.  The name string a subfeed keeps for its URI names the same
    stream: its hash is the hash of the subfeed, for a string name as for
    a structured one.  Unless the name is a string that starts with a
    tilde, the hash is forty lower-case hex digits. *)
Theorem subfeed_name_str_names_the_stream
    (feed : Feed) (name : json) (position : Z) (channel : string) :
  _subfeed_hash (JStr (_subfeed_name_str (Feed_load_subfeed feed name position channel)))
  = sf_subfeed_hash (Feed_load_subfeed feed name position channel)
  /\ ((forall s : string, name = JStr s -> PyStr.startswith s "~" = false) ->
      String.length (sf_subfeed_hash (Feed_load_subfeed feed name position channel))
      = 40%nat
      /\ all_chars is_lower_hex
           (sf_subfeed_hash (Feed_load_subfeed feed name position channel)) = true).
Proof.
  split; [apply name_str_hash |].
  intros Htilde. unfold Feed_load_subfeed, Subfeed__init__. cbn [sf_subfeed_hash].
  destruct name as [| b | z | s | l | d];
    try (unfold _subfeed_hash, _sha1_of_object, _sha1_of_string; apply hexdigest_shape).
  unfold _subfeed_hash. rewrite (Htilde s eq_refl).
  unfold _sha1_of_string. apply hexdigest_shape.
Qed.

(** X5.  On a feed built by the constructor the [uri] of a subfeed never
    raises.  On a live feed it is the feed URI, a slash and the quoted
    name string; on a snapshot feed it is the snapshot URI,
    [?subfeedName=] and the quoted name string, and that URI is not a
    feed URI: [_parse_feed_uri] rejects it. *)
Theorem subfeed_uri_of_constructed_feed
    (feed : Feed) (name : json) (position : Z) (channel : string) :
  constructed feed ->
  if _is_snapshot feed
  then Subfeed_uri (Feed_load_subfeed feed name position channel)
       = Ok (_feed_uri feed ++ "?subfeedName="
             ++ Urllib.quote
                  (_subfeed_name_str (Feed_load_subfeed feed name position channel)))
       /\ _parse_feed_uri
            (_feed_uri feed ++ "?subfeedName="
             ++ Urllib.quote
                  (_subfeed_name_str (Feed_load_subfeed feed name position channel)))
          = Raise AssertionError
  else Subfeed_uri (Feed_load_subfeed feed name position channel)
       = Ok (_feed_uri feed ++ "/"
             ++ Urllib.quote
                  (_subfeed_name_str (Feed_load_subfeed feed name position channel))).
Proof.
  intros Hc. destruct (_is_snapshot feed) eqn:Hsnap.
  - pose proof (constructed_snapshot_uri feed Hc Hsnap) as Hnot.
    assert (Hsha : PyStr.startswith (_feed_uri feed) "sha1://" = true).
    { destruct Hc as (uri & t & t' & H).
      destruct (Feed_init_cases unit uri tt t)
        as [(_ & fid & _ & Heq) | [(_ & _ & Heq) | [(_ & Hsha & Heq) | (_ & _ & Heq)]]];
        rewrite Heq in H; try discriminate H.
      - apply Feed_initialize_fields in H. simpl in H.
        destruct H as (_ & _ & H & _). congruence.
      - destruct (_load_json t (feed_uri_of uri)) as [obj | msg]; [| discriminate H].
        destruct obj; try discriminate H; injection H as <- _; exact Hsha. }
    split.
    + unfold Subfeed_uri.
      change (sf_feed_uri (Feed_load_subfeed feed name position channel))
        with (_feed_uri feed).
      now rewrite Hnot, Hsha.
    + apply parse_sha1_scheme. now apply startswith_app.
  - destruct (constructed_live_feed feed Hc Hsnap) as (fid & _ & _ & _ & Hpre & _).
    unfold Subfeed_uri.
    change (sf_feed_uri (Feed_load_subfeed feed name position channel))
      with (_feed_uri feed).
    now rewrite Hpre.
Qed.

(** X6.  A structured name travels in a URI as a tilde and its hash.  On
    a live feed with id [fid] and URI [feed://<fid>] the [uri] of such a
    subfeed is [feed://<fid>/~<hash>]; parsing it gives [fid] and the
    name [~<hash>], and the hash of that name is the hash of the
    subfeed. *)
Theorem structured_subfeed_uri_round_trip
    (feed : Feed) (fid : string) (name : json) (position : Z) (channel : string) :
  constructed feed ->
  _feed_id feed = Some fid ->
  _feed_uri feed = "feed://" ++ fid ->
  is_str name = false ->
  Subfeed_uri (Feed_load_subfeed feed name position channel)
  = Ok ("feed://" ++ fid ++ "/~"
        ++ sf_subfeed_hash (Feed_load_subfeed feed name position channel))
  /\ _parse_feed_uri
       ("feed://" ++ fid ++ "/~"
        ++ sf_subfeed_hash (Feed_load_subfeed feed name position channel))
     = Ok (fid,
           Some ("~" ++ sf_subfeed_hash (Feed_load_subfeed feed name position channel)),
           0)
  /\ _subfeed_hash
       (JStr ("~" ++ sf_subfeed_hash (Feed_load_subfeed feed name position channel)))
     = sf_subfeed_hash (Feed_load_subfeed feed name position channel).
Proof.
  intros Hc Hid Huri Hstr.
  assert (Hlive : _is_snapshot feed = false).
  { destruct (_is_snapshot feed) eqn:Hs; [| reflexivity].
    pose proof (constructed_snapshot_uri feed Hc Hs) as Hnot.
    rewrite Huri in Hnot. unfold PyStr.startswith in Hnot.
    now rewrite prefix_app in Hnot. }
  destruct (constructed_live_feed feed Hc Hlive) as (i & Hi & Hslash & Hq & _).
  assert (i = fid) by congruence. subst i.
  assert (Hname : addressable name) by (destruct name; try exact I; discriminate Hstr).
  destruct (subfeed_uri_parses_back feed fid name position channel Hslash Hq Huri Hname)
    as [Hu Hp].
  destruct (structured_name_str feed name position channel Hstr) as (Hns & Hhash & Hsafe).
  assert (Hsf : sf_subfeed_hash (Feed_load_subfeed feed name position channel)
                = Sha1.hexdigest (Json.dumps name)) by exact Hhash.
  rewrite Hns in Hu, Hp. destruct (quote_safe _ Hsafe) as (Hquote & _).
  rewrite Hquote in Hu, Hp. rewrite Hsf.
  split; [exact Hu |]. split; [exact Hp |].
  unfold _subfeed_hash, PyStr.startswith.
  now rewrite (prefix_app "~" (Sha1.hexdigest (Json.dumps name))).
Qed.

(** X7.  [_load_subfeed] reads back the URI of a subfeed.  For a live
    feed with id [fid] and URI [feed://<fid>]: given the [uri] of a
    subfeed whose name is structured or a non-empty string, it builds the
    feed [feed://<fid>] anew and loads from it the subfeed of the same
    name string, so with the same hash, at position 0, the cursor not
    being part of a URI.  Given the [uri] of the subfeed named by the
    empty string, it raises before any call: that URI names no subfeed. *)
Theorem load_subfeed_reads_back_the_uri
    (S : Type) (feed : Feed) (fid : string) (name : json) (position : Z)
    (channel channel' : string) (s : S) (t : list event) :
  constructed feed ->
  _feed_id feed = Some fid ->
  _feed_uri feed = "feed://" ++ fid ->
  (addressable name ->
   Subfeed_uri (Feed_load_subfeed feed name position channel)
   = Ok ("feed://" ++ fid ++ "/"
         ++ Urllib.quote
              (_subfeed_name_str (Feed_load_subfeed feed name position channel)))
   /\ _load_subfeed
        ("feed://" ++ fid ++ "/"
         ++ Urllib.quote
              (_subfeed_name_str (Feed_load_subfeed feed name position channel)))
        channel' s t
      = match Feed__init__ ("feed://" ++ fid) s t with
        | (Ok feed', s', t') =>
          (Ok (Feed_load_subfeed feed'
                 (JStr (_subfeed_name_str (Feed_load_subfeed feed name position channel)))
                 0 channel'),
           s', t')
        | (Raise e, s', t') => (Raise e, s', t')
        end
   /\ (forall sf' : Subfeed,
         result_of
           (_load_subfeed
              ("feed://" ++ fid ++ "/"
               ++ Urllib.quote
                    (_subfeed_name_str (Feed_load_subfeed feed name position channel)))
              channel' s t)
         = Ok sf' ->
         sf_subfeed_hash sf'
         = sf_subfeed_hash (Feed_load_subfeed feed name position channel)
         /\ _subfeed_name_str sf'
            = _subfeed_name_str (Feed_load_subfeed feed name position channel)
         /\ sf_feed_id sf' = Some fid /\ sf_feed_uri sf' = "feed://" ++ fid
         /\ _position sf' = 0 /\ _channel sf' = channel'))
  /\ (name = JStr "" ->
      Subfeed_uri (Feed_load_subfeed feed name position channel)
      = Ok ("feed://" ++ fid ++ "/")
      /\ _load_subfeed ("feed://" ++ fid ++ "/") channel' s t
         = (Raise AssertionError, s, t)).
Proof.
  intros Hc Hid Huri.
  assert (Hlive : _is_snapshot feed = false).
  { destruct (_is_snapshot feed) eqn:Hs; [| reflexivity].
    pose proof (constructed_snapshot_uri feed Hc Hs) as Hnot.
    rewrite Huri in Hnot. unfold PyStr.startswith in Hnot.
    now rewrite prefix_app in Hnot. }
  destruct (constructed_live_feed feed Hc Hlive) as (i & Hi & Hslash & Hq & _).
  assert (i = fid) by congruence. subst i.
  split.
  - intros Hname.
    destruct (subfeed_uri_parses_back feed fid name position channel Hslash Hq Huri Hname)
      as [Hu Hp].
    assert (Hload :
              _load_subfeed
                ("feed://" ++ fid ++ "/"
                 ++ Urllib.quote
                      (_subfeed_name_str (Feed_load_subfeed feed name position channel)))
                channel' s t
              = match Feed__init__ ("feed://" ++ fid) s t with
                | (Ok feed', s', t') =>
                  (Ok (Feed_load_subfeed feed'
                         (JStr (_subfeed_name_str
                                  (Feed_load_subfeed feed name position channel)))
                         0 channel'),
                   s', t')
                | (Raise e, s', t') => (Raise e, s', t')
                end).
    { unfold _load_subfeed, bind, lift, ret, raise. rewrite Hp. cbv beta iota.
      destruct (Feed__init__ ("feed://" ++ fid) s t) as [[[f | e] s'] t']; reflexivity. }
    split; [exact Hu |]. split; [exact Hload |].
    intros sf'. rewrite Hload. unfold result_of.
    destruct (Feed__init__ ("feed://" ++ fid) s t) as [[[f | e] s'] t'] eqn:Hinit;
      simpl; [| discriminate].
    intros H. injection H as <-.
    destruct (Feed_init_of_id_fields S fid s s' t t' f Hslash Hq Hinit)
      as (Hfu & Hfi & _ & _).
    split; [| split; [reflexivity | split; [exact Hfi | split; [exact Hfu | auto]]]].
    change (_subfeed_hash
              (JStr (_subfeed_name_str (Feed_load_subfeed feed name position channel)))
            = sf_subfeed_hash (Feed_load_subfeed feed name position channel)).
    apply name_str_hash.
  - intros ->. split.
    + unfold Subfeed_uri.
      change (sf_feed_uri (Feed_load_subfeed feed (JStr "") position channel))
        with (_feed_uri feed).
      rewrite Huri. unfold PyStr.startswith. rewrite prefix_app. reflexivity.
    + assert (Hparse : _parse_feed_uri ("feed://" ++ fid ++ "/") = Ok (fid, None, 0))
        by exact (parse_feed_uri_with_name fid "" None Hslash Hq eq_refl).
      unfold _load_subfeed, bind, lift, ret, raise. now rewrite Hparse.
Qed.

(** X8.  [_load_feed] (with [create=False]) returns feeds in canonical
    form: a live feed it returns has the URI [feed://<id>] with its own
    feed id, whatever query or trailing slash the argument carried, and a
    snapshot feed has the argument as its URI.  A [feed://] URI that
    names a subfeed is refused before any call, and so is a name the
    registry does not know. *)
Theorem load_feed_outcome
    (S : Type) (feed_name_or_uri : string) (s : S) (t : list event) :
  (forall feed : Feed,
     result_of (_load_feed feed_name_or_uri s t) = Ok feed ->
     if _is_snapshot feed
     then _feed_uri feed = feed_name_or_uri
          /\ PyStr.startswith feed_name_or_uri "sha1://" = true
     else exists fid : string,
            _feed_id feed = Some fid /\ _feed_uri feed = "feed://" ++ fid
            /\ PyStr.contains "/" fid = false /\ PyStr.contains "?" fid = false)
  /\ (forall fid name : string,
        PyStr.startswith feed_name_or_uri "feed://" = true ->
        _parse_feed_uri feed_name_or_uri = Ok (fid, Some name, 0) ->
        _load_feed feed_name_or_uri s t = (Raise AssertionError, s, t))
  /\ (PyStr.startswith feed_name_or_uri "feed://" = false ->
      PyStr.startswith feed_name_or_uri "sha1://" = false ->
      is_str (_get (registry_key feed_name_or_uri)) = false ->
      _load_feed feed_name_or_uri s t
      = (Raise (Exception "Unable to load feed with name"), s, t)).
Proof.
  split; [| split].
  - intros feed. unfold _load_feed.
    destruct (PyStr.startswith feed_name_or_uri "feed://") eqn:Hfeed.
    + intros H. destruct (load_feed_uri_outcome S _ s t feed H)
        as (fid & Hid & Huri & Hslash & Hq & ->).
      exists fid. auto.
    + destruct (PyStr.startswith feed_name_or_uri "sha1://") eqn:Hsha.
      * assert (Huri : feed_uri_of feed_name_or_uri = feed_name_or_uri).
        { unfold feed_uri_of. pose proof Hsha as Hpre.
          apply prefix_split in Hpre. destruct Hpre as [r Hr].
          assert (Hin : Py.substring_in "://" feed_name_or_uri = true).
          { rewrite Hr. change ("sha1://" ++ r) with ("sha1" ++ "://" ++ r).
            apply substring_in_app, substring_in_prefix. }
          now rewrite Hin. }
        destruct (Feed_init_cases S feed_name_or_uri s t)
          as [(Hf & _) | [(Hf & _) | [(_ & _ & Heq) | (_ & Hs & _)]]];
          rewrite Huri in *; try congruence.
        rewrite Heq. unfold result_of.
        destruct (_load_json t feed_name_or_uri) as [obj | msg]; [| discriminate].
        destruct obj; simpl; try discriminate; intros H; injection H as <-; simpl; auto.
      * unfold result_of. run.
        destruct (_get_feed_id feed_name_or_uri) as [id | e]; simpl; [| discriminate].
        intros H. destruct (load_feed_uri_outcome S _ s t feed H)
          as (fid & Hid & Huri & Hslash & Hq & ->).
        exists fid. auto.
  - intros fid name Hfeed Hparse. unfold _load_feed, _load_feed_uri. rewrite Hfeed.
    unfold bind, lift, ret, raise. now rewrite Hparse.
  - intros Hfeed Hsha Hreg. unfold _load_feed, _get_feed_id. rewrite Hfeed, Hsha. run.
    destruct (_get (registry_key feed_name_or_uri)); try reflexivity.
    discriminate Hreg.
Qed.

(* ------------------------------------------------------------------ *)
(** *** Reading and writing a subfeed *)

(** X9.  On a subfeed of a snapshot feed whose message list is [msgs],
    with the cursor at [p >= 0], [get_next_message] returns the message
    at [p] and, with [advance_position], moves the cursor by one; when
    there is no message at [p] it returns [None] and leaves the subfeed
    as it was.  It never raises and the trace is unchanged. *)
Theorem snapshot_get_next_message
    (self : Subfeed) (t : list event) (msgs : list json)
    (wait_msec : Z) (signed advance_position : bool) :
  Subfeed_is_snapshot self = true ->
  Subfeed_get_snapshot_messages self = JList msgs ->
  0 <= _position self ->
  Subfeed_get_next_message wait_msec signed advance_position self t
  = match nth_error msgs (Z.to_nat (_position self)) with
    | Some m =>
      (Ok m,
       if advance_position then with_position self (_position self + 1) else self,
       t)
    | None => (Ok JNull, self, t)
    end.
Proof.
  intros Hs Hm Hp. unfold Subfeed_get_next_message, bind.
  rewrite (snapshot_fetch self t msgs wait_msec signed 1 advance_position Hs Hm).
  cbv zeta. change (0 <? 1) with true. cbv iota.
  rewrite (slice_window json msgs (_position self) 1 Hp) by lia.
  change (Z.to_nat 1) with 1%nat. rewrite firstn_1_skipn.
  destruct (nth_error msgs (Z.to_nat (_position self))) as [m |].
  - destruct advance_position; reflexivity.
  - cbn [List.length Z.of_nat]. rewrite with_position_add_0.
    destruct advance_position; reflexivity.
Qed.

(** X10.  On a subfeed of a snapshot feed whose message list is [msgs],
    [get_num_local_messages] returns the length of [msgs] without a
    request and leaves the subfeed as it was, wherever the cursor stands;
    these are the messages a fetch without bound returns once the cursor
    has been put at [0]. *)
Theorem snapshot_get_num_local_messages
    (self : Subfeed) (t : list event) (msgs : list json) :
  Subfeed_is_snapshot self = true ->
  Subfeed_get_snapshot_messages self = JList msgs ->
  Subfeed_get_num_local_messages self t
  = (Ok (JInt (Z.of_nat (List.length msgs))), self, t)
  /\ (forall (wait_msec : Z) (signed : bool),
        bind (Subfeed_set_position 0)
             (fun _ => Subfeed_get_next_messages wait_msec signed 0 true) self t
        = (Ok (JList msgs), with_position self (Z.of_nat (List.length msgs)), t)).
Proof.
  intros Hs Hm. split.
  - unfold Subfeed_get_num_local_messages. run. now rewrite Hs, Hm.
  - intros wait_msec signed.
    cbv beta iota delta [bind Subfeed_set_position get_self set_self].
    rewrite (snapshot_fetch (with_position self 0) t msgs wait_msec signed 0 true Hs Hm).
    cbn [_position with_position]. change (0 <? 0) with false. cbv iota zeta.
    rewrite slice_from by lia. reflexivity.
Qed.

(** X11.  On a subfeed of a live feed, with the daemon address known,
    [get_num_local_messages] issues exactly one request, the
    [getNumLocalMessages] request with the feed id and the hash of the
    subfeed, and leaves the subfeed as it was.  It returns a count
    exactly when the answer has a true [success] and a [numMessages],
    and then returns that; on an answer with a false [success] it raises
    an assertion error. *)
Theorem live_get_num_local_messages
    (self : Subfeed) (t : list event) (dh : string * json) :
  Subfeed_is_snapshot self = false ->
  _daemon_url = Reply dh ->
  let url := fst dh ++ "/feed/getNumLocalMessages" in
  let body := JDict [("feedId", json_of_opt (sf_feed_id self));
                     ("subfeedHash", JStr (sf_subfeed_hash self))] in
  let o := Subfeed_get_num_local_messages self t in
  self_of o = self
  /\ trace_of o = (t ++ [Post url body (snd dh)])%list
  /\ (forall n : json,
        result_of o = Ok n
        <-> exists x ok : json,
              _http_post_json t url body (snd dh) = Reply x
              /\ Py.getitem x "success" = Ok ok /\ Py.truthy ok = true
              /\ Py.getitem x "numMessages" = Ok n)
  /\ (forall x ok : json,
        _http_post_json t url body (snd dh) = Reply x ->
        Py.getitem x "success" = Ok ok -> Py.truthy ok = false ->
        result_of o = Raise AssertionError).
Proof.
  intros Hs Hd url body o. subst o url body.
  unfold Subfeed_get_num_local_messages, daemon_url, http_post_json, result_of,
    self_of, trace_of.
  run. rewrite Hs, Hd. cbn.
  destruct (_http_post_json t _ _ (snd dh)) as [x | msg] eqn:Hx; cbn.
  - destruct (Py.getitem x "success") as [ok | e] eqn:Hok; cbn.
    + destruct (Py.truthy ok) eqn:Htr; cbn.
      * split; [reflexivity |]. split; [reflexivity |]. split.
        -- intros n. split.
           ++ intros Hn. exists x, ok. auto.
           ++ intros (x' & ok' & Hx' & Hok' & _ & Hn). congruence.
        -- intros x' ok' Hx' Hok' Htr'. congruence.
      * split; [reflexivity |]. split; [reflexivity |]. split.
        -- intros n. split; [discriminate |].
           intros (x' & ok' & Hx' & Hok' & Htr' & _). congruence.
        -- reflexivity.
    + split; [reflexivity |]. split; [reflexivity |]. split.
      * intros n. split; [discriminate |].
        intros (x' & ok' & Hx' & Hok' & _). congruence.
      * intros x' ok' Hx' Hok'. congruence.
  - split; [reflexivity |]. split; [reflexivity |]. split.
    + intros n. split; [discriminate |]. intros (x' & ok' & Hx' & _). discriminate Hx'.
    + intros x' ok' Hx'. discriminate Hx'.
Qed.

(** X12.  On a subfeed of a writeable feed, with the daemon address
    known, [append_messages] issues exactly one request, the
    [appendMessages] request with the feed id, the hash of the subfeed
    and the messages as given, and leaves the subfeed, its cursor
    included, as it was.  It returns exactly when the answer has a true
    [success]; on an answer with a false [success] it raises
    [Unable to append messages].  [append_message] does the same with
    the list of its one message. *)
Theorem writeable_append_messages
    (self : Subfeed) (t : list event) (dh : string * json) (messages : json) :
  Py.truthy (Subfeed_is_writeable self) = true ->
  _daemon_url = Reply dh ->
  let url := fst dh ++ "/feed/appendMessages" in
  let body := JDict [("feedId", json_of_opt (sf_feed_id self));
                     ("subfeedHash", JStr (sf_subfeed_hash self));
                     ("messages", messages)] in
  let o := Subfeed_append_messages messages self t in
  self_of o = self
  /\ trace_of o = (t ++ [Post url body (snd dh)])%list
  /\ (result_of o = Ok tt
      <-> exists x ok : json,
            _http_post_json t url body (snd dh) = Reply x
            /\ Py.getitem x "success" = Ok ok /\ Py.truthy ok = true)
  /\ (forall x ok : json,
        _http_post_json t url body (snd dh) = Reply x ->
        Py.getitem x "success" = Ok ok -> Py.truthy ok = false ->
        result_of o = Raise (Exception "Unable to append messages"))
  /\ (forall message : json,
        messages = JList [message] ->
        Subfeed_append_message message self t = o).
Proof.
  intros Hw Hd url body o.
  assert (H5 : forall message : json,
             messages = JList [message] ->
             Subfeed_append_message message self t = o)
    by (intros m ->; reflexivity).
  enough (H4 : self_of o = self
               /\ trace_of o = (t ++ [Post url body (snd dh)])%list
               /\ (result_of o = Ok tt
                   <-> exists x ok : json,
                         _http_post_json t url body (snd dh) = Reply x
                         /\ Py.getitem x "success" = Ok ok /\ Py.truthy ok = true)
               /\ (forall x ok : json,
                     _http_post_json t url body (snd dh) = Reply x ->
                     Py.getitem x "success" = Ok ok -> Py.truthy ok = false ->
                     result_of o = Raise (Exception "Unable to append messages"))).
  { destruct H4 as (h1 & h2 & h3 & h4).
    exact (conj h1 (conj h2 (conj h3 (conj h4 H5)))). }
  clear H5. subst o url body.
  unfold Subfeed_append_messages, daemon_url, http_post_json, result_of, self_of,
    trace_of.
  run. rewrite Hw, Hd. cbn.
  destruct (_http_post_json t _ _ (snd dh)) as [x | msg] eqn:Hx; cbn.
  - destruct (Py.getitem x "success") as [ok | e] eqn:Hok; cbn.
    + destruct (Py.truthy ok) eqn:Htr; cbn.
      * split; [reflexivity |]. split; [reflexivity |]. split; [split |].
        -- intros _. exists x, ok. auto.
        -- reflexivity.
        -- intros x' ok' Hx' Hok' Htr'; congruence.
      * destruct (Py.get x "error" JNull) as [err | e] eqn:Herr; cbn.
        -- split; [reflexivity |]. split; [reflexivity |]. split; [split |].
           ++ discriminate.
           ++ intros (x' & ok' & Hx' & Hok' & Htr'). congruence.
           ++ reflexivity.
        -- split; [reflexivity |]. split; [reflexivity |]. split; [split |].
           ++ discriminate.
           ++ intros (x' & ok' & Hx' & Hok' & Htr'). congruence.
           ++ intros _ _ _ _ _. destruct x as [| | | | | d]; try discriminate Hok.
              cbn in Herr. destruct (Py.assoc "error" d); discriminate Herr.
    + split; [reflexivity |]. split; [reflexivity |]. split; [split |].
      * discriminate.
      * intros (x' & ok' & Hx' & Hok' & _). congruence.
      * intros x' ok' Hx' Hok'; congruence.
  - split; [reflexivity |]. split; [reflexivity |]. split; [split |].
    + discriminate.
    + intros (x' & ok' & Hx' & _). discriminate Hx'.
    + intros x' ok' Hx'; discriminate Hx'.
Qed.

(** X13.  On a subfeed of a live feed, with the daemon address known,
    [get_next_messages] issues exactly one request: a
    [watchForNewMessages] request with the one watch [watch], which
    carries the feed id, the hash and the channel of the subfeed and the
    cursor as the position, and with the wait, the signed flag and the
    bound as given.  When the answer has a true [success] and its
    [messages] hold nothing under [watch], the empty list is returned
    and the subfeed is as it was; when they hold a list, that list is
    returned and, with [advance_position], the cursor has grown by its
    length.  On an answer with a false [success] the call raises and the
    subfeed is as it was. *)
Theorem live_get_next_messages
    (self : Subfeed) (t : list event) (dh : string * json)
    (wait_msec : Z) (signed : bool) (max_num_messages : Z) (advance_position : bool) :
  Subfeed_is_snapshot self = false ->
  _daemon_url = Reply dh ->
  let url := fst dh ++ "/feed/watchForNewMessages" in
  let body :=
    JDict [("subfeedWatches",
            JDict [("watch",
                    JDict [("feedId", json_of_opt (sf_feed_id self));
                           ("subfeedHash", JStr (sf_subfeed_hash self));
                           ("channelName", JStr (_channel self));
                           ("position", JInt (_position self))])]);
           ("waitMsec", JInt wait_msec);
           ("signed", JBool signed);
           ("maxNumMessages", JInt max_num_messages)] in
  let o := Subfeed_get_next_messages wait_msec signed max_num_messages
             advance_position self t in
  trace_of o = (t ++ [Post url body (snd dh)])%list
  /\ (forall (x ok : json) (messages : list (string * json)),
        _http_post_json t url body (snd dh) = Reply x ->
        Py.getitem x "success" = Ok ok -> Py.truthy ok = true ->
        Py.getitem x "messages" = Ok (JDict messages) ->
        match Py.assoc "watch" messages with
        | None => result_of o = Ok (JList []) /\ self_of o = self
        | Some (JList l) =>
          result_of o = Ok (JList l)
          /\ self_of o
             = if advance_position
               then with_position self (_position self + Z.of_nat (List.length l))
               else self
        | Some _ => True
        end)
  /\ (forall x ok : json,
        _http_post_json t url body (snd dh) = Reply x ->
        Py.getitem x "success" = Ok ok -> Py.truthy ok = false ->
        (result_of o = Raise (Exception "Unable to watch for new messages")
         \/ result_of o = Raise KeyError)
        /\ self_of o = self).
Proof.
  intros Hs Hd url body o. subst o url body.
  unfold Subfeed_get_next_messages, _watch_for_new_messages, daemon_url,
    http_post_json, result_of, self_of, trace_of.
  run. rewrite Hs, Hd. cbn.
  destruct (_http_post_json t _ _ (snd dh)) as [x | msg] eqn:Hx; cbn.
  - destruct (Py.getitem x "success") as [ok | e] eqn:Hok; cbn.
    + destruct (Py.truthy ok) eqn:Htr; cbn.
      * destruct (Py.getitem x "messages") as [ms | e] eqn:Hms; cbn.
        -- split; [| split].
           ++ destruct (Py.get ms "watch" (JList [])) as [y | e]; cbn; [| reflexivity].
              destruct advance_position; cbn; [| reflexivity].
              destruct (Py.len y); reflexivity.
           ++ intros x' ok' messages Hx' _ _ Hms'.
              injection Hx' as <-. rewrite Hms in Hms'. injection Hms' as ->.
              cbn. destruct (Py.assoc "watch" messages) as [y |]; cbn.
              ** destruct y; try exact I. destruct advance_position; cbn; auto.
              ** destruct advance_position; cbn; rewrite ?with_position_add_0; auto.
           ++ intros x' ok' Hx' Hok' Htr'. congruence.
        -- split; [reflexivity |]. split.
           ++ intros x' ok' messages Hx' _ _ Hms'. congruence.
           ++ intros x' ok' Hx' Hok' Htr'. congruence.
      * split; [| split].
        -- destruct (Py.getitem x "error"); reflexivity.
        -- intros x' ok' messages Hx' Hok' Htr'. congruence.
        -- intros _ _ _ _ _. destruct x as [| | | | | d]; try discriminate Hok.
           cbn. destruct (Py.assoc "error" d); cbn; auto.
    + split; [reflexivity |]. split.
      * intros x' ok' messages Hx' Hok'. congruence.
      * intros x' ok' Hx' Hok'. congruence.
  - split; [reflexivity |]. split.
    + intros x' ok' messages Hx'. discriminate Hx'.
    + intros x' ok' Hx'. discriminate Hx'.
Qed.

(** X14.  [_watch_for_new_messages] sends one entry for each watch it is
    given, under the same key and in the same order, each with the four
    fields [feedId], [subfeedHash], [channelName] and [position], the
    channel being that of the call.  A watch by name is sent as the
    watch by the hash of that name.  When a watch is malformed the call
    raises and no request is issued; otherwise, with the daemon address
    known, the one request issued carries these entries with the wait,
    the signed flag and the bound as given. *)
Theorem watch_for_new_messages_entries
    (channel : string) (subfeed_watches : list (string * json)) :
  (forall ws' : list (string * json),
     watches2 channel subfeed_watches = Ok ws' ->
     map fst ws' = map fst subfeed_watches
     /\ Forall (fun kw => exists feed_id subfeed_hash position : json,
                            snd kw = JDict [("feedId", feed_id);
                                            ("subfeedHash", subfeed_hash);
                                            ("channelName", JStr channel);
                                            ("position", position)]) ws')
  /\ (forall (watch : list (string * json)) (name : json),
        Py.assoc "subfeedHash" watch = None ->
        Py.assoc "subfeedName" watch = Some name ->
        watch2 channel (JDict watch)
        = watch2 channel (JDict (("subfeedHash", JStr (_subfeed_hash name)) :: watch)))
  /\ (forall (S : Type) (wait_msec : Z) (signed : bool) (max_num_messages : Z)
        (s : S) (t : list event) (e : exn),
        watches2 channel subfeed_watches = Raise e ->
        let o := _watch_for_new_messages subfeed_watches wait_msec channel signed
                   max_num_messages s t in
        trace_of o = t /\ self_of o = s
        /\ (forall dh : string * json, _daemon_url = Reply dh -> result_of o = Raise e))
  /\ (forall (S : Type) (wait_msec : Z) (signed : bool) (max_num_messages : Z)
        (s : S) (t : list event) (dh : string * json) (ws' : list (string * json)),
        _daemon_url = Reply dh ->
        watches2 channel subfeed_watches = Ok ws' ->
        trace_of (_watch_for_new_messages subfeed_watches wait_msec channel signed
                    max_num_messages s t)
        = (t ++ [Post (fst dh ++ "/feed/watchForNewMessages")
                   (JDict [("subfeedWatches", JDict ws');
                           ("waitMsec", JInt wait_msec);
                           ("signed", JBool signed);
                           ("maxNumMessages", JInt max_num_messages)])
                   (snd dh)])%list).
Proof.
  split; [| split; [| split]].
  - intros ws'. apply watches2_entries.
  - intros watch name Hhash Hname. unfold watch2, Py.getitem, Py.contains, Py.get.
    rewrite !assoc_cons_other by reflexivity.
    cbn [Py.assoc String.eqb Ascii.eqb Bool.eqb]. rewrite Hhash, Hname.
    reflexivity.
  - intros S wait_msec signed max_num_messages s t e He o. subst o.
    unfold _watch_for_new_messages, daemon_url, result_of, self_of, trace_of. run.
    destruct _daemon_url as [dh | msg]; cbn.
    + rewrite He. cbn. split; [reflexivity |]. split; [reflexivity |].
      intros dh' _. reflexivity.
    + split; [reflexivity |]. split; [reflexivity |].
      intros dh' H. discriminate H.
  - intros S wait_msec signed max_num_messages s t dh ws' Hd Hws.
    unfold _watch_for_new_messages, daemon_url, http_post_json, trace_of. run.
    rewrite Hd. cbn. rewrite Hws. cbn.
    destruct (_http_post_json t _ _ (snd dh)) as [x | msg]; cbn; [| reflexivity].
    destruct (Py.getitem x "success") as [ok | e]; cbn; [| reflexivity].
    destruct (Py.truthy ok); cbn; [reflexivity |].
    destruct (Py.getitem x "error"); reflexivity.
Qed.

(* ------------------------------------------------------------------ *)
(** *** A snapshot feed at work *)

(** X15.  A subfeed of a snapshot feed built by the constructor works
    offline: over every sequence of operations -- [set_position], the
    fetches, the count, the appends, which are refused, the streams and
    their [__next__] -- the trace stays as it was, so no request is
    issued and no back-off sleep is taken, and nothing but the cursor
    changes in the subfeed. *)
Theorem snapshot_subfeed_works_offline (ops : list op) (c : client) :
  constructed (_feed (c_self c)) ->
  Subfeed_is_snapshot (c_self c) = true ->
  c_trace (perform_all ops c) = c_trace c
  /\ exists p : Z, c_self (perform_all ops c) = with_position (c_self c) p.
Proof.
  intros Hc Hs. apply perform_all_offline; [exact Hs |].
  unfold Subfeed_is_writeable, Feed_is_writeable.
  now rewrite (constructed_snapshot_readonly _ Hc Hs).
Qed.

(** X16.  The loop [for msg in self.message_stream()] of
    [print_messages] on a subfeed of a snapshot feed whose cursor stands
    within the messages: the stream is made without a request, the loop
    body gets the messages from the cursor on, each once and in order,
    the loop ends by the end of the sequence, and the cursor then stands
    at the end of the messages.  The trace is unchanged. *)
Theorem snapshot_stream_yields_the_rest
    (msgs : list json) (signed : bool) (parent : Subfeed) (t : list event)
    (calls fuel : nat) :
  within msgs parent ->
  (List.length msgs - Z.to_nat (_position parent) < calls)%nat ->
  exists it it' : custom_iterator,
    Subfeed_message_stream signed parent t = (Ok tt, (it, parent), t)
    /\ for_each calls (S fuel) (it, parent) t
       = (skipn (Z.to_nat (_position parent)) msgs,
          Some (Done (Raise StopIteration)),
          (it', with_position parent (Z.of_nat (List.length msgs))),
          t).
Proof.
  intros Hw Hcalls.
  destruct (message_stream_in_step msgs signed parent t Hw) as (it & Hmade & Hstep).
  destruct (for_each_in_step msgs calls fuel it parent t Hstep) as [it' Hit'].
  - now rewrite length_skipn.
  - now exists it, it'.
Qed.

(* ------------------------------------------------------------------ *)
(** *** Creating a feed *)

(** X17.  [_create_feed()], with the daemon address known, first issues
    the [createFeed] request, with an empty body.  On an answer with a
    false [success] it raises [Unable to create feed] and that request
    is the only one.  Otherwise it loads [feed://] followed by the
    [feedId] of the answer, which takes at most one more request, the
    [getFeedInfo] request of the constructor; the feed it returns is a
    live feed in canonical form, and then both requests were issued, in
    this order. *)
Theorem create_feed_outcome (S : Type) (s : S) (t : list event) (dh : string * json) :
  _daemon_url = Reply dh ->
  let create := Post (fst dh ++ "/feed/createFeed") (JDict []) (snd dh) in
  let info := fun fid : string =>
                Post (fst dh ++ "/feed/getFeedInfo") (JDict [("feedId", JStr fid)])
                  (snd dh) in
  let answer := _http_post_json t (fst dh ++ "/feed/createFeed") (JDict []) (snd dh) in
  let o := _create_feed s t in
  self_of o = s
  /\ (trace_of o = (t ++ [create])%list
      \/ exists fid : string, trace_of o = ((t ++ [create]) ++ [info fid])%list)
  /\ (forall feed : Feed,
        result_of o = Ok feed ->
        exists fid : string,
          _feed_id feed = Some fid /\ _feed_uri feed = "feed://" ++ fid
          /\ _is_snapshot feed = false
          /\ trace_of o = ((t ++ [create]) ++ [info fid])%list)
  /\ (forall x ok : json,
        answer = Reply x ->
        Py.getitem x "success" = Ok ok -> Py.truthy ok = false ->
        o = (Raise (Exception "Unable to create feed"), s, (t ++ [create])%list))
  /\ (forall (x ok : json) (id : string),
        answer = Reply x ->
        Py.getitem x "success" = Ok ok -> Py.truthy ok = true ->
        Py.getitem x "feedId" = Ok (JStr id) ->
        PyStr.contains "/" id = false -> PyStr.contains "?" id = false ->
        o = Feed_initialize (mkFeed ("feed://" ++ id) (Some id) JNull false None) s
              (t ++ [create])%list).
Proof.
  intros Hd create info answer o. subst o answer.
  unfold _create_feed, bind, daemon_url, http_post_json, lift, raise.
  rewrite Hd. cbn [of_reply].
  fold create.
  destruct (_http_post_json t (fst dh ++ "/feed/createFeed") (JDict []) (snd dh))
    as [x | msg] eqn:Hx; cbn [of_reply].
  - destruct (Py.getitem x "success") as [ok | e] eqn:Hok.
    + destruct (Py.truthy ok) eqn:Htr; cbn [negb].
      * destruct (Py.getitem x "feedId") as [fid | e] eqn:Hfid.
        -- destruct fid as [| b | z | id | l | d];
             try (split; [reflexivity |]; split; [left; reflexivity |];
                  split; [discriminate |];
                  split; [intros x' ok' Hx' Hok' Htr'; congruence |];
                  intros x' ok' id' Hx' _ _ Hfid'; congruence).
           destruct (load_feed_uri_effect S id s (t ++ [create])%list dh Hd)
             as (Hself & Htrace & Hfeed & Hinit).
           split; [exact Hself |]. split; [exact Htrace |]. split; [exact Hfeed |].
           split; [intros x' ok' Hx' Hok' Htr'; congruence |].
           intros x' ok' id' Hx' _ _ Hfid' Hslash Hq.
           assert (id' = id) by congruence. subst id'. now apply Hinit.
        -- split; [reflexivity |]. split; [left; reflexivity |].
           split; [discriminate |].
           split; [intros x' ok' Hx' Hok' Htr'; congruence |].
           intros x' ok' id' Hx' _ _ Hfid'. congruence.
      * split; [reflexivity |]. split; [left; reflexivity |].
        split; [discriminate |]. split; [reflexivity |].
        intros x' ok' id' Hx' Hok' Htr'. congruence.
    + split; [reflexivity |]. split; [left; reflexivity |].
      split; [discriminate |].
      split; [intros x' ok' Hx' Hok'; congruence |].
      intros x' ok' id' Hx' Hok'. congruence.
  - split; [reflexivity |]. split; [left; reflexivity |].
    split; [discriminate |].
    split; [intros x' ok' Hx'; discriminate Hx' |].
    intros x' ok' id' Hx'. discriminate Hx'.
Qed.

End Client.

(* ================================================================== *)
(** ** The properties at work on the concrete daemon *)

Module Run.

Import Scenario.

(** The snapshot feed, as the constructor loads it. *)
Definition snapshot_feed : Feed :=
  mkFeed snapshot_uri None (JBool false) true (Some snapshot).

Lemma snapshot_feed_constructed : constructed daemon_url daemon loader snapshot_feed.
Proof. exists snapshot_uri, [], [Load snapshot_uri]. reflexivity. Defined.

(** The subfeeds [events] and [other] of the snapshot feed, as
    [load_subfeed] builds them. *)
Definition events : Subfeed :=
  mkSubfeed snapshot_feed snapshot_uri None (JBool false) (JStr "events")
    "*local*" 0 events_hash "events".

Definition other : Subfeed :=
  mkSubfeed snapshot_feed snapshot_uri None (JBool false) (JStr "other")
    "*local*" 0 other_hash "other".

Lemma events_loaded :
  Feed_load_subfeed snapshot_feed (JStr "events") 0 "*local*" = events.
Proof. vm_compute. reflexivity. Qed.

Lemma other_loaded :
  Feed_load_subfeed snapshot_feed (JStr "other") 0 "*local*" = other.
Proof. vm_compute. reflexivity. Qed.

(** C1 at work: appending to the snapshot subfeed [events]. *)
Lemma append_to_snapshot_raises :
  (forall messages : json,
     Subfeed_append_messages daemon_url daemon messages events []
     = (Raise readonly_error, events, []))
  /\ (forall message : json,
        Subfeed_append_message daemon_url daemon message events []
        = (Raise readonly_error, events, [])).
Proof.
  apply (append_to_readonly_feed_raises_before_any_request
           daemon_url daemon loader events []).
  right. split; [exact snapshot_feed_constructed | reflexivity].
Defined.

Lemma events_messages (p : Z) :
  Subfeed_get_snapshot_messages (with_position events p) = JList [msg 1; msg 2; msg 3].
Proof. vm_compute. reflexivity. Qed.

(** C3 at work: one message from position 1 of the three of [events]. *)
Lemma snapshot_fetch_one_from_1 :
  Subfeed_get_next_messages daemon_url daemon 10 false 1 true
    (with_position events 1) []
  = (Ok (JList [msg 2]), with_position events 2, [])
  /\ (0 < 1 -> 1 <= 1).
Proof.
  destruct (snapshot_get_next_messages_slices daemon_url daemon
              (with_position events 1) [] [msg 1; msg 2; msg 3] 10 false 1 true
              eq_refl (events_messages 1) ltac:(simpl; lia)) as [H1 H2].
  split; [rewrite H1; vm_compute; reflexivity | exact H2].
Defined.

(** C10 at work: the cursor of [events] at 3 and, by [set_position], at 7. *)
Lemma snapshot_fetch_past_end :
  Subfeed_get_next_messages daemon_url daemon 10 false 0 true
    (with_position events 3) []
  = (Ok (JList []), with_position events 3, [])
  /\ bind (Subfeed_set_position 7)
       (fun _ => Subfeed_get_next_messages daemon_url daemon 10 false 0 true)
       events []
     = (Ok (JList []), with_position events 7, []).
Proof.
  destruct (snapshot_get_next_messages_past_end daemon_url daemon
              (with_position events 3) [] [msg 1; msg 2; msg 3] 10 false 0 true
              eq_refl (events_messages 3)) as [H1 _].
  destruct (snapshot_get_next_messages_past_end daemon_url daemon
              events [] [msg 1; msg 2; msg 3] 10 false 0 true
              eq_refl (events_messages 0)) as [_ H2].
  split.
  - apply H1. simpl. lia.
  - apply (H2 7). simpl. lia.
Defined.

(** C8 at work: the subfeed [other] has no entry in the snapshot. *)
Lemma snapshot_fetch_absent :
  Subfeed_get_snapshot_messages other = JList []
  /\ Subfeed_get_num_local_messages daemon_url daemon other [] = (Ok (JInt 0), other, [])
  /\ Subfeed_get_next_messages daemon_url daemon 10 false 0 true other []
     = (Ok (JList []), other, []).
Proof.
  apply (snapshot_absent_subfeed_is_empty daemon_url daemon other [] snapshot
           10 false 0 true eq_refl eq_refl).
  vm_compute. reflexivity.
Defined.

(** C6 at work: a URI with a quoted name and a query, and one with a
    wrong scheme. *)
Lemma parse_feed_uri_examples :
  _parse_feed_uri "feed://abc/a%20b/c?x=1" = Ok ("abc", Some "a b/c", 0)
  /\ _parse_feed_uri "sha1://abc/d" = Raise AssertionError.
Proof.
  split.
  - destruct (parse_feed_uri_outcome "feed://abc/a%20b/c?x=1") as (_ & _ & _ & H & _).
    apply (H "abc" "a%20b/c" (Some "x=1")); reflexivity.
  - destruct (parse_feed_uri_outcome "sha1://abc/d") as (H & _).
    apply H. left. vm_compute. discriminate.
Defined.

(** The live feed [abc], as the constructor builds it from the daemon's
    answer. *)
Definition live_feed : Feed :=
  mkFeed "feed://abc" (Some "abc") (JBool true) false None.

Lemma live_feed_constructed : constructed daemon_url daemon loader live_feed.
Proof. exists "feed://abc", []. eexists. vm_compute. reflexivity. Defined.

(** The name [a b/c?] followed by e-acute. *)
Definition odd_name : string := Utf8.encode [97; 32; 98; 47; 99; 63; 233]%N.

Lemma odd_name_valid : Utf8.valid odd_name.
Proof. exists [97; 32; 98; 47; 99; 63; 233]%N. split; reflexivity. Defined.

(** C9 at work: the URI of the subfeed [odd_name] of [live_feed]. *)
Lemma odd_name_round_trip :
  Subfeed_uri (Feed_load_subfeed live_feed (JStr odd_name) 0 "*local*")
  = Ok ("feed://" ++ "abc" ++ "/" ++ Urllib.quote odd_name)
  /\ _parse_feed_uri ("feed://" ++ "abc" ++ "/" ++ Urllib.quote odd_name)
     = Ok ("abc", Some odd_name, 0).
Proof.
  destruct (subfeed_uri_round_trip daemon_url daemon loader live_feed "abc" odd_name
              0 "*local*" live_feed_constructed eq_refl ltac:(discriminate)
              odd_name_valid) as (_ & H & _).
  exact (H eq_refl).
Defined.

(** The live feeds the constructor builds from [feed://abc/] and from
    [abc?x=1]: it keeps the URI as given. *)
Definition slash_feed : Feed :=
  mkFeed "feed://abc/" (Some "abc") (JBool true) false None.

Definition query_feed : Feed :=
  mkFeed "feed://abc?x=1" (Some "abc") (JBool true) false None.

(** C9 as stated fails: both are live feeds with the id [abc], and the
    URI of their subfeed [events] does not parse back to [events]: from
    the first comes [/events], from the second no name at all. *)
Lemma live_feed_uri_loses_the_name :
  result_of (Feed__init__ daemon_url daemon loader "feed://abc/" tt []) = Ok slash_feed
  /\ Subfeed_uri (Feed_load_subfeed slash_feed (JStr "events") 0 "*local*")
     = Ok "feed://abc//events"
  /\ _parse_feed_uri "feed://abc//events" = Ok ("abc", Some "/events", 0)
  /\ result_of (Feed__init__ daemon_url daemon loader "abc?x=1" tt []) = Ok query_feed
  /\ Subfeed_uri (Feed_load_subfeed query_feed (JStr "events") 0 "*local*")
     = Ok "feed://abc?x=1/events"
  /\ _parse_feed_uri "feed://abc?x=1/events" = Ok ("abc", None, 0).
Proof. repeat split; vm_compute; reflexivity. Qed.

Example odd_name_quoted : Urllib.quote odd_name = "a%20b/c%3F%C3%A9".
Proof. vm_compute. reflexivity. Qed.


Example canonical_json_sorted :
  Json.dumps (JDict [("b", JInt 1); ("a", JList [JNull; JBool true])])
  = String.concat "" ["{"; Json.dquote; "a"; Json.dquote; ":[null,true],";
                      Json.dquote; "b"; Json.dquote; ":1}"].
Proof. vm_compute. reflexivity. Qed.

(** The iterator [message_stream] makes on [events]. *)
Definition events_stream : custom_iterator := mkIter false [msg 1; msg 2; msg 3] 0.

Lemma events_stream_made :
  Subfeed_message_stream daemon_url daemon false events []
  = (Ok tt, (events_stream, events), []).
Proof. vm_compute. reflexivity. Qed.

Lemma silent_daemon_quiet : quiet daemon_url silent_daemon.
Proof.
  split; [now exists (base, JDict []) |].
  intros t url body headers. eexists. split; [reflexivity |].
  exists (JBool true), (JDict []), (JList []).
  repeat split; try reflexivity. now right.
Defined.

(** The subfeed [events] of the live feed. *)
Definition live_events : Subfeed :=
  mkSubfeed live_feed "feed://abc" (Some "abc") (JBool true) (JStr "events")
    "*local*" 0 events_hash "events".

Lemma live_events_loaded :
  Feed_load_subfeed live_feed (JStr "events") 0 "*local*" = live_events.
Proof. vm_compute. reflexivity. Qed.

(** C4 at work: the first element of the stream over [events] moves the
    cursor to 1; at the end of the snapshot the stream ends; on the live
    feed with a silent daemon three turns leave the loop running. *)
Lemma stream_examples :
  (progress_of (__next__ daemon_url daemon 1 (events_stream, events) [])
   = Done (Ok (msg 1))
   /\ snd (state_of (__next__ daemon_url daemon 1 (events_stream, events) []))
      = with_position events (_position events + 1))
  /\ __next__ daemon_url daemon 1
       (mkIter false [msg 1; msg 2; msg 3] 3, with_position events 3) []
     = (Done (Raise StopIteration),
        (mkIter false [msg 1; msg 2; msg 3] 3, with_position events 3), [])
  /\ progress_of (__next__ daemon_url silent_daemon 3 (mkIter false [] 0, live_events) [])
     = Running.
Proof.
  split; [| split].
  - assert (Hyield : progress_of (__next__ daemon_url daemon 1 (events_stream, events) [])
                     = Done (Ok (msg 1))) by (vm_compute; reflexivity).
    split; [exact Hyield |].
    pose proof (message_stream_next_outcome daemon_url daemon 1 events_stream events []
                  ltac:(simpl; lia)) as H.
    cbv zeta in H. destruct H as (_ & H2 & _).
    exact (proj1 (H2 (msg 1) Hyield)).
  - pose proof (message_stream_next_outcome daemon_url daemon 1
                  (mkIter false [msg 1; msg 2; msg 3] 3) (with_position events 3) []
                  ltac:(simpl; lia)) as H.
    cbv zeta in H. destruct H as (_ & _ & _ & _ & H5 & _).
    apply (H5 [msg 1; msg 2; msg 3]).
    + reflexivity.
    + exact (events_messages 3).
    + simpl. lia.
    + reflexivity.
    + lia.
  - pose proof (message_stream_next_outcome daemon_url silent_daemon 3
                  (mkIter false [] 0) live_events [] ltac:(simpl; lia)) as H.
    cbv zeta in H. destruct H as (_ & _ & _ & _ & _ & H6).
    exact (proj1 (H6 silent_daemon_quiet eq_refl eq_refl)).
Defined.

(** A client holding [events] and no iterator. *)
Definition events_client : client := mkClient events [] [].

(** C2 as stated fails: [set_position] takes the cursor back from 3 to 0
    and puts it at 7, past the three messages; and two streams over the
    same subfeed take it to 4. *)
Lemma cursor_goes_back_and_past_the_end :
  cursor (perform_all daemon_url daemon [get_next_messages 10 false 0 true] events_client)
  = 3
  /\ cursor (perform_all daemon_url daemon
               [get_next_messages 10 false 0 true; set_position 0] events_client)
     = 0
  /\ cursor (perform_all daemon_url daemon [set_position 7] events_client) = 7
  /\ Subfeed_get_num_local_messages daemon_url daemon events []
     = (Ok (JInt 3), events, [])
  /\ cursor (perform_all daemon_url daemon
               [message_stream false; message_stream false;
                next 0 1; next 0 1; next 0 1; next 1 1] events_client)
     = 4.
Proof. vm_compute. repeat split; reflexivity. Qed.

(** C2 at work: a fetch of two messages and a stream of two elements
    over [events]. *)
Lemma cursor_moves_on_example :
  cursor events_client
  <= cursor (perform_all daemon_url daemon
               [get_next_messages 10 false 2 true; message_stream false;
                next 0 1; next 0 1] events_client)
  /\ cursor (perform_all daemon_url daemon
               [get_next_messages 10 false 2 true; message_stream false;
                next 0 1; next 0 1] events_client)
     = 3.
Proof.
  split; [| vm_compute; reflexivity].
  apply (cursor_under_operations daemon_url daemon
           [get_next_messages 10 false 2 true; message_stream false;
            next 0 1; next 0 1] events_client).
  intros o [<- | [<- | [<- | [<- | []]]]]; reflexivity.
Defined.

(** C7 as stated fails: after a successful [delete] of the live feed its
    subfeeds load, have their URI, take a new position and, the daemon
    willing, a new message. *)
Lemma deleted_feed_still_works :
  result_of (Feed_delete daemon_url daemon registry live_feed []) = Ok tt
  /\ Feed_load_subfeed (self_of (Feed_delete daemon_url daemon registry live_feed []))
       (JStr "events") 0 "*local*"
     = live_events
  /\ Subfeed_uri live_events = Ok "feed://abc/events"
  /\ Subfeed_set_position 2 live_events
       (trace_of (Feed_delete daemon_url daemon registry live_feed []))
     = (Ok tt, with_position live_events 2,
        trace_of (Feed_delete daemon_url daemon registry live_feed []))
  /\ result_of (Subfeed_append_message daemon_url daemon (msg 1) live_events
                  (trace_of (Feed_delete daemon_url daemon registry live_feed [])))
     = Ok tt.
Proof. vm_compute. repeat split; reflexivity. Qed.

(** C7 at work: [delete] on the live feed and on the snapshot feed. *)
Lemma delete_examples :
  self_of (Feed_delete daemon_url daemon registry live_feed []) = live_feed
  /\ trace_of (Feed_delete daemon_url daemon registry live_feed [])
     = [Post (base ++ "/feed/deleteFeed") (JDict [("feedId", JStr "abc")]) (JDict [])]
  /\ Feed_delete daemon_url daemon registry snapshot_feed []
     = (Raise (Exception "Unable to load feed with name"), snapshot_feed, []).
Proof.
  pose proof (delete_leaves_feed_as_it_was daemon_url daemon loader registry
                live_feed [] live_feed_constructed) as H.
  cbv zeta in H. destruct H as (H1 & _).
  pose proof (delete_leaves_feed_as_it_was daemon_url daemon loader registry
                snapshot_feed [] snapshot_feed_constructed) as H.
  cbv zeta in H. destruct H as (_ & _ & H3 & _).
  split; [exact H1 |]. split; [vm_compute; reflexivity |].
  apply H3; reflexivity.
Defined.


(* ------------------------------------------------------------------ *)
(** *** The further properties at work *)

(** X1 at work: the snapshot feed and the live feed [abc]. *)
Lemma feed_shape_examples :
  (_feed_id snapshot_feed = None
   /\ _is_writeable snapshot_feed = JBool false
   /\ (exists obj : json, _snapshot_object snapshot_feed = Some obj /\ obj <> JNull)
   /\ PyStr.startswith (_feed_uri snapshot_feed) "sha1://" = true
   /\ PyStr.startswith (_feed_uri snapshot_feed) "feed://" = false)
  /\ exists fid : string,
       _feed_id live_feed = Some fid
       /\ PyStr.contains "/" fid = false /\ PyStr.contains "?" fid = false
       /\ PyStr.startswith (_feed_uri live_feed) "feed://" = true
       /\ _parse_feed_uri (_feed_uri live_feed) = Ok (fid, None, 0)
       /\ _snapshot_object live_feed = None.
Proof.
  split.
  - exact (constructed_feed_shape daemon_url daemon loader snapshot_feed
             snapshot_feed_constructed).
  - exact (constructed_feed_shape daemon_url daemon loader live_feed
             live_feed_constructed).
Defined.

Lemma abc_is_a_feed_uri : PyStr.startswith (feed_uri_of "abc") "feed://" = true.
Proof. reflexivity. Qed.

Lemma abc_parses : _parse_feed_uri (feed_uri_of "abc") = Ok ("abc", None, 0).
Proof. vm_compute. reflexivity. Qed.

(** X3 at work: the constructor on the bare feed id [abc]. *)
Lemma feed_init_asks_once_example :
  self_of (Feed__init__ daemon_url daemon loader "abc" tt []) = tt
  /\ trace_of (Feed__init__ daemon_url daemon loader "abc" tt [])
     = [Post (base ++ "/feed/getFeedInfo") (JDict [("feedId", JStr "abc")]) (JDict [])].
Proof.
  pose proof (Feed_init_live_asks_once daemon_url daemon loader unit "abc" "abc" tt []
                (base, JDict []) abc_is_a_feed_uri abc_parses eq_refl) as H.
  cbv zeta in H. destruct H as (H1 & H2 & _).
  split; [exact H1 | exact H2].
Defined.

(** X5 at work: the URI of [events] on the snapshot feed and on the live
    feed. *)
Lemma subfeed_uri_examples :
  (Subfeed_uri (Feed_load_subfeed snapshot_feed (JStr "events") 0 "*local*")
   = Ok (_feed_uri snapshot_feed ++ "?subfeedName="
         ++ Urllib.quote
              (_subfeed_name_str
                 (Feed_load_subfeed snapshot_feed (JStr "events") 0 "*local*")))
   /\ _parse_feed_uri
        (_feed_uri snapshot_feed ++ "?subfeedName="
         ++ Urllib.quote
              (_subfeed_name_str
                 (Feed_load_subfeed snapshot_feed (JStr "events") 0 "*local*")))
      = Raise AssertionError)
  /\ Subfeed_uri (Feed_load_subfeed live_feed (JStr "events") 0 "*local*")
     = Ok (_feed_uri live_feed ++ "/"
           ++ Urllib.quote
                (_subfeed_name_str
                   (Feed_load_subfeed live_feed (JStr "events") 0 "*local*"))).
Proof.
  split.
  - exact (subfeed_uri_of_constructed_feed daemon_url daemon loader snapshot_feed
             (JStr "events") 0 "*local*" snapshot_feed_constructed).
  - exact (subfeed_uri_of_constructed_feed daemon_url daemon loader live_feed
             (JStr "events") 0 "*local*" live_feed_constructed).
Defined.

(** A structured subfeed name. *)
Definition run_name : json := JDict [("run", JInt 7)].

(** X6 at work: the URI of the subfeed [run_name] of the live feed. *)
Lemma structured_uri_example :
  Subfeed_uri (Feed_load_subfeed live_feed run_name 0 "*local*")
  = Ok ("feed://" ++ "abc" ++ "/~"
        ++ sf_subfeed_hash (Feed_load_subfeed live_feed run_name 0 "*local*"))
  /\ _parse_feed_uri
       ("feed://" ++ "abc" ++ "/~"
        ++ sf_subfeed_hash (Feed_load_subfeed live_feed run_name 0 "*local*"))
     = Ok ("abc",
           Some ("~" ++ sf_subfeed_hash (Feed_load_subfeed live_feed run_name 0 "*local*")),
           0)
  /\ _subfeed_hash
       (JStr ("~" ++ sf_subfeed_hash (Feed_load_subfeed live_feed run_name 0 "*local*")))
     = sf_subfeed_hash (Feed_load_subfeed live_feed run_name 0 "*local*").
Proof.
  exact (structured_subfeed_uri_round_trip daemon_url daemon loader live_feed "abc"
           run_name 0 "*local*" live_feed_constructed eq_refl eq_refl eq_refl).
Defined.

Lemma events_addressable : addressable (JStr "events").
Proof.
  split; [discriminate |].
  exists [101; 118; 101; 110; 116; 115]%N. split; reflexivity.
Defined.

(** X7 at work: the URI of [events] at position 5 of the live feed, read
    back on another channel, and the URI of the subfeed with the empty
    name. *)
Lemma load_subfeed_example :
  (forall sf' : Subfeed,
     result_of
       (_load_subfeed daemon_url daemon loader
          ("feed://" ++ "abc" ++ "/"
           ++ Urllib.quote
                (_subfeed_name_str
                   (Feed_load_subfeed live_feed (JStr "events") 5 "*local*")))
          "remote" tt [])
     = Ok sf' ->
     sf_subfeed_hash sf'
     = sf_subfeed_hash (Feed_load_subfeed live_feed (JStr "events") 5 "*local*")
     /\ _position sf' = 0 /\ _channel sf' = "remote")
  /\ _load_subfeed daemon_url daemon loader ("feed://" ++ "abc" ++ "/") "remote" tt []
     = (Raise AssertionError, tt, []).
Proof.
  split.
  - destruct (load_subfeed_reads_back_the_uri daemon_url daemon loader unit live_feed
                "abc" (JStr "events") 5 "*local*" "remote" tt []
                live_feed_constructed eq_refl eq_refl) as [H _].
    destruct (H events_addressable) as (_ & _ & H3).
    intros sf' Hsf'. destruct (H3 sf' Hsf') as (Hh & _ & _ & _ & Hp & Hc).
    split; [exact Hh |]. split; [exact Hp | exact Hc].
  - destruct (load_subfeed_reads_back_the_uri daemon_url daemon loader unit live_feed
                "abc" (JStr "") 5 "*local*" "remote" tt []
                live_feed_constructed eq_refl eq_refl) as [_ H].
    exact (proj2 (H eq_refl)).
Defined.

(** X9 at work: the message at position 1 of [events], and none at
    position 3. *)
Lemma snapshot_next_message_examples :
  Subfeed_get_next_message daemon_url daemon 10 false true (with_position events 1) []
  = (Ok (msg 2), with_position events 2, [])
  /\ Subfeed_get_next_message daemon_url daemon 10 false true (with_position events 3) []
     = (Ok JNull, with_position events 3, []).
Proof.
  split.
  - rewrite (snapshot_get_next_message daemon_url daemon (with_position events 1) []
               [msg 1; msg 2; msg 3] 10 false true eq_refl (events_messages 1)
               ltac:(simpl; lia)).
    reflexivity.
  - rewrite (snapshot_get_next_message daemon_url daemon (with_position events 3) []
               [msg 1; msg 2; msg 3] 10 false true eq_refl (events_messages 3)
               ltac:(simpl; lia)).
    reflexivity.
Defined.

(** X10 at work: the count of [events] with the cursor at 2. *)
Lemma snapshot_count_example :
  Subfeed_get_num_local_messages daemon_url daemon (with_position events 2) []
  = (Ok (JInt 3), with_position events 2, [])
  /\ bind (Subfeed_set_position 0)
       (fun _ => Subfeed_get_next_messages daemon_url daemon 10 false 0 true)
       (with_position events 2) []
     = (Ok (JList [msg 1; msg 2; msg 3]), with_position events 3, []).
Proof.
  destruct (snapshot_get_num_local_messages daemon_url daemon (with_position events 2) []
              [msg 1; msg 2; msg 3] eq_refl (events_messages 2)) as [H1 H2].
  split.
  - rewrite H1. reflexivity.
  - rewrite (H2 10 false). reflexivity.
Defined.

(** X11 at work: the count of the live subfeed [events]. *)
Lemma live_count_example :
  self_of (Subfeed_get_num_local_messages daemon_url daemon live_events []) = live_events
  /\ trace_of (Subfeed_get_num_local_messages daemon_url daemon live_events [])
     = [Post (base ++ "/feed/getNumLocalMessages")
          (JDict [("feedId", JStr "abc"); ("subfeedHash", JStr events_hash)])
          (JDict [])].
Proof.
  pose proof (live_get_num_local_messages daemon_url daemon live_events []
                (base, JDict []) eq_refl eq_refl) as H.
  cbv zeta in H. destruct H as (H1 & H2 & _).
  split; [exact H1 | exact H2].
Defined.

(** X12 at work: one message appended to the live subfeed [events]. *)
Lemma live_append_example :
  result_of (Subfeed_append_messages daemon_url daemon (JList [msg 1]) live_events [])
  = Ok tt
  /\ trace_of (Subfeed_append_messages daemon_url daemon (JList [msg 1]) live_events [])
     = [Post (base ++ "/feed/appendMessages")
          (JDict [("feedId", JStr "abc"); ("subfeedHash", JStr events_hash);
                  ("messages", JList [msg 1])])
          (JDict [])]
  /\ Subfeed_append_message daemon_url daemon (msg 1) live_events []
     = Subfeed_append_messages daemon_url daemon (JList [msg 1]) live_events [].
Proof.
  pose proof (writeable_append_messages daemon_url daemon live_events []
                (base, JDict []) (JList [msg 1]) eq_refl eq_refl) as H.
  cbv zeta in H. destruct H as (_ & H2 & H3 & _ & H5).
  split; [| split; [exact H2 | exact (H5 (msg 1) eq_refl)]].
  apply H3. exists (JDict [("success", JBool true)]), (JBool true).
  split; [reflexivity |]. split; reflexivity.
Defined.

Lemma nothing_to_watch :
  daemon [] (base ++ "/feed/watchForNewMessages")
    (JDict [("subfeedWatches",
             JDict [("watch",
                     JDict [("feedId", JStr "abc");
                            ("subfeedHash", JStr events_hash);
                            ("channelName", JStr "*local*");
                            ("position", JInt 0)])]);
            ("waitMsec", JInt 10);
            ("signed", JBool false);
            ("maxNumMessages", JInt 0)])
    (JDict [])
  = Reply (JDict [("success", JBool true); ("messages", JDict [])]).
Proof. vm_compute. reflexivity. Qed.

(** X13 at work: a fetch on the live subfeed [events] before anything
    was appended. *)
Lemma live_fetch_example :
  trace_of (Subfeed_get_next_messages daemon_url daemon 10 false 0 true live_events [])
  = [Post (base ++ "/feed/watchForNewMessages")
       (JDict [("subfeedWatches",
                JDict [("watch",
                        JDict [("feedId", JStr "abc");
                               ("subfeedHash", JStr events_hash);
                               ("channelName", JStr "*local*");
                               ("position", JInt 0)])]);
               ("waitMsec", JInt 10);
               ("signed", JBool false);
               ("maxNumMessages", JInt 0)])
       (JDict [])]
  /\ result_of (Subfeed_get_next_messages daemon_url daemon 10 false 0 true live_events [])
     = Ok (JList [])
  /\ self_of (Subfeed_get_next_messages daemon_url daemon 10 false 0 true live_events [])
     = live_events.
Proof.
  pose proof (live_get_next_messages daemon_url daemon live_events [] (base, JDict [])
                10 false 0 true eq_refl eq_refl) as H.
  cbv zeta in H. destruct H as (H1 & H2 & _).
  split; [exact H1 |].
  exact (H2 (JDict [("success", JBool true); ("messages", JDict [])]) (JBool true) []
           nothing_to_watch eq_refl eq_refl eq_refl).
Defined.

(** X15 at work: fetches, a refused append, a stream and a count on
    [events]. *)
Lemma snapshot_offline_example :
  c_trace (perform_all daemon_url daemon
             [get_next_messages 10 false 1 true; append_message (msg 9);
              message_stream false; next 0 1; next 0 1; next 0 1;
              set_position 0; get_num_local_messages; get_next_message 10 false true]
             events_client)
  = [].
Proof.
  destruct (snapshot_subfeed_works_offline daemon_url daemon loader
              [get_next_messages 10 false 1 true; append_message (msg 9);
               message_stream false; next 0 1; next 0 1; next 0 1;
               set_position 0; get_num_local_messages; get_next_message 10 false true]
              events_client snapshot_feed_constructed eq_refl) as [H _].
  exact H.
Defined.

Lemma events_within_1 : within [msg 1; msg 2; msg 3] (with_position events 1).
Proof.
  split; [reflexivity |]. split; [exact (events_messages 1) |]. simpl. lia.
Defined.

(** X16 at work: the loop over the stream of [events] from position 1. *)
Lemma snapshot_stream_example :
  exists it it' : custom_iterator,
    Subfeed_message_stream daemon_url daemon false (with_position events 1) []
    = (Ok tt, (it, with_position events 1), [])
    /\ for_each daemon_url daemon 5 1 (it, with_position events 1) []
       = ([msg 2; msg 3], Some (Done (Raise StopIteration)),
          (it', with_position events 3), []).
Proof.
  destruct (snapshot_stream_yields_the_rest daemon_url daemon [msg 1; msg 2; msg 3]
              false (with_position events 1) [] 5 0 events_within_1
              ltac:(simpl; lia)) as (it & it' & H1 & H2).
  exists it, it'. split; [exact H1 |]. rewrite H2. reflexivity.
Defined.

(** A daemon that creates the feed [abc]. *)
Definition creating_daemon (t : list event) (url : string) (body headers : json)
  : reply json :=
  if String.eqb url (base ++ "/feed/createFeed") then
    Reply (JDict [("success", JBool true); ("feedId", JStr "abc")])
  else daemon t url body headers.

Lemma abc_created :
  result_of (_create_feed daemon_url creating_daemon loader registry tt [])
  = Ok live_feed.
Proof. vm_compute. reflexivity. Qed.

(** X17 at work: [_create_feed()] against the creating daemon. *)
Lemma create_feed_example :
  exists fid : string,
    _feed_id live_feed = Some fid /\ _feed_uri live_feed = "feed://" ++ fid
    /\ _is_snapshot live_feed = false
    /\ trace_of (_create_feed daemon_url creating_daemon loader registry tt [])
       = [Post (base ++ "/feed/createFeed") (JDict []) (JDict []);
          Post (base ++ "/feed/getFeedInfo") (JDict [("feedId", JStr fid)]) (JDict [])].
Proof.
  pose proof (create_feed_outcome daemon_url creating_daemon loader registry unit tt []
                (base, JDict []) eq_refl) as H.
  cbv zeta in H. destruct H as (_ & _ & H3 & _).
  destruct (H3 live_feed abc_created) as (fid & Ha & Hb & Hc & Hd).
  exists fid. split; [exact Ha |]. split; [exact Hb |]. split; [exact Hc | exact Hd].
Defined.

Lemma events_uri_parses :
  _parse_feed_uri (feed_uri_of "feed://abc/events") = Ok ("abc", Some "events", 0).
Proof. vm_compute. reflexivity. Qed.

(** X2 at work: a subfeed URI and a web address given to the constructor. *)
Lemma feed_init_refusals :
  Feed__init__ daemon_url daemon loader "feed://abc/events" tt []
  = (Raise (Exception "Cannot specify subfeed name in URI when loading feed"), tt, [])
  /\ Feed__init__ daemon_url daemon loader "http://abc" tt []
     = (Raise (Exception "Unexpected feed uri"), tt, []).
Proof.
  destruct (Feed_init_refuses_without_a_call daemon_url daemon loader unit
              "feed://abc/events" tt []) as (_ & H2 & _).
  destruct (Feed_init_refuses_without_a_call daemon_url daemon loader unit
              "http://abc" tt []) as (_ & _ & H3 & _).
  split.
  - exact (H2 "abc" "events" eq_refl events_uri_parses).
  - exact (H3 eq_refl eq_refl).
Defined.

(** X4 at work: the hash of the subfeed [events]. *)
Lemma events_hash_shape :
  String.length (sf_subfeed_hash (Feed_load_subfeed live_feed (JStr "events") 0 "*local*"))
  = 40%nat
  /\ all_chars is_lower_hex
       (sf_subfeed_hash (Feed_load_subfeed live_feed (JStr "events") 0 "*local*"))
     = true.
Proof.
  apply (proj2 (subfeed_name_str_names_the_stream live_feed (JStr "events") 0 "*local*")).
  intros s H. injection H as <-. reflexivity.
Defined.

Lemma events_uri_parses_plain :
  _parse_feed_uri "feed://abc/events" = Ok ("abc", Some "events", 0).
Proof. vm_compute. reflexivity. Qed.

(** X8 at work: [_load_feed] on a subfeed URI and on an unknown name. *)
Lemma load_feed_refusals :
  _load_feed daemon_url daemon loader registry "feed://abc/events" tt []
  = (Raise AssertionError, tt, [])
  /\ _load_feed daemon_url daemon loader registry "my-feed" tt []
     = (Raise (Exception "Unable to load feed with name"), tt, []).
Proof.
  destruct (load_feed_outcome daemon_url daemon loader registry unit
              "feed://abc/events" tt []) as (_ & H2 & _).
  destruct (load_feed_outcome daemon_url daemon loader registry unit
              "my-feed" tt []) as (_ & _ & H3).
  split.
  - exact (H2 "abc" "events" eq_refl events_uri_parses_plain).
  - exact (H3 eq_refl eq_refl eq_refl).
Defined.

(** X14 at work: a watch by name, and a watch without position. *)
Lemma watch_examples :
  watch2 "*local*"
    (JDict [("feedId", JStr "abc"); ("subfeedName", JStr "events");
            ("position", JInt 0)])
  = watch2 "*local*"
      (JDict [("subfeedHash", JStr (_subfeed_hash (JStr "events")));
              ("feedId", JStr "abc"); ("subfeedName", JStr "events");
              ("position", JInt 0)])
  /\ trace_of (_watch_for_new_messages daemon_url daemon
                 [("w", JDict [("feedId", JStr "abc"); ("subfeedHash", JStr "00")])]
                 10 "*local*" false 0 tt [])
     = []
  /\ result_of (_watch_for_new_messages daemon_url daemon
                  [("w", JDict [("feedId", JStr "abc"); ("subfeedHash", JStr "00")])]
                  10 "*local*" false 0 tt [])
     = Raise KeyError.
Proof.
  destruct (watch_for_new_messages_entries daemon_url daemon "*local*" []) as (_ & H2 & _).
  destruct (watch_for_new_messages_entries daemon_url daemon "*local*"
              [("w", JDict [("feedId", JStr "abc"); ("subfeedHash", JStr "00")])])
    as (_ & _ & H3 & _).
  split.
  - exact (H2 [("feedId", JStr "abc"); ("subfeedName", JStr "events");
               ("position", JInt 0)] (JStr "events") eq_refl eq_refl).
  - pose proof (H3 unit 10 false 0 tt [] KeyError eq_refl) as H.
    cbv zeta in H. destruct H as (Ht & _ & Hr).
    split; [exact Ht | exact (Hr (base, JDict []) eq_refl)].
Defined.
End Run.
